(** * RetroTector loader: a shallow embedding of [retrotector.py]

    The development follows the layout of the Python module
    [utils/retrotector_db/retrotector.py]:

    - Python values as they come out of [json.load], and the handful of
      builtin operations the module applies to them ([dict.get],
      subscripting, iteration, truthiness, [int], [float], [str.lower]);
    - the field mappers ([parse_run_metadata], [parse_ltrs],
      [extract_herv_chain_metadata], [parse_subgenes_and_domains],
      [parse_motifs]) as functions into an error monad;
    - the store connection as explicit state (a statement log with a
      committed prefix), the insert functions and the orchestrator
      [parse_and_load_retroctector] in a state-and-error monad;
    - [main] with its [try]/[except]/[finally] written out.
*)

From Stdlib Require Import ZArith List String Ascii Bool Lia.
From Stdlib Require Import SpecFloat.
Import ListNotations.

Set Warnings "-register-all".

Local Open Scope string_scope.
Local Open Scope Z_scope.
Local Open Scope list_scope.

(** ** Exceptions *)

(** The exception classes that can surface in the module.  [StoreError]
    stands for [psycopg2.Error] and its subclasses; [UserError] for a class
    identified by name only. *)
Inductive pyexc : Type :=
| KeyError
| TypeError
| ValueError
| AttributeError
| OverflowError
| UnboundLocalError
| OSError
| StoreError
| SystemExit
| KeyboardInterrupt
| UserError (name : string).

(** [except Exception] catches every class but the two that derive from
    [BaseException] directly. *)
Definition is_Exception (e : pyexc) : bool :=
  match e with
  | SystemExit | KeyboardInterrupt => false
  | _ => true
  end.

Inductive result (A : Type) : Type :=
| Ok (a : A)
| Raise (e : pyexc).
Arguments Ok {A} a.
Arguments Raise {A} e.

Definition rbind {A B : Type} (r : result A) (f : A -> result B) : result B :=
  match r with
  | Ok a => f a
  | Raise e => Raise e
  end.

Declare Scope res_scope.
Delimit Scope res_scope with res.
Notation "x <- r ;; k" := (rbind r (fun x => k))
  (at level 61, r at next level, right associativity) : res_scope.
Notation "' p <- r ;; k" := (rbind r (fun p => k))
  (at level 61, p pattern, r at next level, right associativity) : res_scope.

Fixpoint rmapM {A B : Type} (f : A -> result B) (l : list A) : result (list B) :=
  match l with
  | [] => Ok []
  | a :: rest =>
      (b <- f a ;;
       bs <- rmapM f rest ;;
       Ok (b :: bs))%res
  end.

(** ** Python values *)

Record datetime : Type := mk_datetime {
  dt_year : Z; dt_month : Z; dt_day : Z;
  dt_hour : Z; dt_minute : Z; dt_second : Z }.

(** Strings are byte strings (the UTF-8 encoding of the Python [str]);
    floats are IEEE binary64 values ([spec_float] at precision 53). *)
Inductive pyval : Type :=
| VNone
| VBool (b : bool)
| VInt (z : Z)
| VFloat (f : spec_float)
| VStr (s : string)
| VList (l : list pyval)
| VDict (d : list (string * pyval))
| VDatetime (t : datetime).

(** A [dict] with string keys is an association list in insertion order:
    the order is observable, the insert functions turn [data.keys()] into
    the column list of the statement. *)
Definition row : Type := list (string * pyval).

Fixpoint dict_get (d : row) (k : string) : option pyval :=
  match d with
  | [] => None
  | (k', v) :: rest => if String.eqb k' k then Some v else dict_get rest k
  end.

Fixpoint dict_remove (d : row) (k : string) : row :=
  match d with
  | [] => []
  | (k', v) :: rest =>
      if String.eqb k' k then dict_remove rest k else (k', v) :: dict_remove rest k
  end.

(** [d[k] = v]: an existing key keeps its position, a new one goes last. *)
Fixpoint dict_set (d : row) (k : string) (v : pyval) : row :=
  match d with
  | [] => [(k, v)]
  | (k', v') :: rest =>
      if String.eqb k' k then (k, v) :: rest else (k', v') :: dict_set rest k v
  end.

(** [d.pop(k)]: the value and the remaining dict, [KeyError] when absent. *)
Definition dict_pop (d : row) (k : string) : result (pyval * row) :=
  match dict_get d k with
  | Some v => Ok (v, dict_remove d k)
  | None => Raise KeyError
  end.

(** [d.pop(k, None)] used as a statement: the remaining dict. *)
Definition dict_pop_default (d : row) (k : string) : row := dict_remove d k.

(** [v.get(k, dflt)]: only a dict has the method. *)
Definition py_get (v : pyval) (k : string) (dflt : pyval) : result pyval :=
  match v with
  | VDict d => Ok (match dict_get d k with Some x => x | None => dflt end)
  | _ => Raise AttributeError
  end.

(** [v[k]] with a string key. *)
Definition py_getitem (v : pyval) (k : string) : result pyval :=
  match v with
  | VDict d => match dict_get d k with Some x => Ok x | None => Raise KeyError end
  | _ => Raise TypeError
  end.

(** The items a string yields when iterated.  The module never uses
    them beyond their number being zero or not: a string has no [get]. *)
Fixpoint chars_of (s : string) : list pyval :=
  match s with
  | EmptyString => []
  | String c rest => VStr (String c EmptyString) :: chars_of rest
  end.

(** [for x in v]: a list yields its items, a dict its keys, a string its
    characters; the other values are not iterable. *)
Definition py_iter (v : pyval) : result (list pyval) :=
  match v with
  | VList l => Ok l
  | VDict d => Ok (map (fun kv => VStr (fst kv)) d)
  | VStr s => Ok (chars_of s)
  | _ => Raise TypeError
  end.

Definition float_is_zero (f : spec_float) : bool :=
  match f with
  | S754_zero _ => true
  | _ => false
  end.

(** [bool(v)]. *)
Definition py_truthy (v : pyval) : bool :=
  match v with
  | VNone => false
  | VBool b => b
  | VInt z => negb (z =? 0)
  | VFloat f => negb (float_is_zero f)
  | VStr s => negb (String.eqb s "")
  | VList l => match l with [] => false | _ => true end
  | VDict d => match d with [] => false | _ => true end
  | VDatetime _ => true
  end.

(** [a or b], the second operand evaluated only when needed. *)
Definition py_or (a : pyval) (b : result pyval) : result pyval :=
  if py_truthy a then Ok a else b.

Definition ascii_lower (c : ascii) : ascii :=
  let n := N_of_ascii c in
  if ((65 <=? n) && (n <=? 90))%N then ascii_of_N (n + 32) else c.

(** [s.lower()] on the ASCII letters.  No character outside ASCII lowers to
    one of the letters of "yes", "true" or "1", so the membership test of
    [to_bool] is not affected by the bytes left unchanged here. *)
Fixpoint lower (s : string) : string :=
  match s with
  | EmptyString => EmptyString
  | String c rest => String (ascii_lower c) (lower rest)
  end.

(** [x in (a, b, c)] on strings. *)
Definition str_in (s : string) (l : list string) : bool :=
  existsb (String.eqb s) l.

(** ** Numeric coercions *)

Definition float_of_Z (z : Z) : result spec_float :=
  match binary_normalize 53 1024 z 0 false with
  | S754_infinity _ => Raise OverflowError
  | f => Ok f
  end.

(** [int(f)] on a float truncates towards zero. *)
Definition Z_of_float (f : spec_float) : result Z :=
  match f with
  | S754_zero _ => Ok 0
  | S754_infinity _ => Raise OverflowError
  | S754_nan => Raise ValueError
  | S754_finite s m e =>
      let a := if 0 <=? e then Z.pos m * 2 ^ e else Z.pos m / 2 ^ (- e) in
      Ok (if s then - a else a)
  end.

(** ** Boolean and timestamp normalisation *)

(** [to_bool], the helper nested in [parse_run_metadata]. *)
Definition to_bool (val : pyval) : pyval :=
  match val with
  | VBool b => VBool b
  | VStr s => VBool (str_in (lower s) ["yes"; "true"; "1"])
  | v => VBool (py_truthy v)
  end.

(** *** [datetime.strptime] at the format ["%a %b %d %H:%M:%S GMT %Y"]

    The library compiles the format into a regular expression, matched
    case-insensitively at the start of the string by a backtracking
    matcher; the data must then be consumed entirely and the fields must
    form a valid date.  A parser is the list of its matches in the
    matcher's priority order, so the match the library takes is the head
    of the list. *)
Definition parser (A : Type) : Type := string -> list (A * string).

Definition p_ret {A : Type} (a : A) : parser A := fun s => [(a, s)].

Definition p_bind {A B : Type} (p : parser A) (f : A -> parser B) : parser B :=
  fun s => flat_map (fun m => f (fst m) (snd m)) (p s).

Definition p_alt {A : Type} (p q : parser A) : parser A :=
  fun s => p s ++ q s.

Definition digit_of (c : ascii) : option Z :=
  let n := N_of_ascii c in
  if ((48 <=? n) && (n <=? 57))%N then Some (Z.of_N n - 48) else None.

(** One decimal digit between [lo] and [hi]: the classes [[0-1]], [\d], ... *)
Definition p_digit (lo hi : Z) : parser Z :=
  fun s =>
    match s with
    | String c r =>
        match digit_of c with
        | Some d => if (lo <=? d) && (d <=? hi) then [(d, r)] else []
        | None => []
        end
    | EmptyString => []
    end.

Definition p_two (lo1 hi1 lo2 hi2 : Z) : parser Z :=
  p_bind (p_digit lo1 hi1) (fun a =>
  p_bind (p_digit lo2 hi2) (fun b => p_ret (10 * a + b))).

Definition p_char (x : ascii) : parser unit :=
  fun s =>
    match s with
    | String c r => if Ascii.eqb c x then [(tt, r)] else []
    | EmptyString => []
    end.

(** A literal given in lower case, matched ignoring case. *)
Fixpoint match_ci (lit s : string) : option string :=
  match lit, s with
  | EmptyString, _ => Some s
  | String a lit', String c s' =>
      if Ascii.eqb a (ascii_lower c) then match_ci lit' s' else None
  | String _ _, EmptyString => None
  end.

Definition p_lit_ci (lit : string) : parser unit :=
  fun s => match match_ci lit s with Some r => [(tt, r)] | None => [] end.

(** The alternation of the given names; the value is 1 + the position. *)
Fixpoint p_names (names : list string) (i : Z) : parser Z :=
  match names with
  | [] => fun _ => []
  | n :: rest => p_alt (p_bind (p_lit_ci n) (fun _ => p_ret i)) (p_names rest (i + 1))
  end.

(** The blanks [\s] among the ASCII characters, as [digit_of] has the
    ASCII digits of [\d]: the library's classes also hold the blanks and
    decimal digits outside ASCII. *)
Definition is_space (c : ascii) : bool :=
  let n := N_of_ascii c in
  (((9 <=? n) && (n <=? 13)) || ((28 <=? n) && (n <=? 32)))%N.

(** [\s*], greedy: the longest run first. *)
Fixpoint p_spaces_star (s : string) : list (unit * string) :=
  match s with
  | String c r => if is_space c then p_spaces_star r ++ [(tt, s)] else [(tt, s)]
  | EmptyString => [(tt, s)]
  end.

(** [\s+], what a blank of the format becomes. *)
Definition p_spaces : parser unit :=
  fun s =>
    match s with
    | String c r => if is_space c then p_spaces_star r else []
    | EmptyString => []
    end.

Definition weekday_names : list string :=
  ["mon"; "tue"; "wed"; "thu"; "fri"; "sat"; "sun"].

Definition month_names : list string :=
  ["jan"; "feb"; "mar"; "apr"; "may"; "jun";
   "jul"; "aug"; "sep"; "oct"; "nov"; "dec"].

(** [%d]: [3[0-1]|[1-2]\d|0[1-9]|[1-9]| [1-9]]. *)
Definition p_day : parser Z :=
  p_alt (p_two 3 3 0 1)
  (p_alt (p_two 1 2 0 9)
  (p_alt (p_two 0 0 1 9)
  (p_alt (p_digit 1 9)
         (p_bind (p_char " ") (fun _ => p_digit 1 9))))).

(** [%H]: [2[0-3]|[0-1]\d|\d]. *)
Definition p_hour : parser Z :=
  p_alt (p_two 2 2 0 3) (p_alt (p_two 0 1 0 9) (p_digit 0 9)).

(** [%M]: [[0-5]\d|\d]. *)
Definition p_minute : parser Z :=
  p_alt (p_two 0 5 0 9) (p_digit 0 9).

(** [%S]: [6[0-1]|[0-5]\d|\d]. *)
Definition p_second : parser Z :=
  p_alt (p_two 6 6 0 1) (p_alt (p_two 0 5 0 9) (p_digit 0 9)).

(** [%Y]: [\d\d\d\d]. *)
Definition p_year : parser Z :=
  p_bind (p_digit 0 9) (fun a =>
  p_bind (p_digit 0 9) (fun b =>
  p_bind (p_digit 0 9) (fun c =>
  p_bind (p_digit 0 9) (fun d => p_ret (1000 * a + 100 * b + 10 * c + d))))).

(** The whole format.  The weekday is matched and then ignored: the
    library does not compare it with the date. *)
Definition p_gmt_format : parser datetime :=
  p_bind (p_names weekday_names 1) (fun _ =>
  p_bind p_spaces (fun _ =>
  p_bind (p_names month_names 1) (fun mo =>
  p_bind p_spaces (fun _ =>
  p_bind p_day (fun d =>
  p_bind p_spaces (fun _ =>
  p_bind p_hour (fun h =>
  p_bind (p_char ":") (fun _ =>
  p_bind p_minute (fun mi =>
  p_bind (p_char ":") (fun _ =>
  p_bind p_second (fun sec =>
  p_bind p_spaces (fun _ =>
  p_bind (p_lit_ci "gmt") (fun _ =>
  p_bind p_spaces (fun _ =>
  p_bind p_year (fun y =>
  p_ret (mk_datetime y mo d h mi sec)))))))))))))))).

Definition is_leap (y : Z) : bool :=
  ((y mod 4 =? 0) && negb (y mod 100 =? 0)) || (y mod 400 =? 0).

Definition days_in_month (y m : Z) : Z :=
  if m =? 2 then (if is_leap y then 29 else 28)
  else if (m =? 4) || (m =? 6) || (m =? 9) || (m =? 11) then 30
  else 31.

(** What the [datetime] constructor accepts. *)
Definition valid_datetime (t : datetime) : bool :=
  (1 <=? dt_year t) && (dt_year t <=? 9999) &&
  (1 <=? dt_month t) && (dt_month t <=? 12) &&
  (1 <=? dt_day t) && (dt_day t <=? days_in_month (dt_year t) (dt_month t)) &&
  (0 <=? dt_hour t) && (dt_hour t <=? 23) &&
  (0 <=? dt_minute t) && (dt_minute t <=? 59) &&
  (0 <=? dt_second t) && (dt_second t <=? 59).

(** [datetime.strptime(dt_str, "%a %b %d %H:%M:%S GMT %Y")]: [TypeError]
    when the argument is not a string, [ValueError] when the string does
    not match, is not consumed entirely, or is not a date. *)
Definition strptime (dt_str : pyval) : result datetime :=
  match dt_str with
  | VStr s =>
      match p_gmt_format s with
      | (t, EmptyString) :: _ => if valid_datetime t then Ok t else Raise ValueError
      | _ => Raise ValueError
      end
  | _ => Raise TypeError
  end.

(** [parse_datetime], the second helper nested in [parse_run_metadata]:
    [try: return strptime(...) except Exception: return None]. *)
Definition parse_datetime (dt_str : pyval) : result pyval :=
  match strptime dt_str with
  | Ok t => Ok (VDatetime t)
  | Raise e => if is_Exception e then Ok VNone else Raise e
  end.

(** ** The loader *)

Section Loader.

(** [int(s)] and [float(s)] on a string: the interpreter's numeric
    literal parsers, [None] where they raise [ValueError]. *)
Variable str_to_int : string -> option Z.
Variable str_to_float : string -> option spec_float.

(** [int(v)]. *)
Definition py_int (v : pyval) : result pyval :=
  match v with
  | VBool b => Ok (VInt (if b then 1 else 0))
  | VInt z => Ok (VInt z)
  | VFloat f => (z <- Z_of_float f ;; Ok (VInt z))%res
  | VStr s =>
      match str_to_int s with
      | Some z => Ok (VInt z)
      | None => Raise ValueError
      end
  | _ => Raise TypeError
  end.

(** [float(v)]. *)
Definition py_float (v : pyval) : result pyval :=
  match v with
  | VBool b => Ok (VFloat (if b then SFone 53 1024 else S754_zero false))
  | VInt z => (f <- float_of_Z z ;; Ok (VFloat f))%res
  | VFloat f => Ok (VFloat f)
  | VStr s =>
      match str_to_float s with
      | Some f => Ok (VFloat f)
      | None => Raise ValueError
      end
  | _ => Raise TypeError
  end.

(** *** Field mappers *)

Local Open Scope res_scope.

(** The entries of the dict literal are evaluated in the order they are
    written, so the first failing one decides the exception. *)
Definition parse_run_metadata (json_data : pyval) : result row :=
  (header <- py_get json_data "header" (VDict []) ;;
   footer <- py_get json_data "footer" (VDict []) ;;
   v_executer <- (x <- py_get footer "executer" VNone ;; py_or x (py_get header "Executor" VNone)) ;;
   v_dna_file <- (x <- py_get footer "DNAFile" VNone ;; py_or x (py_get header "DNAFile" VNone)) ;;
   v_selected <- py_get header "Selected" VNone ;;
   v_database <- (x <- py_get footer "Database" VNone ;; py_or x (py_get header "Database" VNone)) ;;
   v_execution_duration <- (x <- py_get footer "execution_duration" (VInt 0) ;; py_int x) ;;
   v_selection_threshold <- (x <- py_get footer "SelectionThreshold" (VInt 0) ;; py_float x) ;;
   v_input_file <- (x <- py_get footer "InputFile" VNone ;; py_or x (py_get header "InputFile" (VStr ""))) ;;
   v_improve_hits_max <- (x <- py_get footer "ImproveHitsMax" (VInt 0) ;; py_int x) ;;
   v_conservation_factor <- (x <- py_get footer "ConservationFactor" (VInt 0) ;; py_int x) ;;
   v_subgene_hits_max <- (x <- py_get footer "SubGeneHitsMax" (VInt 0) ;; py_int x) ;;
   v_script_path <- py_get footer "ScriptPath" (VStr "") ;;
   v_max_subgene_skip <- (x <- py_get footer "MaxSubGeneSkip" (VInt 0) ;; py_int x) ;;
   v_strand <- py_get footer "Strand" (VStr "") ;;
   v_sdfactor <- (x <- py_get footer "SDFactor" (VBool false) ;; Ok (to_bool x)) ;;
   v_broken_passes <- (x <- py_get footer "BrokenPasses" (VInt 0) ;; py_int x) ;;
   v_fit_puteins <- py_get footer "FitPuteins" VNone ;;
   v_broken_penalty <- (x <- py_get footer "BrokenPenalty" (VInt 0) ;; py_float x) ;;
   v_final_selection_threshold <- (x <- py_get footer "FinalSelectionThreshold" (VInt 0) ;; py_float x) ;;
   v_keep_threshold <- (x <- py_get footer "KeepThreshold" (VInt 0) ;; py_float x) ;;
   v_frame_factor <- (x <- py_get footer "FrameFactor" (VInt 0) ;; py_float x) ;;
   v_length_bonus <- (x <- py_get footer "LengthBonus" (VInt 0) ;; py_float x) ;;
   v_orfid_min_score <- (x <- py_get footer "ORFIDMinScore" (VInt 0) ;; py_int x) ;;
   v_make_chains_files <- py_get footer "MakeChainsFiles" (VStr "") ;;
   v_debugging <- py_get footer "Debugging" VNone ;;
   v_script_input <- py_get footer "script_input" (VStr "") ;;
   v_run_datetime <- (x <- py_get footer "run_datetime" VNone ;; parse_datetime x) ;;
   v_retrotector_version <- py_get footer "retrotector_version" (VStr "") ;;
   v_db_name <- py_get footer "db_name" (VStr "") ;;
   v_db_last_modified_datetime <- (x <- py_get footer "db_last_modified_datetime" VNone ;; parse_datetime x) ;;
   Ok [("executer", v_executer);
       ("dna_file", v_dna_file);
       ("selected", v_selected);
       ("database", v_database);
       ("execution_duration", v_execution_duration);
       ("selection_threshold", v_selection_threshold);
       ("input_file", v_input_file);
       ("improve_hits_max", v_improve_hits_max);
       ("conservation_factor", v_conservation_factor);
       ("subgene_hits_max", v_subgene_hits_max);
       ("script_path", v_script_path);
       ("max_subgene_skip", v_max_subgene_skip);
       ("strand", v_strand);
       ("sdfactor", v_sdfactor);
       ("broken_passes", v_broken_passes);
       ("fit_puteins", v_fit_puteins);
       ("broken_penalty", v_broken_penalty);
       ("final_selection_threshold", v_final_selection_threshold);
       ("keep_threshold", v_keep_threshold);
       ("frame_factor", v_frame_factor);
       ("length_bonus", v_length_bonus);
       ("orfid_min_score", v_orfid_min_score);
       ("make_chains_files", v_make_chains_files);
       ("debugging", v_debugging);
       ("script_input", v_script_input);
       ("run_datetime", v_run_datetime);
       ("retrotector_version", v_retrotector_version);
       ("db_name", v_db_name);
       ("db_last_modified_datetime", v_db_last_modified_datetime)]).

(** The body of the first loop of [parse_ltrs]. *)
Definition solo_ltr_entry (entry : pyval) : result row :=
  (
   v_is_primary <- py_get entry "primary" (VBool false) ;;
   v_peak_loc <- py_get entry "peak_loc" VNone ;;
   v_init_idx <- py_getitem entry "init_idx" ;;
   v_fin_idx <- py_getitem entry "fin_idx" ;;
   v_adenylation_loc <- py_get entry "adenylation_loc" VNone ;;
   v_adenylation_seq <- py_get entry "adenylation_seq" VNone ;;
   v_u5nn_score <- py_get entry "U5NN_score" VNone ;;
   v_u5nn_idx <- py_get entry "U5NN_loc" VNone ;;
   v_gtmodifier_score <- py_get entry "GT_score" VNone ;;
   v_u3nn_score <- py_get entry "U3NN_score" VNone ;;
   v_u3nn_idx <- py_get entry "U3NN_loc" VNone ;;
   v_tataa_score <- py_get entry "TATAA_score" VNone ;;
   v_tataa_idx <- py_get entry "TATAA_loc" VNone ;;
   v_meme50_score <- py_get entry "MEME50_score" VNone ;;
   v_meme50_idx <- py_get entry "MEME50_loc" VNone ;;
   v_motifs1_score <- py_get entry "Mot1_score" VNone ;;
   v_motifs1_idx <- py_get entry "Mot1_loc" VNone ;;
   v_motifs2_score <- py_get entry "Mot2_score" VNone ;;
   v_motifs2_idx <- py_get entry "Mot2_loc" VNone ;;
   v_transsites_score <- py_get entry "Trans_score" VNone ;;
   v_cpgmodifier_score <- py_get entry "CpG_score" VNone ;;
   v_spl8modifier_score <- py_get entry "Spl8_score" VNone ;;
   v_tsd5 <- py_get entry "TSD5" VNone ;;
   v_tsd3 <- py_get entry "TSD3" VNone ;;
   Ok [("herv_chain_index", VNone);
       ("is_primary", v_is_primary);
       ("ltr_type", VStr "solo");
       ("factor_score", VNone);
       ("virus_genus", VNone);
       ("peak_loc", v_peak_loc);
       ("init_idx", v_init_idx);
       ("fin_idx", v_fin_idx);
       ("adenylation_loc", v_adenylation_loc);
       ("adenylation_seq", v_adenylation_seq);
       ("u5nn_score", v_u5nn_score);
       ("u5nn_idx", v_u5nn_idx);
       ("gtmodifier_score", v_gtmodifier_score);
       ("u3nn_score", v_u3nn_score);
       ("u3nn_idx", v_u3nn_idx);
       ("tataa_score", v_tataa_score);
       ("tataa_idx", v_tataa_idx);
       ("meme50_score", v_meme50_score);
       ("meme50_idx", v_meme50_idx);
       ("motifs1_score", v_motifs1_score);
       ("motifs1_idx", v_motifs1_idx);
       ("motifs2_score", v_motifs2_score);
       ("motifs2_idx", v_motifs2_idx);
       ("transsites_score", v_transsites_score);
       ("cpgmodifier_score", v_cpgmodifier_score);
       ("spl8modifier_score", v_spl8modifier_score);
       ("limiters", VNone);
       ("tsd5", v_tsd5);
       ("tsd3", v_tsd3);
       ("similarity_start", VNone);
       ("similarity_end", VNone)]).

(** The body of the inner loop over [chain.get("LTRs", [])]. *)
Definition full_ltr_entry (chain_index : Z) (entry : pyval) : result row :=
  (
   v_is_primary <- py_get entry "primary" (VBool false) ;;
   v_ltr_type <- py_get entry "LTR_type" VNone ;;
   v_factor_score <- py_get entry "factor_score" VNone ;;
   v_virus_genus <- py_get entry "virus_genus" VNone ;;
   v_init_idx <- py_getitem entry "init_idx" ;;
   v_fin_idx <- py_getitem entry "fin_idx" ;;
   v_adenylation_loc <- py_get entry "adenylation_loc" VNone ;;
   v_adenylation_seq <- py_get entry "adenylation_seq" VNone ;;
   v_u5nn_score <- py_get entry "U5NN_score" VNone ;;
   v_u5nn_idx <- py_get entry "U5NN_idx" VNone ;;
   v_gtmodifier_score <- py_get entry "GTModifier_score" VNone ;;
   v_u3nn_score <- py_get entry "U3NN_score" VNone ;;
   v_u3nn_idx <- py_get entry "U3NN_idx" VNone ;;
   v_tataa_score <- py_get entry "TATAA_score" VNone ;;
   v_tataa_idx <- py_get entry "TATAA_idx" VNone ;;
   v_meme50_score <- py_get entry "MEME50_score" VNone ;;
   v_meme50_idx <- py_get entry "MEME50_idx" VNone ;;
   v_motifs1_score <- py_get entry "Motifs1_score" VNone ;;
   v_motifs1_idx <- py_get entry "Motifs1_idx" VNone ;;
   v_motifs2_score <- py_get entry "Motifs2_score" VNone ;;
   v_motifs2_idx <- py_get entry "Motifs2_idx" VNone ;;
   v_transsites_score <- py_get entry "Transsites_score" VNone ;;
   v_cpgmodifier_score <- py_get entry "CpGModifier_score" VNone ;;
   v_spl8modifier_score <- py_get entry "Spl8Modifier_score" VNone ;;
   v_limiters <- py_get entry "Limiters" VNone ;;
   v_similarity_start <- py_get entry "similarity_start" VNone ;;
   v_similarity_end <- py_get entry "similarity_end" VNone ;;
   Ok [("herv_chain_index", VInt chain_index);
       ("is_primary", v_is_primary);
       ("ltr_type", v_ltr_type);
       ("factor_score", v_factor_score);
       ("virus_genus", v_virus_genus);
       ("peak_loc", VNone);
       ("init_idx", v_init_idx);
       ("fin_idx", v_fin_idx);
       ("adenylation_loc", v_adenylation_loc);
       ("adenylation_seq", v_adenylation_seq);
       ("u5nn_score", v_u5nn_score);
       ("u5nn_idx", v_u5nn_idx);
       ("gtmodifier_score", v_gtmodifier_score);
       ("u3nn_score", v_u3nn_score);
       ("u3nn_idx", v_u3nn_idx);
       ("tataa_score", v_tataa_score);
       ("tataa_idx", v_tataa_idx);
       ("meme50_score", v_meme50_score);
       ("meme50_idx", v_meme50_idx);
       ("motifs1_score", v_motifs1_score);
       ("motifs1_idx", v_motifs1_idx);
       ("motifs2_score", v_motifs2_score);
       ("motifs2_idx", v_motifs2_idx);
       ("transsites_score", v_transsites_score);
       ("cpgmodifier_score", v_cpgmodifier_score);
       ("spl8modifier_score", v_spl8modifier_score);
       ("limiters", v_limiters);
       ("tsd5", VNone);
       ("tsd3", VNone);
       ("similarity_start", v_similarity_start);
       ("similarity_end", v_similarity_end)]).

(** [for chain_index, chain in enumerate(...)]. *)
Fixpoint chain_ltrs_loop (chains : list pyval) (chain_index : Z) : result (list row) :=
  match chains with
  | [] => Ok []
  | chain :: rest =>
      ltrs <- py_get chain "LTRs" (VList []) ;;
      items <- py_iter ltrs ;;
      entries <- rmapM (full_ltr_entry chain_index) items ;;
      more <- chain_ltrs_loop rest (chain_index + 1) ;;
      Ok (entries ++ more)
  end.

Definition parse_ltrs (json_data : pyval) : result (list row) :=
  solo <- py_get json_data "soloLTRs" (VList []) ;;
  solo_items <- py_iter solo ;;
  solo_entries <- rmapM solo_ltr_entry solo_items ;;
  chains <- py_get json_data "pseuGID" (VList []) ;;
  chain_items <- py_iter chains ;;
  full_entries <- chain_ltrs_loop chain_items 0 ;;
  Ok (solo_entries ++ full_entries).

Definition get_herv_chain_blocks (json_data : pyval) : result pyval :=
  py_get json_data "pseuGID" (VList []).

Definition extract_herv_chain_metadata (chain_block : pyval) : result row :=
  (
   v_chain_level <- py_getitem chain_block "chain_level" ;;
   v_chain_start_idx <- py_getitem chain_block "chain_start_idx" ;;
   v_chain_end_idx <- py_getitem chain_block "chain_end_idx" ;;
   v_retrovirus_type <- py_getitem chain_block "retrovirus_type" ;;
   v_score <- (x <- py_getitem chain_block "score" ;; py_int x) ;;
   v_type_of_chain <- py_getitem chain_block "type_of_chain" ;;
   v_integration_sites <- py_get chain_block "integration_sites" VNone ;;
   Ok [("chain_level", v_chain_level);
       ("chain_start_idx", v_chain_start_idx);
       ("chain_end_idx", v_chain_end_idx);
       ("retrovirus_type", v_retrovirus_type);
       ("score", v_score);
       ("type_of_chain", v_type_of_chain);
       ("integration_sites", v_integration_sites)]).

Definition parsed_subgene (subgene_counter : Z) (subgene : pyval) : result row :=
  (
   v_name <- py_get subgene "name" VNone ;;
   v_type <- py_get subgene "type" VNone ;;
   v_score <- py_get subgene "score" VNone ;;
   v_hotspot <- py_get subgene "hotspot" VNone ;;
   Ok [("subgene_index", VInt subgene_counter);
       ("name", v_name);
       ("type", v_type);
       ("score", v_score);
       ("hotspot", v_hotspot)]).

Definition parsed_domain (subgene_counter : Z) (domain : pyval) : result row :=
  (
   v_idx <- py_get domain "idx" VNone ;;
   v_type <- py_get domain "type" VNone ;;
   v_origin <- py_get domain "origin" VNone ;;
   v_score <- py_get domain "score" VNone ;;
   v_hotspot <- py_get domain "hotspot" VNone ;;
   v_frame <- py_get domain "frame" VNone ;;
   v_pos_init <- py_get domain "pos_init" VNone ;;
   v_pos_fin <- py_get domain "pos_fin" VNone ;;
   v_match_input <- py_get domain "match_input" VNone ;;
   v_reference_match <- py_get domain "reference_match" VNone ;;
   v_n_bases <- py_get domain "n_bases" VNone ;;
   Ok [("subgene_index", VInt subgene_counter);
       ("idx", v_idx);
       ("type", v_type);
       ("origin", v_origin);
       ("score", v_score);
       ("hotspot", v_hotspot);
       ("frame", v_frame);
       ("pos_init", v_pos_init);
       ("pos_fin", v_pos_fin);
       ("match_input", v_match_input);
       ("reference_match", v_reference_match);
       ("n_bases", v_n_bases)]).

(** The loop of [parse_subgenes_and_domains] from a given counter value:
    the subgene records, and the domain records of all of them. *)
Fixpoint subgenes_loop (items : list pyval) (subgene_counter : Z)
  : result (list row * list row) :=
  match items with
  | [] => Ok ([], [])
  | subgene :: rest =>
      parsed <- parsed_subgene subgene_counter subgene ;;
      ds <- py_get subgene "domains" (VList []) ;;
      ditems <- py_iter ds ;;
      parsed_ds <- rmapM (parsed_domain subgene_counter) ditems ;;
      more <- subgenes_loop rest (subgene_counter + 1) ;;
      Ok (parsed :: fst more, parsed_ds ++ snd more)
  end.

Definition parse_subgenes_and_domains (chain_block : pyval)
  : result (list row * list row) :=
  sgs <- py_get chain_block "subgenes" (VList []) ;;
  items <- py_iter sgs ;;
  subgenes_loop items 0.

Definition motif_types : list string :=
  ["Slippery"; "PseudoKnot"; "SpliceAcceptor"; "SpliceDonor"].

Definition motif_entry (motif_type : string) (motif : pyval) : result row :=
  (
   v_pos_init <- py_get motif "pos_init" VNone ;;
   v_pos_end <- py_get motif "pos_end" VNone ;;
   v_score <- py_get motif "score" VNone ;;
   Ok [("type", VStr motif_type);
       ("pos_init", v_pos_init);
       ("pos_end", v_pos_end);
       ("score", v_score)]).

(** The inner loop of [parse_motifs] for one category. *)
Definition motifs_of_type (chain_block : pyval) (motif_type : string)
  : result (list row) :=
  ms <- py_get chain_block (motif_type ++ "_motifs")%string (VList []) ;;
  items <- py_iter ms ;;
  rmapM (motif_entry motif_type) items.

Definition parse_motifs (chain_block : pyval) : result (list row) :=
  per_type <- rmapM (motifs_of_type chain_block) motif_types ;;
  Ok (List.concat per_type).

Local Close Scope res_scope.

(** *** The store connection *)

(** One executed [INSERT]: the table, the columns with their bound values,
    and the identifier the store generated for the row. *)
Record entry : Type := mk_entry {
  e_table : string; e_row : row; e_id : Z }.

(** A connection is the log of the statements executed on it, of which a
    prefix is committed; [close] discards the rest. *)
Record conn : Type := mk_conn {
  log : list entry; ncommitted : nat; closed : bool }.

Definition committed (c : conn) : list entry := firstn (ncommitted c) (log c).

(** The store decides: [store_insert c table data] is the generated
    identifier, or [None] when the statement is rejected (constraint
    violation, connection loss); [store_commit c] tells whether the commit
    goes through. *)
Variable store_insert : conn -> string -> row -> option Z.
Variable store_commit : conn -> bool.

(** Computations on the connection that may raise. *)
Definition M (A : Type) : Type := conn -> result A * conn.

Definition ret {A : Type} (a : A) : M A := fun c => (Ok a, c).

Definition bind {A B : Type} (m : M A) (f : A -> M B) : M B :=
  fun c =>
    match m c with
    | (Ok a, c') => f a c'
    | (Raise e, c') => (Raise e, c')
    end.

Definition lift {A : Type} (r : result A) : M A := fun c => (r, c).

Declare Scope db_scope.
Delimit Scope db_scope with db.
Notation "x <- m ;; k" := (bind m (fun x => k))
  (at level 61, m at next level, right associativity) : db_scope.
Notation "m ;;; k" := (bind m (fun _ => k))
  (at level 61, right associativity) : db_scope.

(** [cur.execute(query, values)] followed, for a [RETURNING id] statement,
    by [cur.fetchone()[0]]. *)
Definition execute (table : string) (data : row) : M Z :=
  fun c =>
    match store_insert c table data with
    | Some id =>
        (Ok id, mk_conn (log c ++ [mk_entry table data id]) (ncommitted c) (closed c))
    | None => (Raise StoreError, c)
    end.

(** [conn.commit()]. *)
Definition commit : M unit :=
  fun c =>
    if store_commit c
    then (Ok tt, mk_conn (log c) (List.length (log c)) (closed c))
    else (Raise StoreError, c).

(** [conn.close()]: what was not committed is gone. *)
Definition close (c : conn) : conn :=
  mk_conn (committed c) (List.length (committed c)) true.

Local Open Scope db_scope.

Definition insert_run_metadata (metadata : row) : M Z :=
  inserted_id <- execute "run_metadata" metadata ;;
  commit ;;;
  ret inserted_id.

(** The loop of [insert_ltrs]. *)
Fixpoint insert_ltr_rows (ltr_list : list row) (herv_chain_id : Z) : M unit :=
  match ltr_list with
  | [] => ret tt
  | ltr_entry :: rest =>
      let data := dict_pop_default ltr_entry "herv_chain_index" in
      let data := dict_set data "herv_chain_id" (VInt herv_chain_id) in
      _ <- execute "ltr" data ;;
      insert_ltr_rows rest herv_chain_id
  end.

Definition insert_ltrs (ltr_list : list row) (herv_chain_id : Z) : M unit :=
  insert_ltr_rows ltr_list herv_chain_id ;;;
  commit.

Definition insert_herv_chain (herv_chain_entry : row) (run_metadata_pk : Z) : M Z :=
  let data := dict_set herv_chain_entry "run_metadata_id" (VInt run_metadata_pk) in
  inserted_id <- execute "herv_chain" data ;;
  commit ;;;
  ret inserted_id.

(** *** Positional index to persisted identifier *)

Definition py_hashable (v : pyval) : bool :=
  match v with
  | VList _ | VDict _ => false
  | _ => true
  end.

Definition Z_of_bool (b : bool) : Z := if b then 1 else 0.

(** Whether a float is exactly the integer [z]. *)
Definition float_eq_Z (f : spec_float) (z : Z) : bool :=
  match f with
  | S754_zero _ => z =? 0
  | S754_finite s m e =>
      let sgn := if s then -1 else 1 in
      if 0 <=? e then z =? sgn * (Z.pos m * 2 ^ e)
      else (Z.pos m mod 2 ^ (- e) =? 0) && (z =? sgn * (Z.pos m / 2 ^ (- e)))
  | _ => false
  end.

Definition datetime_eqb (a b : datetime) : bool :=
  (dt_year a =? dt_year b) && (dt_month a =? dt_month b) &&
  (dt_day a =? dt_day b) && (dt_hour a =? dt_hour b) &&
  (dt_minute a =? dt_minute b) && (dt_second a =? dt_second b).

(** [a == b] on the values that can be dict keys: numbers compare by
    value across [bool], [int] and [float]. *)
Definition py_key_eqb (a b : pyval) : bool :=
  match a, b with
  | VNone, VNone => true
  | VBool x, VBool y => Bool.eqb x y
  | VBool x, VInt y => Z_of_bool x =? y
  | VInt x, VBool y => x =? Z_of_bool y
  | VInt x, VInt y => x =? y
  | VBool x, VFloat f => float_eq_Z f (Z_of_bool x)
  | VFloat f, VBool x => float_eq_Z f (Z_of_bool x)
  | VInt x, VFloat f => float_eq_Z f x
  | VFloat f, VInt x => float_eq_Z f x
  | VFloat f, VFloat g => SFeqb f g
  | VStr s, VStr t => String.eqb s t
  | VDatetime s, VDatetime t => datetime_eqb s t
  | _, _ => false
  end.

(** The dict [subgene_index_to_id].  A key is found by equality; Python
    tries identity first, which makes a difference for one kind of key
    only, a NaN, equal to nothing and found only as the same object.  The
    statements about the lookup are about integer indices. *)
Definition keymap : Type := list (pyval * Z).

Fixpoint keymap_find (m : keymap) (k : pyval) : option Z :=
  match m with
  | [] => None
  | (k', id) :: rest => if py_key_eqb k' k then Some id else keymap_find rest k
  end.

Fixpoint keymap_put (m : keymap) (k : pyval) (id : Z) : keymap :=
  match m with
  | [] => [(k, id)]
  | (k', id') :: rest =>
      if py_key_eqb k' k then (k', id) :: rest else (k', id') :: keymap_put rest k id
  end.

(** [m[k] = id]: an unhashable key raises [TypeError]. *)
Definition keymap_set (m : keymap) (k : pyval) (id : Z) : result keymap :=
  if py_hashable k then Ok (keymap_put m k id) else Raise TypeError.

(** [m[k]]: [TypeError] for an unhashable key, [KeyError] for a missing one. *)
Definition keymap_lookup (m : keymap) (k : pyval) : result Z :=
  if py_hashable k
  then match keymap_find m k with
       | Some id => Ok id
       | None => Raise KeyError
       end
  else Raise TypeError.

(** The first loop of [insert_subgenes_domains], threading the dict. *)
Fixpoint insert_subgene_rows (subgenes : list row) (herv_chain_id : Z)
    (subgene_index_to_id : keymap) : M keymap :=
  match subgenes with
  | [] => ret subgene_index_to_id
  | subgene :: rest =>
      let subgene_data := dict_set subgene "herv_chain_id" (VInt herv_chain_id) in
      popped <- lift (dict_pop subgene_data "subgene_index") ;;
      let subgene_index := fst popped in
      let subgene_data := dict_pop_default (snd popped) "chain_index" in
      subgene_db_id <- execute "subgenes" subgene_data ;;
      m' <- lift (keymap_set subgene_index_to_id subgene_index subgene_db_id) ;;
      insert_subgene_rows rest herv_chain_id m'
  end.

(** The second loop. *)
Fixpoint insert_domain_rows (domains : list row) (subgene_index_to_id : keymap)
  : M unit :=
  match domains with
  | [] => ret tt
  | domain :: rest =>
      popped <- lift (dict_pop domain "subgene_index") ;;
      let subgene_index := fst popped in
      subgene_id <- lift (keymap_lookup subgene_index_to_id subgene_index) ;;
      let domain_data := dict_set (snd popped) "subgene_id" (VInt subgene_id) in
      _ <- execute "domains" domain_data ;;
      insert_domain_rows rest subgene_index_to_id
  end.

Definition insert_subgenes_domains (subgenes domains : list row)
    (herv_chain_id : Z) : M unit :=
  subgene_index_to_id <- insert_subgene_rows subgenes herv_chain_id [] ;;
  insert_domain_rows domains subgene_index_to_id ;;;
  commit.

(** The loop of [insert_motifs]. *)
Fixpoint insert_motif_rows (motifs : list row) (herv_chain_id : Z) : M unit :=
  match motifs with
  | [] => ret tt
  | motif :: rest =>
      let data := dict_set motif "herv_chain_id" (VInt herv_chain_id) in
      _ <- execute "motifs" data ;;
      insert_motif_rows rest herv_chain_id
  end.

Definition insert_motifs (motifs : list row) (herv_chain_id : Z) : M unit :=
  insert_motif_rows motifs herv_chain_id ;;;
  commit.

(** *** The orchestrator *)

(** The body of the loop over the chain blocks. *)
Definition load_chain (data : pyval) (run_metadata_pk_id : Z)
    (chain_block : pyval) : M unit :=
  chain_metadata <- lift (extract_herv_chain_metadata chain_block) ;;
  herv_chain_id <- insert_herv_chain chain_metadata run_metadata_pk_id ;;
  sd <- lift (parse_subgenes_and_domains chain_block) ;;
  insert_subgenes_domains (fst sd) (snd sd) herv_chain_id ;;;
  motifs <- lift (parse_motifs chain_block) ;;
  insert_motifs motifs herv_chain_id ;;;
  ltr <- lift (parse_ltrs data) ;;
  insert_ltrs ltr herv_chain_id.

Fixpoint load_chains (data : pyval) (run_metadata_pk_id : Z)
    (chain_blocks : list pyval) : M unit :=
  match chain_blocks with
  | [] => ret tt
  | chain_block :: rest =>
      load_chain data run_metadata_pk_id chain_block ;;;
      load_chains data run_metadata_pk_id rest
  end.

Definition parse_and_load_retroctector (data : pyval) : M unit :=
  run_metadata <- lift (parse_run_metadata data) ;;
  run_metadata_pk_id <- insert_run_metadata run_metadata ;;
  chain_blocks <- lift (get_herv_chain_blocks data) ;;
  blocks <- lift (py_iter chain_blocks) ;;
  load_chains data run_metadata_pk_id blocks.

Local Close Scope db_scope.

(** *** The command *)

(** What the command prints. *)
Inductive output : Type :=
| PrintLoading (path : string)
| PrintConnected
| PrintError (e : pyexc)
| PrintClosed.

(** The outcome of the calls [main] makes outside this module: the
    argument parser, [psycopg2.connect] on the connection parameters, and
    the reading of the document. *)
Record world : Type := mk_world {
  w_parse_args : result string;
  w_connect : result conn;
  w_load_json : string -> result pyval }.

(** The state of [main] when control leaves the [try] block: how it left,
    what was printed, and the local [conn] when it has been bound. *)
Record main_state : Type := mk_main_state {
  ms_result : result unit;
  ms_output : list output;
  ms_conn : option conn }.

Definition main_try (w : world) : main_state :=
  match w_parse_args w with
  | Raise e => mk_main_state (Raise e) [] None
  | Ok input =>
      let out := [PrintLoading input] in
      match w_connect w with
      | Raise e => mk_main_state (Raise e) out None
      | Ok c =>
          let out := out ++ [PrintConnected] in
          match w_load_json w input with
          | Raise e => mk_main_state (Raise e) out (Some c)
          | Ok data =>
              let rc := parse_and_load_retroctector data c in
              mk_main_state (fst rc) out (Some (snd rc))
          end
      end
  end.

(** [except Exception as e: print(f"Error: {e}")]. *)
Definition main_except (s : main_state) : main_state :=
  match ms_result s with
  | Raise e =>
      if is_Exception e
      then mk_main_state (Ok tt) (ms_output s ++ [PrintError e]) (ms_conn s)
      else s
  | Ok _ => s
  end.

(** [finally: if conn: conn.close(); print(...)].  Reading the local
    [conn] before it was bound raises [UnboundLocalError], which replaces
    whatever was propagating; a connection object is always true. *)
Definition main_finally (s : main_state) : main_state :=
  match ms_conn s with
  | None => mk_main_state (Raise UnboundLocalError) (ms_output s) None
  | Some c => mk_main_state (ms_result s) (ms_output s ++ [PrintClosed]) (Some (close c))
  end.

Definition main (w : world) : main_state :=
  main_finally (main_except (main_try w)).


(** *** Reference definitions used in the statements *)

(** The value a mapper stores for an optional field: the field, or
    [None] when it is absent. *)
Definition field (d : row) (k : string) : pyval :=
  match dict_get d k with
  | Some x => x
  | None => VNone
  end.

Definition digit_char (d : Z) : ascii := ascii_of_N (Z.to_N d + 48).

Definition two_digits (n : Z) : string :=
  String (digit_char (n / 10)) (String (digit_char (n mod 10)) EmptyString).

Definition four_digits (n : Z) : string :=
  String (digit_char (n / 1000))
    (String (digit_char ((n / 100) mod 10)) (two_digits (n mod 100))).

Definition weekday_abbr : list string :=
  ["Mon"; "Tue"; "Wed"; "Thu"; "Fri"; "Sat"; "Sun"].

Definition month_abbr : list string :=
  ["Jan"; "Feb"; "Mar"; "Apr"; "May"; "Jun";
   "Jul"; "Aug"; "Sep"; "Oct"; "Nov"; "Dec"].

(** The text of an instant in the fixed format
    [weekday month day HH:MM:SS GMT year], with the weekday name number
    [wd] (0 is Monday). *)
Definition format_gmt (wd : nat) (t : datetime) : string :=
  (nth wd weekday_abbr "" ++ " " ++
   nth (Z.to_nat (dt_month t - 1)) month_abbr "" ++ " " ++
   two_digits (dt_day t) ++ " " ++
   two_digits (dt_hour t) ++ ":" ++
   two_digits (dt_minute t) ++ ":" ++
   two_digits (dt_second t) ++ " GMT " ++
   four_digits (dt_year t))%string.

(** The match the library takes: the first one in priority order. *)
Definition first_match {A : Type} (p : parser A) (s : string) (a : A) (s' : string)
  : Prop :=
  hd_error (p s) = Some (a, s').

Definition starts_nonspace (s : string) : bool :=
  match s with
  | String c _ => negb (is_space c)
  | EmptyString => true
  end.

(** Whether the strings of a list are pairwise different. *)
Fixpoint distinct_strings (l : list string) : bool :=
  match l with
  | [] => true
  | x :: rest => negb (existsb (String.eqb x) rest) && distinct_strings rest
  end.

(** What [parse_motifs] records for a motif dict of the given category. *)
Definition motif_row (motif_type : string) (d : row) : row :=
  [("type", VStr motif_type); ("pos_init", field d "pos_init");
   ("pos_end", field d "pos_end"); ("score", field d "score")].

(** The records of [parse_subgenes_and_domains] for a subgene dict and for
    a domain dict at positional index [k]. *)
Definition subgene_record (k : Z) (d : row) : row :=
  [("subgene_index", VInt k); ("name", field d "name"); ("type", field d "type");
   ("score", field d "score"); ("hotspot", field d "hotspot")].

Definition domain_record (k : Z) (d : row) : row :=
  [("subgene_index", VInt k); ("idx", field d "idx"); ("type", field d "type");
   ("origin", field d "origin"); ("score", field d "score");
   ("hotspot", field d "hotspot"); ("frame", field d "frame");
   ("pos_init", field d "pos_init"); ("pos_fin", field d "pos_fin");
   ("match_input", field d "match_input");
   ("reference_match", field d "reference_match"); ("n_bases", field d "n_bases")].

(** The rows that reach the tables [subgenes] and [domains]: the source
    fields with the foreign key last. *)
Definition subgene_row (herv_chain_id : Z) (d : row) : row :=
  [("name", field d "name"); ("type", field d "type");
   ("score", field d "score"); ("hotspot", field d "hotspot");
   ("herv_chain_id", VInt herv_chain_id)].

Definition domain_row (subgene_id : Z) (d : row) : row :=
  [("idx", field d "idx"); ("type", field d "type");
   ("origin", field d "origin"); ("score", field d "score");
   ("hotspot", field d "hotspot"); ("frame", field d "frame");
   ("pos_init", field d "pos_init"); ("pos_fin", field d "pos_fin");
   ("match_input", field d "match_input");
   ("reference_match", field d "reference_match"); ("n_bases", field d "n_bases");
   ("subgene_id", VInt subgene_id)].

(** The nesting of one chain block in the source document: each subgene
    dict with the domain dicts under it, in source order. *)
Definition chain_tree : Type := list (row * list row).

(** [item] is the subgene dict [fst t] and the domains nested under it
    are the dicts [snd t]. *)
Definition subgene_source (item : pyval) (t : row * list row) : Prop :=
  item = VDict (fst t) /\
  rbind (py_get item "domains" (VList [])) py_iter = Ok (map VDict (snd t)).

Fixpoint tree_subgene_records (tree : chain_tree) (k : Z) : list row :=
  match tree with
  | [] => []
  | t :: rest => subgene_record k (fst t) :: tree_subgene_records rest (k + 1)
  end.

Fixpoint tree_domain_records (tree : chain_tree) (k : Z) : list row :=
  match tree with
  | [] => []
  | t :: rest => map (domain_record k) (snd t) ++ tree_domain_records rest (k + 1)
  end.

(** The dict [subgene_index_to_id] after the subgenes numbered from [k]
    received the identifiers [ids]. *)
Fixpoint index_map (k : Z) (ids : list Z) : keymap :=
  match ids with
  | [] => []
  | id :: rest => (VInt k, id) :: index_map (k + 1) rest
  end.

(** The [subgenes] statements of a chain whose subgenes received [ids]. *)
Definition subgene_entries (herv_chain_id : Z) (tree : chain_tree) (ids : list Z)
  : list entry :=
  map (fun p => mk_entry "subgenes" (subgene_row herv_chain_id (fst (fst p))) (snd p))
      (combine tree ids).

(** [id] is an identifier the store returned for the [subgenes] row of
    the subgene [t] of the chain [herv_chain_id]. *)
Definition returned_for (herv_chain_id : Z) (t : row * list row) (id : Z) : Prop :=
  exists c, store_insert c "subgenes" (subgene_row herv_chain_id (fst t)) = Some id.

(** The rows of the [domains] statements: every domain of the source tree
    with the identifier of the subgene it is nested under. *)
Definition domain_rows (tree : chain_tree) (ids : list Z) : list row :=
  flat_map (fun p => map (domain_row (snd p)) (snd (fst p))) (combine tree ids).

Definition is_table (t : string) (e : entry) : bool := String.eqb (e_table e) t.

(** The row [insert_ltrs] sends for a parsed LTR. *)
Definition ltr_row (herv_chain_id : Z) (ltr_entry : row) : row :=
  dict_set (dict_remove ltr_entry "herv_chain_index") "herv_chain_id"
           (VInt herv_chain_id).

(** The connection is well formed: the committed prefix lies in the log. *)
Definition wf (c : conn) : Prop := (ncommitted c <= List.length (log c))%nat.

(** A computation that adds statements to the log and commits nothing. *)
Definition no_commit {A : Type} (m : M A) : Prop :=
  forall c r c', m c = (r, c') ->
    ncommitted c' = ncommitted c /\ closed c' = closed c /\
    exists new, log c' = log c ++ new.

(** A computation that adds statements and may move the commit point
    forward, never back. *)
Definition grows {A : Type} (m : M A) : Prop :=
  forall c r c', wf c -> m c = (r, c') ->
    wf c' /\ (ncommitted c <= ncommitted c')%nat /\ closed c' = closed c /\
    exists new, log c' = log c ++ new.

(** A computation whose statements all go to the tables [tables]. *)
Definition only_tables {A : Type} (tables : list string) (m : M A) : Prop :=
  forall c r c', m c = (r, c') ->
    exists new, log c' = log c ++ new /\
                Forall (fun e => In (e_table e) tables) new.

(** *** The mappers as tables

    Each mapper builds a dict literal, one column after the other.  A
    column is described by where its value comes from; [src] is the dict
    being mapped and [alt] the alternative source (the header, for the run
    metadata). *)
Inductive field_spec : Type :=
| FConst (v : pyval)
| FGet (k : string) (dflt : pyval)
| FItem (k : string)
| FConv (conv : pyval -> result pyval) (k : string) (dflt : pyval)
| FConvItem (conv : pyval -> result pyval) (k : string)
| FOr (k hk : string) (hdflt : pyval)
| FAltGet (hk : string).

Definition eval_field (alt src : pyval) (f : field_spec) : result pyval :=
  match f with
  | FConst v => Ok v
  | FGet k dflt => py_get src k dflt
  | FItem k => py_getitem src k
  | FConv conv k dflt => (x <- py_get src k dflt ;; conv x)%res
  | FConvItem conv k => (x <- py_getitem src k ;; conv x)%res
  | FOr k hk hdflt => (x <- py_get src k VNone ;; py_or x (py_get alt hk hdflt))%res
  | FAltGet hk => py_get alt hk VNone
  end.

Definition eval_table (alt src : pyval) (t : list (string * field_spec))
  : result row :=
  (vals <- rmapM (eval_field alt src) (map snd t) ;;
   Ok (combine (map fst t) vals))%res.

(** The source omits the optional field(s) the column reads. *)
Definition absent_in (alt src : row) (f : field_spec) : Prop :=
  match f with
  | FGet k _ | FConv _ k _ => dict_get src k = None
  | FOr k hk _ => dict_get src k = None /\ dict_get alt hk = None
  | FAltGet hk => dict_get alt hk = None
  | FConst _ | FItem _ | FConvItem _ _ => False
  end.

(** The value of a column when its field is omitted: what the column
    evaluates to on empty sources. *)
Definition field_default (f : field_spec) : result pyval :=
  eval_field (VDict []) (VDict []) f.

(** The kinds of default the mappers use: 0, 0.0, the empty string,
    [False] and [None]. *)
Definition default_kind (v : pyval) : bool :=
  match v with
  | VNone => true
  | VBool b => negb b
  | VInt z => z =? 0
  | VFloat f => match f with S754_zero false => true | _ => false end
  | VStr s => String.eqb s ""
  | _ => false
  end.

Definition is_optional (f : field_spec) : bool :=
  match f with
  | FConst _ | FItem _ | FConvItem _ _ => false
  | _ => true
  end.

Definition optional_default_ok (f : field_spec) : bool :=
  if is_optional f
  then match field_default f with
       | Ok v => default_kind v
       | Raise _ => false
       end
  else true.

Definition reads_required (k : string) (f : field_spec) : bool :=
  match f with
  | FItem k' | FConvItem _ k' => String.eqb k' k
  | _ => false
  end.

(** The columns of [parse_run_metadata], read from the footer with the
    header as the alternative source. *)
Definition run_table : list (string * field_spec) :=
  [("executer", FOr "executer" "Executor" VNone);
   ("dna_file", FOr "DNAFile" "DNAFile" VNone);
   ("selected", FAltGet "Selected");
   ("database", FOr "Database" "Database" VNone);
   ("execution_duration", FConv py_int "execution_duration" (VInt 0));
   ("selection_threshold", FConv py_float "SelectionThreshold" (VInt 0));
   ("input_file", FOr "InputFile" "InputFile" (VStr ""));
   ("improve_hits_max", FConv py_int "ImproveHitsMax" (VInt 0));
   ("conservation_factor", FConv py_int "ConservationFactor" (VInt 0));
   ("subgene_hits_max", FConv py_int "SubGeneHitsMax" (VInt 0));
   ("script_path", FGet "ScriptPath" (VStr ""));
   ("max_subgene_skip", FConv py_int "MaxSubGeneSkip" (VInt 0));
   ("strand", FGet "Strand" (VStr ""));
   ("sdfactor", FConv (fun x => Ok (to_bool x)) "SDFactor" (VBool false));
   ("broken_passes", FConv py_int "BrokenPasses" (VInt 0));
   ("fit_puteins", FGet "FitPuteins" VNone);
   ("broken_penalty", FConv py_float "BrokenPenalty" (VInt 0));
   ("final_selection_threshold", FConv py_float "FinalSelectionThreshold" (VInt 0));
   ("keep_threshold", FConv py_float "KeepThreshold" (VInt 0));
   ("frame_factor", FConv py_float "FrameFactor" (VInt 0));
   ("length_bonus", FConv py_float "LengthBonus" (VInt 0));
   ("orfid_min_score", FConv py_int "ORFIDMinScore" (VInt 0));
   ("make_chains_files", FGet "MakeChainsFiles" (VStr ""));
   ("debugging", FGet "Debugging" VNone);
   ("script_input", FGet "script_input" (VStr ""));
   ("run_datetime", FConv parse_datetime "run_datetime" VNone);
   ("retrotector_version", FGet "retrotector_version" (VStr ""));
   ("db_name", FGet "db_name" (VStr ""));
   ("db_last_modified_datetime", FConv parse_datetime "db_last_modified_datetime" VNone)].

(** The columns of a solo LTR. *)
Definition solo_ltr_table : list (string * field_spec) :=
  [("herv_chain_index", FConst VNone);
   ("is_primary", FGet "primary" (VBool false));
   ("ltr_type", FConst (VStr "solo"));
   ("factor_score", FConst VNone);
   ("virus_genus", FConst VNone);
   ("peak_loc", FGet "peak_loc" VNone);
   ("init_idx", FItem "init_idx");
   ("fin_idx", FItem "fin_idx");
   ("adenylation_loc", FGet "adenylation_loc" VNone);
   ("adenylation_seq", FGet "adenylation_seq" VNone);
   ("u5nn_score", FGet "U5NN_score" VNone);
   ("u5nn_idx", FGet "U5NN_loc" VNone);
   ("gtmodifier_score", FGet "GT_score" VNone);
   ("u3nn_score", FGet "U3NN_score" VNone);
   ("u3nn_idx", FGet "U3NN_loc" VNone);
   ("tataa_score", FGet "TATAA_score" VNone);
   ("tataa_idx", FGet "TATAA_loc" VNone);
   ("meme50_score", FGet "MEME50_score" VNone);
   ("meme50_idx", FGet "MEME50_loc" VNone);
   ("motifs1_score", FGet "Mot1_score" VNone);
   ("motifs1_idx", FGet "Mot1_loc" VNone);
   ("motifs2_score", FGet "Mot2_score" VNone);
   ("motifs2_idx", FGet "Mot2_loc" VNone);
   ("transsites_score", FGet "Trans_score" VNone);
   ("cpgmodifier_score", FGet "CpG_score" VNone);
   ("spl8modifier_score", FGet "Spl8_score" VNone);
   ("limiters", FConst VNone);
   ("tsd5", FGet "TSD5" VNone);
   ("tsd3", FGet "TSD3" VNone);
   ("similarity_start", FConst VNone);
   ("similarity_end", FConst VNone)].

(** The columns of a full LTR of the chain number [chain_index]. *)
Definition full_ltr_table (chain_index : Z) : list (string * field_spec) :=
  [("herv_chain_index", FConst (VInt chain_index));
   ("is_primary", FGet "primary" (VBool false));
   ("ltr_type", FGet "LTR_type" VNone);
   ("factor_score", FGet "factor_score" VNone);
   ("virus_genus", FGet "virus_genus" VNone);
   ("peak_loc", FConst VNone);
   ("init_idx", FItem "init_idx");
   ("fin_idx", FItem "fin_idx");
   ("adenylation_loc", FGet "adenylation_loc" VNone);
   ("adenylation_seq", FGet "adenylation_seq" VNone);
   ("u5nn_score", FGet "U5NN_score" VNone);
   ("u5nn_idx", FGet "U5NN_idx" VNone);
   ("gtmodifier_score", FGet "GTModifier_score" VNone);
   ("u3nn_score", FGet "U3NN_score" VNone);
   ("u3nn_idx", FGet "U3NN_idx" VNone);
   ("tataa_score", FGet "TATAA_score" VNone);
   ("tataa_idx", FGet "TATAA_idx" VNone);
   ("meme50_score", FGet "MEME50_score" VNone);
   ("meme50_idx", FGet "MEME50_idx" VNone);
   ("motifs1_score", FGet "Motifs1_score" VNone);
   ("motifs1_idx", FGet "Motifs1_idx" VNone);
   ("motifs2_score", FGet "Motifs2_score" VNone);
   ("motifs2_idx", FGet "Motifs2_idx" VNone);
   ("transsites_score", FGet "Transsites_score" VNone);
   ("cpgmodifier_score", FGet "CpGModifier_score" VNone);
   ("spl8modifier_score", FGet "Spl8Modifier_score" VNone);
   ("limiters", FGet "Limiters" VNone);
   ("tsd5", FConst VNone);
   ("tsd3", FConst VNone);
   ("similarity_start", FGet "similarity_start" VNone);
   ("similarity_end", FGet "similarity_end" VNone)].

(** The columns of [extract_herv_chain_metadata]. *)
Definition chain_table : list (string * field_spec) :=
  [("chain_level", FItem "chain_level");
   ("chain_start_idx", FItem "chain_start_idx");
   ("chain_end_idx", FItem "chain_end_idx");
   ("retrovirus_type", FItem "retrovirus_type");
   ("score", FConvItem py_int "score");
   ("type_of_chain", FItem "type_of_chain");
   ("integration_sites", FGet "integration_sites" VNone)].

(** The run metadata of a document without header and footer. *)
Definition run_defaults : row :=
  [("executer", VNone);
   ("dna_file", VNone);
   ("selected", VNone);
   ("database", VNone);
   ("execution_duration", VInt 0);
   ("selection_threshold", VFloat (S754_zero false));
   ("input_file", VStr "");
   ("improve_hits_max", VInt 0);
   ("conservation_factor", VInt 0);
   ("subgene_hits_max", VInt 0);
   ("script_path", VStr "");
   ("max_subgene_skip", VInt 0);
   ("strand", VStr "");
   ("sdfactor", VBool false);
   ("broken_passes", VInt 0);
   ("fit_puteins", VNone);
   ("broken_penalty", VFloat (S754_zero false));
   ("final_selection_threshold", VFloat (S754_zero false));
   ("keep_threshold", VFloat (S754_zero false));
   ("frame_factor", VFloat (S754_zero false));
   ("length_bonus", VFloat (S754_zero false));
   ("orfid_min_score", VInt 0);
   ("make_chains_files", VStr "");
   ("debugging", VNone);
   ("script_input", VStr "");
   ("run_datetime", VNone);
   ("retrotector_version", VStr "");
   ("db_name", VStr "");
   ("db_last_modified_datetime", VNone)].

(** *** A sample document and sample stores

    One run with two chain blocks; the first has two subgenes (the first
    with two domains, the second with one), a motif and a full LTR; the
    document has one solo LTR. *)
Definition sample_chain : pyval :=
  VDict [("chain_level", VInt 1); ("chain_start_idx", VInt 100);
         ("chain_end_idx", VInt 9000); ("retrovirus_type", VStr "C");
         ("score", VInt 1500); ("type_of_chain", VStr "P");
         ("subgenes",
          VList [VDict [("name", VStr "gag"); ("score", VInt 300);
                        ("domains",
                         VList [VDict [("type", VStr "MA"); ("pos_init", VInt 120)];
                                VDict [("type", VStr "CA"); ("pos_init", VInt 480)]])];
                 VDict [("name", VStr "pol"); ("score", VInt 700);
                        ("domains",
                         VList [VDict [("type", VStr "RT"); ("pos_init", VInt 2100)]])]]);
         ("Slippery_motifs",
          VList [VDict [("pos_init", VInt 1900); ("pos_end", VInt 1906);
                        ("score", VInt 12)]]);
         ("SpliceDonor_motifs",
          VList [VDict [("pos_init", VInt 700); ("pos_end", VInt 708);
                        ("score", VInt 9)]]);
         ("LTRs",
          VList [VDict [("init_idx", VInt 100); ("fin_idx", VInt 600);
                        ("LTR_type", VStr "5LTR")]])].

Definition sample_chain2 : pyval :=
  VDict [("chain_level", VInt 1); ("chain_start_idx", VInt 20000);
         ("chain_end_idx", VInt 27000); ("retrovirus_type", VStr "B");
         ("score", VInt 900); ("type_of_chain", VStr "S")].

Definition sample_document : pyval :=
  VDict [("header", VDict [("Executor", VStr "RetroTector"); ("Selected", VInt 1)]);
         ("footer", VDict [("SDFactor", VStr "Yes");
                           ("run_datetime", VStr "Mon Aug 04 04:51:37 GMT 2025")]);
         ("soloLTRs", VList [VDict [("init_idx", VInt 15000); ("fin_idx", VInt 15400)]]);
         ("pseuGID", VList [sample_chain; sample_chain2])].

(** A connection on which nothing was executed yet. *)
Definition fresh_conn : conn := mk_conn [] 0 false.

(** A store that accepts every statement and numbers the rows 1, 2, ... *)
Definition serial_insert (c : conn) (table : string) (data : row) : option Z :=
  Some (1 + Z.of_nat (List.length (log c))).

(** A store that rejects the rows of the table [domains]. *)
Definition no_domains_insert (c : conn) (table : string) (data : row) : option Z :=
  if String.eqb table "domains" then None
  else Some (1 + Z.of_nat (List.length (log c))).

Definition always_commit (c : conn) : bool := true.

(** Numeric literal parsers for documents without numbers in strings. *)
Definition no_int (s : string) : option Z := None.
Definition no_float (s : string) : option spec_float := None.

(** The sample document with its chain blocks in the other order. *)
Definition sample_document_swapped : pyval :=
  VDict [("header", VDict [("Executor", VStr "RetroTector"); ("Selected", VInt 1)]);
         ("footer", VDict [("SDFactor", VStr "Yes");
                           ("run_datetime", VStr "Mon Aug 04 04:51:37 GMT 2025")]);
         ("soloLTRs", VList [VDict [("init_idx", VInt 15000); ("fin_idx", VInt 15400)]]);
         ("pseuGID", VList [sample_chain2; sample_chain])].

(** *** Further definitions *)

(** The evaluation of a table written as the mappers are: one lookup
    after the other, the row built at the end. *)
Fixpoint eval_columns (alt src : pyval) (t : list (string * field_spec))
    (k : row -> result row) : result row :=
  match t with
  | [] => k []
  | (c, f) :: rest =>
      rbind (eval_field alt src f)
            (fun v => eval_columns alt src rest (fun r => k ((c, v) :: r)))
  end.

(** *** The mappers over the whole document

    [parse_herv_chains], [parse_subgenes] and [parse_domains] walk all the
    chain blocks of a document; [insert_subgenes] sends subgene dicts with a
    fixed column list.  The orchestrator does not call them. *)

Local Open Scope res_scope.

(** The dict literal of [parse_herv_chains]. *)
Definition herv_chain_dict (chain : pyval) : result row :=
  (
   v_chain_level <- py_getitem chain "chain_level" ;;
   v_chain_start_idx <- py_getitem chain "chain_start_idx" ;;
   v_chain_end_idx <- py_getitem chain "chain_end_idx" ;;
   v_retrovirus_type <- py_getitem chain "retrovirus_type" ;;
   v_score <- (x <- py_getitem chain "score" ;; py_int x) ;;
   v_type_of_chain <- py_getitem chain "type_of_chain" ;;
   v_integration_sites <- py_get chain "integration_sites" VNone ;;
   Ok [("chain_level", v_chain_level);
       ("chain_start_idx", v_chain_start_idx);
       ("chain_end_idx", v_chain_end_idx);
       ("retrovirus_type", v_retrovirus_type);
       ("score", v_score);
       ("type_of_chain", v_type_of_chain);
       ("integration_sites", v_integration_sites)]).

Definition parse_herv_chains (json_data : pyval) : result (list row) :=
  chains <- py_get json_data "pseuGID" (VList []) ;;
  items <- py_iter chains ;;
  rmapM herv_chain_dict items.

(** The dict literal of [parse_subgenes]. *)
Definition subgene_dict (subgene : pyval) : result row :=
  (
   v_name <- py_get subgene "name" VNone ;;
   v_type <- py_get subgene "type" VNone ;;
   v_score <- py_get subgene "score" VNone ;;
   v_hotspot <- py_get subgene "hotspot" VNone ;;
   Ok [("name", v_name);
       ("type", v_type);
       ("score", v_score);
       ("hotspot", v_hotspot)]).

(** The inner loop of [parse_subgenes] for one chain. *)
Definition chain_subgenes (chain : pyval) : result (list row) :=
  sgs <- py_get chain "subgenes" (VList []) ;;
  items <- py_iter sgs ;;
  rmapM subgene_dict items.

Definition parse_subgenes (json_data : pyval) : result (list row) :=
  chains <- py_get json_data "pseuGID" (VList []) ;;
  items <- py_iter chains ;;
  per_chain <- rmapM chain_subgenes items ;;
  Ok (List.concat per_chain).

(** The dict literal of [parse_domains]: nine of the fields are read by
    subscript. *)
Definition domain_dict (domain : pyval) : result row :=
  (
   v_idx <- py_get domain "idx" VNone ;;
   v_type <- py_getitem domain "type" ;;
   v_origin <- py_get domain "origin" VNone ;;
   v_score <- py_getitem domain "score" ;;
   v_hotspot <- py_getitem domain "hotspot" ;;
   v_frame <- py_getitem domain "frame" ;;
   v_pos_init <- py_getitem domain "pos_init" ;;
   v_pos_fin <- py_getitem domain "pos_fin" ;;
   v_match_input <- py_getitem domain "match_input" ;;
   v_reference_match <- py_getitem domain "reference_match" ;;
   v_n_bases <- py_getitem domain "n_bases" ;;
   Ok [("subgene_id", VNone);
       ("idx", v_idx);
       ("type", v_type);
       ("origin", v_origin);
       ("score", v_score);
       ("hotspot", v_hotspot);
       ("frame", v_frame);
       ("pos_init", v_pos_init);
       ("pos_fin", v_pos_fin);
       ("match_input", v_match_input);
       ("reference_match", v_reference_match);
       ("n_bases", v_n_bases)]).

(** The loop of [parse_domains] over the domains of one subgene, and over
    the subgenes of one chain. *)
Definition subgene_domains (subgene : pyval) : result (list row) :=
  ds <- py_get subgene "domains" (VList []) ;;
  items <- py_iter ds ;;
  rmapM domain_dict items.

Definition chain_domains (chain : pyval) : result (list row) :=
  sgs <- py_get chain "subgenes" (VList []) ;;
  items <- py_iter sgs ;;
  per_subgene <- rmapM subgene_domains items ;;
  Ok (List.concat per_subgene).

Definition parse_domains (json_data : pyval) : result (list row) :=
  chains <- py_get json_data "pseuGID" (VList []) ;;
  items <- py_iter chains ;;
  per_chain <- rmapM chain_domains items ;;
  Ok (List.concat per_chain).

Local Close Scope res_scope.

(** [d[k]] on a dict. *)
Definition row_item (d : row) (k : string) : result pyval :=
  match dict_get d k with
  | Some v => Ok v
  | None => Raise KeyError
  end.

Local Open Scope db_scope.

(** [insert_subgenes]: the parameters are evaluated in the order of the
    tuple; the statement returns nothing and the function does not commit. *)
Fixpoint insert_subgenes (subgenes : list row) (herv_chain_id : Z) : M unit :=
  match subgenes with
  | [] => ret tt
  | subgene :: rest =>
      name <- lift (row_item subgene "name") ;;
      type <- lift (row_item subgene "type") ;;
      score <- lift (row_item subgene "score") ;;
      hotspot <- lift (row_item subgene "hotspot") ;;
      _ <- execute "subgenes"
             [("herv_chain_id", VInt herv_chain_id); ("name", name);
              ("type", type); ("score", score); ("hotspot", hotspot)] ;;
      insert_subgenes rest herv_chain_id
  end.

Local Close Scope db_scope.

(** *** Reference definitions for the further properties *)

(** The column lists of the rows the mappers build. *)
Definition run_columns : list string :=
  ["executer"; "dna_file"; "selected"; "database"; "execution_duration"; "selection_threshold"; "input_file"; "improve_hits_max"; "conservation_factor"; "subgene_hits_max"; "script_path"; "max_subgene_skip"; "strand"; "sdfactor"; "broken_passes"; "fit_puteins"; "broken_penalty"; "final_selection_threshold"; "keep_threshold"; "frame_factor"; "length_bonus"; "orfid_min_score"; "make_chains_files"; "debugging"; "script_input"; "run_datetime"; "retrotector_version"; "db_name"; "db_last_modified_datetime"].

Definition ltr_columns : list string :=
  ["herv_chain_index"; "is_primary"; "ltr_type"; "factor_score"; "virus_genus"; "peak_loc"; "init_idx"; "fin_idx"; "adenylation_loc"; "adenylation_seq"; "u5nn_score"; "u5nn_idx"; "gtmodifier_score"; "u3nn_score"; "u3nn_idx"; "tataa_score"; "tataa_idx"; "meme50_score"; "meme50_idx"; "motifs1_score"; "motifs1_idx"; "motifs2_score"; "motifs2_idx"; "transsites_score"; "cpgmodifier_score"; "spl8modifier_score"; "limiters"; "tsd5"; "tsd3"; "similarity_start"; "similarity_end"].

Definition chain_columns : list string :=
  ["chain_level"; "chain_start_idx"; "chain_end_idx"; "retrovirus_type"; "score"; "type_of_chain"; "integration_sites"].

(** What [parse_subgenes] records for a subgene dict, and the row
    [insert_subgenes] sends for it. *)
Definition subgene_fields (d : row) : row :=
  [("name", field d "name"); ("type", field d "type");
   ("score", field d "score"); ("hotspot", field d "hotspot")].

Definition subgene_values (herv_chain_id : Z) (d : row) : row :=
  ("herv_chain_id", VInt herv_chain_id) :: subgene_fields d.

(** The keys [parse_domains] reads by subscript. *)
Definition domain_required : list string :=
  ["type"; "score"; "hotspot"; "frame"; "pos_init"; "pos_fin";
   "match_input"; "reference_match"; "n_bases"].

(** The tables of the statements of one chain iteration, in order. *)
Definition chain_statement_tables (n_subgenes n_domains n_motifs n_ltrs : nat)
  : list string :=
  "herv_chain" :: repeat "subgenes" n_subgenes ++ repeat "domains" n_domains
    ++ repeat "motifs" n_motifs ++ repeat "ltr" n_ltrs.

Definition block_statement_tables (data chain_block : pyval) : list string :=
  match parse_subgenes_and_domains chain_block, parse_motifs chain_block,
        parse_ltrs data with
  | Ok sd, Ok motifs, Ok ltrs =>
      chain_statement_tables (List.length (fst sd)) (List.length (snd sd))
        (List.length motifs) (List.length ltrs)
  | _, _, _ => []
  end.

(** The number of domains in the source nesting of a chain. *)
Definition tree_domain_count (tree : chain_tree) : nat :=
  List.length (List.concat (map snd tree)).

(** The columns of the run metadata by the conversion applied to them,
    each with the footer key it is read from. *)
Definition run_int_columns : list (string * string) :=
  [("execution_duration", "execution_duration"); ("improve_hits_max", "ImproveHitsMax");
   ("conservation_factor", "ConservationFactor"); ("subgene_hits_max", "SubGeneHitsMax");
   ("max_subgene_skip", "MaxSubGeneSkip"); ("broken_passes", "BrokenPasses");
   ("orfid_min_score", "ORFIDMinScore")].

Definition run_float_columns : list (string * string) :=
  [("selection_threshold", "SelectionThreshold"); ("broken_penalty", "BrokenPenalty");
   ("final_selection_threshold", "FinalSelectionThreshold"); ("keep_threshold", "KeepThreshold");
   ("frame_factor", "FrameFactor"); ("length_bonus", "LengthBonus")].

Definition run_datetime_columns : list (string * string) :=
  [("run_datetime", "run_datetime"); ("db_last_modified_datetime", "db_last_modified_datetime")].

(** The columns read from the footer with the header as fallback: the
    column, the footer key, the header key and the default of the header
    lookup. *)
Definition run_fallback_columns : list (string * string * string * pyval) :=
  [("executer", "executer", "Executor", VNone);
   ("dna_file", "DNAFile", "DNAFile", VNone);
   ("database", "Database", "Database", VNone);
   ("input_file", "InputFile", "InputFile", VStr "")].

(** *** Reading the document

    The items of the list a dict holds under a key, as the mappers iterate
    over them ([for x in v.get(key, [])]); no items where the iteration
    would raise. *)
Definition listed (v : pyval) (key : string) : list pyval :=
  match rbind (py_get v key (VList [])) py_iter with
  | Ok items => items
  | Raise _ => []
  end.

(** Every LTR entry of a document: the solo LTRs, then the LTRs of each
    chain block. *)
Definition document_ltrs (data : pyval) : list pyval :=
  listed data "soloLTRs"
    ++ flat_map (fun chain => listed chain "LTRs") (listed data "pseuGID").

(** The domain entries and the motif entries of a chain block. *)
Definition block_domains (chain_block : pyval) : list pyval :=
  flat_map (fun subgene => listed subgene "domains") (listed chain_block "subgenes").

Definition block_motifs (chain_block : pyval) : list pyval :=
  flat_map (fun motif_type => listed chain_block (motif_type ++ "_motifs")%string)
           motif_types.

(** The tables of the statements of the iteration for [chain_block], by
    what the document holds. *)
Definition document_statement_tables (data chain_block : pyval) : list string :=
  chain_statement_tables (List.length (listed chain_block "subgenes"))
    (List.length (block_domains chain_block))
    (List.length (block_motifs chain_block))
    (List.length (document_ltrs data)).

(** The defaults of the spec: 0 (as Python compares, so also [0.0] and
    [False]), the empty string, or null. *)
Definition explicit_default (v : pyval) : Prop :=
  py_key_eqb v (VInt 0) = true \/ v = VStr "" \/ v = VNone.

(** ** Properties *)

(** *** Boolean normalisation *)

Lemma str_in_spec (s : string) (l : list string) :
  str_in s l = true <-> In s l.
Proof.
  unfold str_in. rewrite existsb_exists. split.
  - intros [x [Hin Heq]]. apply String.eqb_eq in Heq. now subst.
  - intros Hin. exists s. split; [assumption | apply String.eqb_refl].
Qed.

Lemma to_bool_str (s : string) :
  to_bool (VStr s) = VBool (str_in (lower s) ["yes"; "true"; "1"]).
Proof. reflexivity. Qed.

(** C6: [to_bool] returns a native boolean unchanged; on a string it is
    true exactly when the lowercased string is "yes", "true" or "1"; an
    absent field (the default [False] of the lookup) gives false; any other
    value goes through truthiness, so the number 0 gives false. *)
Theorem to_bool_normalisation :
  (forall b, to_bool (VBool b) = VBool b) /\
  (forall s, to_bool (VStr s) = VBool true <->
             (lower s = "yes" \/ lower s = "true" \/ lower s = "1")) /\
  (forall s, to_bool (VStr s) = VBool true \/ to_bool (VStr s) = VBool false) /\
  (to_bool (VStr "Yes") = VBool true /\ to_bool (VStr "yes") = VBool true /\
   to_bool (VStr "TRUE") = VBool true /\ to_bool (VStr "1") = VBool true /\
   to_bool (VStr "no") = VBool false /\ to_bool (VStr "") = VBool false) /\
  (forall footer, dict_get footer "SDFactor" = None ->
     rbind (py_get (VDict footer) "SDFactor" (VBool false))
           (fun x => Ok (to_bool x)) = Ok (VBool false)) /\
  (forall v, (forall b, v <> VBool b) -> (forall s, v <> VStr s) ->
     to_bool v = VBool (py_truthy v)) /\
  to_bool (VInt 0) = VBool false /\
  to_bool (VFloat (S754_zero false)) = VBool false /\
  to_bool VNone = VBool false.
Proof.
  repeat split; try reflexivity.
  - intros H. rewrite to_bool_str in H.
    assert (Hin : str_in (lower s) ["yes"; "true"; "1"] = true) by congruence.
    apply str_in_spec in Hin. simpl in Hin.
    destruct Hin as [E | [E | [E | []]]]; auto.
  - intros H. rewrite to_bool_str. f_equal. apply str_in_spec. simpl.
    destruct H as [H | [H | H]]; auto.
  - intros s. rewrite to_bool_str. destruct (str_in (lower s) _); auto.
  - intros footer H. simpl. now rewrite H.
  - intros v Hb Hs. destruct v as [ | b | | | s | | | ]; try reflexivity.
    now elim (Hs s).
Qed.

(** *** Timestamp normalisation *)

Example parse_datetime_doc_example :
  parse_datetime (VStr "Mon Aug 04 04:51:37 GMT 2025")
  = Ok (VDatetime (mk_datetime 2025 8 4 4 51 37)).
Proof. reflexivity. Qed.

Example format_gmt_doc_example :
  format_gmt 0 (mk_datetime 2025 8 4 4 51 37) = "Mon Aug 04 04:51:37 GMT 2025".
Proof. reflexivity. Qed.

Lemma first_match_bind {A B : Type} (p : parser A) (f : A -> parser B)
    (s s1 s2 : string) (a : A) (b : B) :
  first_match p s a s1 -> first_match (f a) s1 b s2 ->
  first_match (p_bind p f) s b s2.
Proof.
  unfold first_match, p_bind. intros Hp Hf.
  destruct (p s) as [ | [a0 s0] tl]; simpl in Hp; [discriminate | ].
  injection Hp as -> ->. simpl.
  destruct (f a s1) as [ | m ms]; simpl in Hf; [discriminate | ].
  simpl. exact Hf.
Qed.

Lemma first_match_ret {A : Type} (a : A) (s : string) :
  first_match (p_ret a) s a s.
Proof. reflexivity. Qed.

Lemma Z_range_forall (P : Z -> Prop) (lo : Z) (n : nat) :
  Forall P (map (fun k => lo + Z.of_nat k) (seq 0 n)) ->
  forall d, lo <= d < lo + Z.of_nat n -> P d.
Proof.
  intros H d Hd. rewrite Forall_forall in H. apply H.
  apply in_map_iff. exists (Z.to_nat (d - lo)). split; [lia | ].
  apply in_seq. lia.
Qed.

(** Settles a goal about [d] in a small range by running it on each value. *)
Ltac by_enumeration d lo n :=
  pattern d;
  match goal with
  | |- ?G d =>
      apply (Z_range_forall G lo n); [ | lia];
      simpl map;
      repeat (apply Forall_cons; [vm_compute; reflexivity | ]);
      apply Forall_nil
  end.

Lemma first_match_space (s : string) :
  starts_nonspace s = true -> first_match p_spaces (String " " s) tt s.
Proof.
  unfold first_match. destruct s as [ | c r]; simpl; [reflexivity | ].
  intros H. apply negb_true_iff in H.
  change (hd_error (p_spaces_star (String c r)) = Some (tt, String c r)).
  simpl. now rewrite H.
Qed.

Lemma first_match_weekday (wd : nat) (rest : string) :
  (wd < 7)%nat ->
  exists i, first_match (p_names weekday_names 1)
              (nth wd weekday_abbr "" ++ rest)%string i rest.
Proof.
  intros H. exists (Z.of_nat wd + 1).
  do 7 (destruct wd as [ | wd]; [reflexivity | ]). lia.
Qed.

Lemma first_match_month (m : Z) :
  1 <= m <= 12 ->
  forall rest, first_match (p_names month_names 1)
                 (nth (Z.to_nat (m - 1)) month_abbr "" ++ rest)%string m rest.
Proof.
  intros H rest. by_enumeration m 1 12%nat.
Qed.

Lemma month_starts_nonspace (m : Z) :
  1 <= m <= 12 ->
  forall rest, starts_nonspace (nth (Z.to_nat (m - 1)) month_abbr "" ++ rest)%string = true.
Proof.
  intros H rest. by_enumeration m 1 12%nat.
Qed.

Lemma two_digits_starts_nonspace (n : Z) :
  0 <= n <= 99 ->
  forall rest, starts_nonspace (two_digits n ++ rest)%string = true.
Proof.
  intros H rest. by_enumeration n 0 100%nat.
Qed.

Lemma first_match_day (d : Z) :
  1 <= d <= 31 ->
  forall rest, first_match p_day (two_digits d ++ rest)%string d rest.
Proof.
  intros H rest. by_enumeration d 1 31%nat.
Qed.

Lemma first_match_hour (h : Z) :
  0 <= h <= 23 ->
  forall rest, first_match p_hour (two_digits h ++ rest)%string h rest.
Proof.
  intros H rest. by_enumeration h 0 24%nat.
Qed.

Lemma first_match_minute (m : Z) :
  0 <= m <= 59 ->
  forall rest, first_match p_minute (two_digits m ++ rest)%string m rest.
Proof.
  intros H rest. by_enumeration m 0 60%nat.
Qed.

Lemma first_match_second (s : Z) :
  0 <= s <= 59 ->
  forall rest, first_match p_second (two_digits s ++ rest)%string s rest.
Proof.
  intros H rest. by_enumeration s 0 60%nat.
Qed.

Lemma first_match_digit (k : Z) :
  0 <= k <= 9 ->
  forall rest, first_match (p_digit 0 9) (String (digit_char k) rest) k rest.
Proof.
  intros H rest. by_enumeration k 0 10%nat.
Qed.

Lemma digit_nonspace (k : Z) :
  0 <= k <= 9 -> is_space (digit_char k) = false.
Proof.
  intros H. by_enumeration k 0 10%nat.
Qed.

Lemma first_match_year (y : Z) :
  0 <= y <= 9999 -> first_match p_year (four_digits y) y "".
Proof.
  intros H. unfold p_year, four_digits, two_digits.
  assert (Ha : 0 <= y / 1000 <= 9) by (Z.div_mod_to_equations; lia).
  assert (Hb : 0 <= (y / 100) mod 10 <= 9) by (Z.div_mod_to_equations; lia).
  assert (Hc : 0 <= (y mod 100) / 10 <= 9) by (Z.div_mod_to_equations; lia).
  assert (Hd : 0 <= (y mod 100) mod 10 <= 9) by (Z.div_mod_to_equations; lia).
  eapply first_match_bind; [apply first_match_digit; exact Ha | ].
  eapply first_match_bind; [apply first_match_digit; exact Hb | ].
  eapply first_match_bind; [apply first_match_digit; exact Hc | ].
  eapply first_match_bind; [apply first_match_digit; exact Hd | ].
  replace (1000 * (y / 1000) + 100 * ((y / 100) mod 10)
           + 10 * ((y mod 100) / 10) + (y mod 100) mod 10) with y
    by (Z.div_mod_to_equations; lia).
  apply first_match_ret.
Qed.

Lemma valid_datetime_bounds (t : datetime) :
  valid_datetime t = true ->
  1 <= dt_year t <= 9999 /\ 1 <= dt_month t <= 12 /\
  1 <= dt_day t <= days_in_month (dt_year t) (dt_month t) /\
  0 <= dt_hour t <= 23 /\ 0 <= dt_minute t <= 59 /\ 0 <= dt_second t <= 59.
Proof.
  unfold valid_datetime. rewrite !andb_true_iff, !Z.leb_le. lia.
Qed.

Lemma days_in_month_le (y m : Z) : days_in_month y m <= 31.
Proof.
  unfold days_in_month.
  destruct (m =? 2); [destruct (is_leap y); lia | ].
  destruct ((m =? 4) || (m =? 6) || (m =? 9) || (m =? 11)); lia.
Qed.

Lemma gmt_format_roundtrip (wd : nat) (t : datetime) :
  (wd < 7)%nat -> valid_datetime t = true ->
  first_match p_gmt_format (format_gmt wd t) t "".
Proof.
  intros Hwd Hv. destruct (valid_datetime_bounds t Hv) as (Hy & Hmo & Hd & Hh & Hmi & Hs).
  pose proof (days_in_month_le (dt_year t) (dt_month t)) as Hdm.
  destruct t as [y mo d h mi s]. simpl in *.
  unfold p_gmt_format, format_gmt. simpl dt_year. simpl dt_month. simpl dt_day.
  simpl dt_hour. simpl dt_minute. simpl dt_second.
  destruct (first_match_weekday wd
    (" " ++ nth (Z.to_nat (mo - 1)) month_abbr "" ++ " " ++ two_digits d ++ " " ++
     two_digits h ++ ":" ++ two_digits mi ++ ":" ++ two_digits s ++ " GMT " ++
     four_digits y)%string Hwd) as [i Hi].
  eapply first_match_bind; [exact Hi | ].
  eapply first_match_bind;
    [apply first_match_space; apply month_starts_nonspace; lia | ].
  eapply first_match_bind; [apply first_match_month; lia | ].
  eapply first_match_bind;
    [apply first_match_space; apply two_digits_starts_nonspace; lia | ].
  eapply first_match_bind; [apply first_match_day; lia | ].
  eapply first_match_bind;
    [apply first_match_space; apply two_digits_starts_nonspace; lia | ].
  eapply first_match_bind; [apply first_match_hour; lia | ].
  eapply first_match_bind; [reflexivity | ].
  eapply first_match_bind; [apply first_match_minute; lia | ].
  eapply first_match_bind; [reflexivity | ].
  eapply first_match_bind; [apply first_match_second; lia | ].
  eapply first_match_bind; [apply first_match_space; reflexivity | ].
  eapply first_match_bind; [reflexivity | ].
  eapply first_match_bind.
  { apply first_match_space. unfold four_digits. simpl.
    rewrite digit_nonspace; [reflexivity | Z.div_mod_to_equations; lia]. }
  eapply first_match_bind; [apply first_match_year; lia | ].
  apply first_match_ret.
Qed.

Lemma strptime_raises (v : pyval) (e : pyexc) :
  strptime v = Raise e -> e = TypeError \/ e = ValueError.
Proof.
  destruct v; simpl; try (intros H; injection H as <-; auto).
  destruct (p_gmt_format s) as [ | [t r] tl]; [intros H; injection H as <-; auto | ].
  destruct r; [ | intros H; injection H as <-; auto].
  destruct (valid_datetime t); [discriminate | intros H; injection H as <-; auto].
Qed.

Lemma strptime_valid (v : pyval) (t : datetime) :
  strptime v = Ok t -> valid_datetime t = true.
Proof.
  destruct v; simpl; try discriminate.
  destruct (p_gmt_format s) as [ | [t' r] tl]; [discriminate | ].
  destruct r; [ | discriminate].
  destruct (valid_datetime t') eqn:E; [ | discriminate].
  intros H. injection H as <-. exact E.
Qed.

(** C7: [parse_datetime] gives the calendar instant written in a
    well-formed string of the format [weekday month day HH:MM:SS GMT year],
    and for every other input (not a string, or a string the library
    rejects) it returns [None]; it never raises. *)
Theorem parse_datetime_total :
  (forall wd t, (wd < 7)%nat -> valid_datetime t = true ->
     parse_datetime (VStr (format_gmt wd t)) = Ok (VDatetime t)) /\
  parse_datetime (VStr "Mon Aug 04 04:51:37 GMT 2025")
    = Ok (VDatetime (mk_datetime 2025 8 4 4 51 37)) /\
  (forall v, parse_datetime v = Ok VNone \/
             exists t, strptime v = Ok t /\ parse_datetime v = Ok (VDatetime t)) /\
  (forall v e, strptime v = Raise e -> parse_datetime v = Ok VNone) /\
  (forall v, (forall s, v <> VStr s) -> parse_datetime v = Ok VNone) /\
  parse_datetime VNone = Ok VNone /\
  parse_datetime (VStr "2025-08-04 04:51:37") = Ok VNone.
Proof.
  assert (Hraise : forall v e, strptime v = Raise e -> parse_datetime v = Ok VNone).
  { intros v e H. unfold parse_datetime. rewrite H.
    destruct (strptime_raises v e H) as [-> | ->]; reflexivity. }
  repeat split; try reflexivity.
  - intros wd t Hwd Hv. unfold parse_datetime, strptime.
    pose proof (gmt_format_roundtrip wd t Hwd Hv) as H. unfold first_match in H.
    destruct (p_gmt_format (format_gmt wd t)) as [ | [t' r] tl]; simpl in H;
      [discriminate | ].
    injection H as -> ->. now rewrite Hv.
  - intros v. destruct (strptime v) as [t | e] eqn:E.
    + right. exists t. split; [reflexivity | ]. unfold parse_datetime. now rewrite E.
    + left. eapply Hraise; eassumption.
  - exact Hraise.
  - intros v Hs. destruct v; try reflexivity. now elim (Hs s).
Qed.

(** *** The mappers on well-shaped input *)

Lemma rmapM_dicts_ok {B : Type} (f : pyval -> result B) (g : row -> B)
    (ds : list row) :
  (forall d, f (VDict d) = Ok (g d)) ->
  rmapM f (map VDict ds) = Ok (map g ds).
Proof.
  intros Hf. induction ds as [ | d ds IH]; simpl; [reflexivity | ].
  now rewrite Hf, IH.
Qed.

Lemma rmapM_dicts_inv {B : Type} (f : pyval -> result B) (g : row -> B)
    (items : list pyval) (rs : list B) :
  (forall x r, f x = Ok r -> exists d, x = VDict d /\ r = g d) ->
  rmapM f items = Ok rs ->
  exists ds, items = map VDict ds /\ rs = map g ds.
Proof.
  intros Hf. revert rs. induction items as [ | x items IH]; simpl; intros rs H.
  - injection H as <-. now exists [].
  - destruct (f x) as [r | ] eqn:Ex; simpl in H; [ | discriminate].
    destruct (rmapM f items) as [rs' | ] eqn:Er; simpl in H; [ | discriminate].
    injection H as <-.
    destruct (Hf x r Ex) as (d & -> & ->).
    destruct (IH rs' eq_refl) as (ds & -> & ->).
    now exists (d :: ds).
Qed.

Lemma motif_entry_dict (motif_type : string) (d : row) :
  motif_entry motif_type (VDict d) = Ok (motif_row motif_type d).
Proof. reflexivity. Qed.

Lemma motif_entry_inv (motif_type : string) (x : pyval) (r : row) :
  motif_entry motif_type x = Ok r -> exists d, x = VDict d /\ r = motif_row motif_type d.
Proof.
  destruct x; try discriminate. intros H. exists d. split; [reflexivity | ].
  rewrite motif_entry_dict in H. now injection H.
Qed.

Lemma parsed_subgene_dict (k : Z) (d : row) :
  parsed_subgene k (VDict d) = Ok (subgene_record k d).
Proof. reflexivity. Qed.

Lemma parsed_subgene_inv (k : Z) (x : pyval) (r : row) :
  parsed_subgene k x = Ok r -> exists d, x = VDict d /\ r = subgene_record k d.
Proof.
  destruct x; try discriminate. intros H. exists d. split; [reflexivity | ].
  rewrite parsed_subgene_dict in H. now injection H.
Qed.

Lemma parsed_domain_dict (k : Z) (d : row) :
  parsed_domain k (VDict d) = Ok (domain_record k d).
Proof. reflexivity. Qed.

Lemma parsed_domain_inv (k : Z) (x : pyval) (r : row) :
  parsed_domain k x = Ok r -> exists d, x = VDict d /\ r = domain_record k d.
Proof.
  destruct x; try discriminate. intros H. exists d. split; [reflexivity | ].
  rewrite parsed_domain_dict in H. now injection H.
Qed.

Lemma motifs_of_type_inv (chain_block : pyval) (motif_type : string) (rs : list row) :
  motifs_of_type chain_block motif_type = Ok rs ->
  exists ds,
    rbind (py_get chain_block (motif_type ++ "_motifs")%string (VList [])) py_iter
      = Ok (map VDict ds) /\
    rs = map (motif_row motif_type) ds.
Proof.
  unfold motifs_of_type. intros H.
  destruct (py_get chain_block _ _) as [ms | ] eqn:Eg; simpl in *; [ | discriminate].
  destruct (py_iter ms) as [items | ] eqn:Ei; simpl in *; [ | discriminate].
  destruct (rmapM_dicts_inv _ _ _ _ (motif_entry_inv motif_type) H) as (ds & -> & ->).
  now exists ds.
Qed.

Lemma motifs_of_type_ok (chain_block : pyval) (motif_type : string) (ds : list row) :
  py_get chain_block (motif_type ++ "_motifs")%string (VList []) = Ok (VList (map VDict ds)) ->
  motifs_of_type chain_block motif_type = Ok (map (motif_row motif_type) ds).
Proof.
  unfold motifs_of_type. intros ->. simpl.
  apply rmapM_dicts_ok. apply motif_entry_dict.
Qed.

(** C8: [parse_motifs] returns one flat list: the motifs of the category
    Slippery, then PseudoKnot, then SpliceAcceptor, then SpliceDonor, each
    category in source order and each entry tagged with its category; on a
    block whose four motif fields are lists of dicts (or absent) it does
    return. *)
Theorem parse_motifs_order (chain_block : pyval) :
  (forall ms, parse_motifs chain_block = Ok ms ->
     exists s1 s2 s3 s4 : list row,
       rbind (py_get chain_block "Slippery_motifs" (VList [])) py_iter
         = Ok (map VDict s1) /\
       rbind (py_get chain_block "PseudoKnot_motifs" (VList [])) py_iter
         = Ok (map VDict s2) /\
       rbind (py_get chain_block "SpliceAcceptor_motifs" (VList [])) py_iter
         = Ok (map VDict s3) /\
       rbind (py_get chain_block "SpliceDonor_motifs" (VList [])) py_iter
         = Ok (map VDict s4) /\
       ms = map (motif_row "Slippery") s1 ++ map (motif_row "PseudoKnot") s2 ++
            map (motif_row "SpliceAcceptor") s3 ++ map (motif_row "SpliceDonor") s4) /\
  (forall s1 s2 s3 s4 : list row,
     py_get chain_block "Slippery_motifs" (VList []) = Ok (VList (map VDict s1)) ->
     py_get chain_block "PseudoKnot_motifs" (VList []) = Ok (VList (map VDict s2)) ->
     py_get chain_block "SpliceAcceptor_motifs" (VList []) = Ok (VList (map VDict s3)) ->
     py_get chain_block "SpliceDonor_motifs" (VList []) = Ok (VList (map VDict s4)) ->
     parse_motifs chain_block
     = Ok (map (motif_row "Slippery") s1 ++ map (motif_row "PseudoKnot") s2 ++
           map (motif_row "SpliceAcceptor") s3 ++ map (motif_row "SpliceDonor") s4)).
Proof.
  split.
  - intros ms H. unfold parse_motifs, motif_types in H. simpl in H.
    destruct (motifs_of_type chain_block "Slippery") as [r1 | ] eqn:E1;
      simpl in H; [ | discriminate].
    destruct (motifs_of_type chain_block "PseudoKnot") as [r2 | ] eqn:E2;
      simpl in H; [ | discriminate].
    destruct (motifs_of_type chain_block "SpliceAcceptor") as [r3 | ] eqn:E3;
      simpl in H; [ | discriminate].
    destruct (motifs_of_type chain_block "SpliceDonor") as [r4 | ] eqn:E4;
      simpl in H; [ | discriminate].
    injection H as <-.
    destruct (motifs_of_type_inv _ _ _ E1) as (s1 & H1 & ->).
    destruct (motifs_of_type_inv _ _ _ E2) as (s2 & H2 & ->).
    destruct (motifs_of_type_inv _ _ _ E3) as (s3 & H3 & ->).
    destruct (motifs_of_type_inv _ _ _ E4) as (s4 & H4 & ->).
    exists s1, s2, s3, s4. rewrite app_nil_r. auto.
  - intros s1 s2 s3 s4 H1 H2 H3 H4. unfold parse_motifs, motif_types. simpl.
    rewrite (motifs_of_type_ok chain_block "Slippery" s1 H1). simpl.
    rewrite (motifs_of_type_ok chain_block "PseudoKnot" s2 H2). simpl.
    rewrite (motifs_of_type_ok chain_block "SpliceAcceptor" s3 H3). simpl.
    rewrite (motifs_of_type_ok chain_block "SpliceDonor" s4 H4). simpl.
    now rewrite app_nil_r.
Qed.

(** *** The parse of one chain block *)

Lemma subgenes_loop_inv (items : list pyval) :
  forall k subs doms,
    subgenes_loop items k = Ok (subs, doms) ->
    exists tree : chain_tree,
      Forall2 subgene_source items tree /\
      subs = tree_subgene_records tree k /\
      doms = tree_domain_records tree k.
Proof.
  induction items as [ | item items IH]; intros k subs doms H; simpl in H.
  - injection H as <- <-. exists []. repeat split. constructor.
  - destruct (parsed_subgene k item) as [ps | ] eqn:Eps; simpl in H; [ | discriminate].
    destruct (py_get item "domains" (VList [])) as [ds | ] eqn:Eg; simpl in H;
      [ | discriminate].
    destruct (py_iter ds) as [ditems | ] eqn:Ei; simpl in H; [ | discriminate].
    destruct (rmapM (parsed_domain k) ditems) as [pds | ] eqn:Em; simpl in H;
      [ | discriminate].
    destruct (subgenes_loop items (k + 1)) as [[subs' doms'] | ] eqn:El; simpl in H;
      [ | discriminate].
    injection H as <- <-.
    destruct (parsed_subgene_inv _ _ _ Eps) as (d & -> & ->).
    destruct (rmapM_dicts_inv _ _ _ _ (parsed_domain_inv k) Em) as (dds & -> & ->).
    destruct (IH _ _ _ El) as (tree & HF & -> & ->).
    exists ((d, dds) :: tree). repeat split.
    constructor; [ | exact HF].
    split; [reflexivity | ]. simpl fst. simpl snd. rewrite Eg. simpl. exact Ei.
Qed.

Lemma subgenes_loop_ok (items : list pyval) (tree : chain_tree) :
  Forall2 subgene_source items tree ->
  forall k, subgenes_loop items k
            = Ok (tree_subgene_records tree k, tree_domain_records tree k).
Proof.
  induction 1 as [ | item t items tree [Hd Hs] HF IH]; intros k; simpl.
  - reflexivity.
  - subst item. rewrite parsed_subgene_dict. simpl in Hs. simpl. rewrite Hs. simpl.
    rewrite (rmapM_dicts_ok (parsed_domain k) (domain_record k) (snd t)
               (parsed_domain_dict k)).
    simpl. rewrite IH. reflexivity.
Qed.

Lemma tree_subgene_records_length (tree : chain_tree) :
  forall k, List.length (tree_subgene_records tree k) = List.length tree.
Proof. induction tree as [ | t tree IH]; intros k; simpl; [ | rewrite IH]; reflexivity. Qed.

Lemma tree_subgene_records_index (tree : chain_tree) :
  forall k,
    map (fun r => dict_get r "subgene_index") (tree_subgene_records tree k)
    = map (fun i => Some (VInt (k + Z.of_nat i))) (seq 0 (List.length tree)).
Proof.
  induction tree as [ | t tree IH]; intros k; simpl; [reflexivity | ].
  f_equal; [now rewrite Z.add_0_r | ].
  rewrite IH, <- seq_shift, map_map. apply map_ext. intros i.
  do 2 f_equal. lia.
Qed.

Lemma tree_domain_records_index (tree : chain_tree) :
  forall k d,
    In d (tree_domain_records tree k) ->
    exists i, (i < List.length tree)%nat /\
              dict_get d "subgene_index" = Some (VInt (k + Z.of_nat i)).
Proof.
  induction tree as [ | t tree IH]; intros k d Hin; simpl in Hin; [contradiction | ].
  apply in_app_or in Hin. destruct Hin as [Hin | Hin].
  - apply in_map_iff in Hin. destruct Hin as (dd & <- & _).
    exists 0%nat. split; [simpl; lia | ]. simpl. now rewrite Z.add_0_r.
  - destruct (IH _ _ Hin) as (i & Hi & E).
    exists (S i). split; [simpl; lia | ]. rewrite E. do 2 f_equal. lia.
Qed.

(** *** Steps of the connection monad *)

Lemma execute_ok (table : string) (data : row) (c c' : conn) (id : Z) :
  execute table data c = (Ok id, c') ->
  store_insert c table data = Some id /\
  c' = mk_conn (log c ++ [mk_entry table data id]) (ncommitted c) (closed c).
Proof.
  unfold execute. destruct (store_insert c table data); intros H.
  - injection H as <- <-. auto.
  - discriminate.
Qed.

Lemma execute_raise (table : string) (data : row) (c c' : conn) (e : pyexc) :
  execute table data c = (Raise e, c') -> e = StoreError /\ c' = c.
Proof.
  unfold execute. destruct (store_insert c table data); intros H.
  - discriminate.
  - injection H as <- <-. auto.
Qed.

Lemma commit_ok (c c' : conn) (u : unit) :
  commit c = (Ok u, c') ->
  c' = mk_conn (log c) (List.length (log c)) (closed c).
Proof.
  unfold commit. destruct (store_commit c); intros H.
  - now injection H.
  - discriminate.
Qed.

Lemma commit_raise (c c' : conn) (e : pyexc) :
  commit c = (Raise e, c') -> e = StoreError /\ c' = c.
Proof.
  unfold commit. destruct (store_commit c); intros H.
  - discriminate.
  - injection H as <- <-. auto.
Qed.

Lemma bind_ok {A B : Type} (m : M A) (f : A -> M B) (c c' : conn) (b : B) :
  bind m f c = (Ok b, c') ->
  exists a c1, m c = (Ok a, c1) /\ f a c1 = (Ok b, c').
Proof.
  unfold bind. destruct (m c) as [[a | e] c1]; intros H.
  - now exists a, c1.
  - discriminate.
Qed.

Lemma bind_raise {A B : Type} (m : M A) (f : A -> M B) (c c' : conn) (e : pyexc) :
  bind m f c = (Raise e, c') ->
  m c = (Raise e, c') \/ exists a c1, m c = (Ok a, c1) /\ f a c1 = (Raise e, c').
Proof.
  unfold bind. destruct (m c) as [[a | e0] c1]; intros H.
  - right. now exists a, c1.
  - left. injection H as <- <-. reflexivity.
Qed.

Lemma lift_inv {A : Type} (r r' : result A) (c c' : conn) :
  lift r c = (r', c') -> r' = r /\ c' = c.
Proof. unfold lift. intros H. injection H as <- <-. auto. Qed.

(** *** The dict from positional index to identifier *)

Lemma keymap_put_fresh (m : keymap) (k : pyval) (id : Z) :
  keymap_find m k = None -> keymap_put m k id = m ++ [(k, id)].
Proof.
  induction m as [ | [k' id'] m IH]; simpl; [reflexivity | ].
  destruct (py_key_eqb k' k); [discriminate | ].
  intros H. now rewrite IH.
Qed.

Lemma keymap_find_app (m l : keymap) (k : pyval) :
  keymap_find (m ++ l) k
  = match keymap_find m k with
    | Some id => Some id
    | None => keymap_find l k
    end.
Proof.
  induction m as [ | [k' id'] m IH]; simpl; [reflexivity | ].
  destruct (py_key_eqb k' k); [reflexivity | exact IH].
Qed.

Lemma keymap_find_index_map (ids : list Z) :
  forall k i id,
    nth_error ids i = Some id ->
    keymap_find (index_map k ids) (VInt (k + Z.of_nat i)) = Some id.
Proof.
  induction ids as [ | id0 ids IH]; intros k i id H.
  - destruct i; discriminate.
  - destruct i as [ | i]; simpl in H |- *.
    + injection H as <-. rewrite Z.add_0_r, Z.eqb_refl. reflexivity.
    + replace (k =? k + Z.pos (Pos.of_succ_nat i)) with false
        by (symmetry; apply Z.eqb_neq; lia).
      replace (k + Z.pos (Pos.of_succ_nat i)) with (k + 1 + Z.of_nat i) by lia.
      now apply IH.
Qed.

(** *** Inserting the subgenes and domains of one chain *)

Lemma insert_subgene_rows_cons (k : Z) (d : row) (rest : list row)
    (herv_chain_id : Z) (m : keymap) (c : conn) :
  insert_subgene_rows (subgene_record k d :: rest) herv_chain_id m c
  = bind (execute "subgenes" (subgene_row herv_chain_id d))
         (fun id => insert_subgene_rows rest herv_chain_id (keymap_put m (VInt k) id)) c.
Proof. reflexivity. Qed.

Lemma insert_domain_rows_cons (k : Z) (d : row) (rest : list row)
    (m : keymap) (c : conn) :
  insert_domain_rows (domain_record k d :: rest) m c
  = match keymap_find m (VInt k) with
    | Some id =>
        bind (execute "domains" (domain_row id d))
             (fun _ => insert_domain_rows rest m) c
    | None => (Raise KeyError, c)
    end.
Proof.
  assert (E : forall o,
    keymap_find m (VInt k) = o ->
    insert_domain_rows (domain_record k d :: rest) m c
    = match o with
      | Some id =>
          bind (execute "domains" (domain_row id d))
               (fun _ => insert_domain_rows rest m) c
      | None => (Raise KeyError, c)
      end).
  { intros o Ho. cbn [insert_domain_rows]. unfold bind at 1. unfold lift at 1.
    cbn [dict_pop domain_record dict_get dict_remove String.eqb Ascii.eqb Bool.eqb fst snd].
    unfold bind at 1. unfold lift at 1. unfold keymap_lookup.
    cbn [py_hashable]. rewrite Ho. destruct o; reflexivity. }
  apply E. reflexivity.
Qed.

Lemma subgene_rows_inserted (tree : chain_tree) :
  forall k herv_chain_id m c m' c',
    insert_subgene_rows (tree_subgene_records tree k) herv_chain_id m c = (Ok m', c') ->
    (forall j, k <= j -> keymap_find m (VInt j) = None) ->
    exists ids,
      List.length ids = List.length tree /\
      log c' = log c ++ subgene_entries herv_chain_id tree ids /\
      ncommitted c' = ncommitted c /\ closed c' = closed c /\
      m' = m ++ index_map k ids /\
      Forall2 (returned_for herv_chain_id) tree ids.
Proof.
  induction tree as [ | t tree IH]; intros k herv_chain_id m c m' c' H Hfresh.
  - simpl in H. injection H as <- <-. exists []. simpl.
    rewrite !app_nil_r. repeat split. constructor.
  - simpl tree_subgene_records in H. rewrite insert_subgene_rows_cons in H.
    apply bind_ok in H. destruct H as (id & c1 & He & Hr).
    apply execute_ok in He. destruct He as [Hstore ->].
    rewrite keymap_put_fresh in Hr by (apply Hfresh; lia).
    apply IH in Hr.
    + destruct Hr as (ids & Hlen & Hlog & Hn & Hc & -> & Hret).
      exists (id :: ids). simpl in *.
      split; [now rewrite Hlen | ].
      split; [rewrite Hlog, <- app_assoc; reflexivity | ].
      split; [exact Hn | ]. split; [exact Hc | ].
      split; [now rewrite <- app_assoc | ].
      constructor; [now exists c | exact Hret].
    + intros j Hj. rewrite keymap_find_app, Hfresh by lia. simpl.
      replace (k =? j) with false by (symmetry; apply Z.eqb_neq; lia).
      reflexivity.
Qed.

Lemma subgene_rows_raise (tree : chain_tree) :
  forall k herv_chain_id m c e c',
    insert_subgene_rows (tree_subgene_records tree k) herv_chain_id m c = (Raise e, c') ->
    e = StoreError.
Proof.
  induction tree as [ | t tree IH]; intros k herv_chain_id m c e c' H.
  - discriminate.
  - simpl tree_subgene_records in H. rewrite insert_subgene_rows_cons in H.
    apply bind_raise in H. destruct H as [H | (id & c1 & _ & H)].
    + now apply execute_raise in H.
    + eapply IH. exact H.
Qed.

(** The domains nested under one subgene, whose index the dict resolves
    to [id]: either the store rejects one of them, or they all go in with
    [id] as foreign key and the loop goes on with the rest. *)
Lemma domain_rows_of_parent (ds : list row) :
  forall k id m rest c r c',
    keymap_find m (VInt k) = Some id ->
    insert_domain_rows (map (domain_record k) ds ++ rest) m c = (r, c') ->
    r = Raise StoreError \/
    exists c1 new,
      log c1 = log c ++ new /\
      Forall (fun e => e_table e = "domains") new /\
      map e_row new = map (domain_row id) ds /\
      ncommitted c1 = ncommitted c /\ closed c1 = closed c /\
      insert_domain_rows rest m c1 = (r, c').
Proof.
  induction ds as [ | d ds IH]; intros k id m rest c r c' Hm H.
  - right. exists c, []. simpl in *. rewrite app_nil_r.
    repeat split; auto.
  - simpl map in H. simpl app in H. rewrite insert_domain_rows_cons, Hm in H.
    unfold bind in H.
    destruct (execute "domains" (domain_row id d) c) as [[x | e] c1] eqn:He.
    + apply execute_ok in He. destruct He as [_ ->].
      destruct (IH _ _ _ _ _ _ _ Hm H) as [-> | (c2 & new & Hlog & Ht & Hr & Hn & Hc & Hrest)];
        [now left | right].
      exists c2, (mk_entry "domains" (domain_row id d) x :: new). simpl in *.
      repeat split; try assumption.
      * rewrite Hlog, <- app_assoc. reflexivity.
      * constructor; [reflexivity | exact Ht].
      * now rewrite Hr.
    + apply execute_raise in He. destruct He as [-> ->].
      injection H as <- <-. now left.
Qed.

Lemma domain_rows_inserted (tree : chain_tree) :
  forall ids k m c r c',
    List.length ids = List.length tree ->
    (forall i id, nth_error ids i = Some id ->
                  keymap_find m (VInt (k + Z.of_nat i)) = Some id) ->
    insert_domain_rows (tree_domain_records tree k) m c = (r, c') ->
    r = Raise StoreError \/
    (r = Ok tt /\
     exists new,
       log c' = log c ++ new /\
       Forall (fun e => e_table e = "domains") new /\
       map e_row new = domain_rows tree ids /\
       ncommitted c' = ncommitted c /\ closed c' = closed c).
Proof.
  induction tree as [ | t tree IH]; intros ids k m c r c' Hlen Hm H.
  - simpl in H. injection H as <- <-. right. split; [reflexivity | ].
    exists []. rewrite app_nil_r. destruct ids; simpl; auto.
  - destruct ids as [ | id ids]; [discriminate | ].
    simpl tree_domain_records in H.
    assert (Hk : keymap_find m (VInt k) = Some id).
    { specialize (Hm 0%nat id eq_refl). now rewrite Z.add_0_r in Hm. }
    destruct (domain_rows_of_parent _ _ _ _ _ _ _ _ Hk H)
      as [-> | (c1 & new1 & Hlog1 & Ht1 & Hr1 & Hn1 & Hc1 & Hrest)]; [now left | ].
    apply (IH ids) in Hrest.
    + destruct Hrest as [-> | (-> & new2 & Hlog2 & Ht2 & Hr2 & Hn2 & Hc2)];
        [now left | right].
      split; [reflexivity | ]. exists (new1 ++ new2). repeat split.
      * rewrite Hlog2, Hlog1, app_assoc. reflexivity.
      * apply Forall_app. auto.
      * unfold domain_rows in *. simpl. rewrite map_app, Hr1, Hr2. reflexivity.
      * congruence.
      * congruence.
    + simpl in Hlen. lia.
    + intros i id' Hi. specialize (Hm (S i) id' Hi).
      replace (k + 1 + Z.of_nat i) with (k + Z.of_nat (S i)) by lia. exact Hm.
Qed.

Lemma index_map_resolves (ids : list Z) (i : nat) (id : Z) :
  nth_error ids i = Some id ->
  keymap_find ([] ++ index_map 0 ids) (VInt (0 + Z.of_nat i)) = Some id.
Proof. simpl app. apply keymap_find_index_map. Qed.

Lemma parse_subgenes_and_domains_inv (chain_block : pyval) (subs doms : list row) :
  parse_subgenes_and_domains chain_block = Ok (subs, doms) ->
  exists items tree,
    rbind (py_get chain_block "subgenes" (VList [])) py_iter = Ok items /\
    Forall2 subgene_source items tree /\
    subs = tree_subgene_records tree 0 /\
    doms = tree_domain_records tree 0.
Proof.
  unfold parse_subgenes_and_domains. intros H.
  destruct (py_get chain_block "subgenes" (VList [])) as [sgs | ] eqn:Eg;
    simpl in *; [ | discriminate].
  destruct (py_iter sgs) as [items | ] eqn:Ei; simpl in *; [ | discriminate].
  destruct (subgenes_loop_inv _ _ _ _ H) as (tree & HF & -> & ->).
  exists items, tree. auto.
Qed.

Lemma NoDup_nth_error_neq (ids : list Z) (i j : nat) (a b : Z) :
  NoDup ids -> nth_error ids i = Some a -> nth_error ids j = Some b ->
  i <> j -> a <> b.
Proof.
  intros Hnd Hi Hj Hij Hab. subst b. apply Hij.
  apply (proj1 (NoDup_nth_error ids) Hnd).
  - apply nth_error_Some. congruence.
  - congruence.
Qed.

(** C1: when the subgenes and domains parsed from a chain block are
    inserted, every domain row carries as [subgene_id] the identifier the
    store returned for the subgene the domain is nested under in the source
    document; with distinct identifiers it is never the one of a sibling.
    The positional indices are 0, 1, 2, ... in source order, from 0 for each
    chain block. *)
Theorem domain_foreign_key (chain_block : pyval) (subs doms : list row)
    (herv_chain_id : Z) (c c' : conn) :
  parse_subgenes_and_domains chain_block = Ok (subs, doms) ->
  insert_subgenes_domains subs doms herv_chain_id c = (Ok tt, c') ->
  exists (items : list pyval) (tree : chain_tree) (ids : list Z)
         (dom_entries : list entry),
    rbind (py_get chain_block "subgenes" (VList [])) py_iter = Ok items /\
    Forall2 subgene_source items tree /\
    map (fun r => dict_get r "subgene_index") subs
      = map (fun i => Some (VInt (Z.of_nat i))) (seq 0 (List.length tree)) /\
    doms = tree_domain_records tree 0 /\
    List.length ids = List.length tree /\
    Forall2 (returned_for herv_chain_id) tree ids /\
    log c' = log c ++ subgene_entries herv_chain_id tree ids ++ dom_entries /\
    Forall (fun e => e_table e = "domains") dom_entries /\
    map e_row dom_entries = domain_rows tree ids /\
    (NoDup ids ->
     forall i j t id_i id_j r,
       nth_error tree i = Some t -> nth_error ids i = Some id_i ->
       nth_error ids j = Some id_j -> i <> j ->
       In r (map (domain_row id_i) (snd t)) ->
       dict_get r "subgene_id" = Some (VInt id_i) /\
       dict_get r "subgene_id" <> Some (VInt id_j)).
Proof.
  intros Hp Hi.
  destruct (parse_subgenes_and_domains_inv _ _ _ Hp) as (items & tree & Hit & HF & -> & ->).
  unfold insert_subgenes_domains in Hi.
  apply bind_ok in Hi. destruct Hi as (m & c1 & Hs & Hi).
  apply bind_ok in Hi. destruct Hi as ([] & c2 & Hd & Hc).
  apply commit_ok in Hc.
  apply subgene_rows_inserted in Hs; [ | reflexivity].
  destruct Hs as (ids & Hlen & Hlog1 & Hn1 & Hc1 & -> & Hret).
  apply (domain_rows_inserted tree ids 0) in Hd;
    [ | exact Hlen | intros i id; apply index_map_resolves].
  destruct Hd as [Hd | (_ & new & Hlog2 & Ht & Hr & _ & _)]; [discriminate | ].
  exists items, tree, ids, new.
  split; [exact Hit | ]. split; [exact HF | ].
  split; [rewrite tree_subgene_records_index; reflexivity | ].
  split; [reflexivity | ]. split; [exact Hlen | ]. split; [exact Hret | ].
  split; [subst c'; simpl; rewrite Hlog2, Hlog1, <- app_assoc; reflexivity | ].
  split; [exact Ht | ]. split; [exact Hr | ].
  intros Hnd i j t id_i id_j r Hti Hii Hij Hne Hin.
  apply in_map_iff in Hin. destruct Hin as (d & <- & _).
  split; [reflexivity | ]. simpl. intros E. injection E as E.
  exact (NoDup_nth_error_neq ids i j id_i id_j Hnd Hii Hij Hne E).
Qed.

(** C10: the subgene records of one parse carry the indices 0 .. n-1 in
    source order and every domain record carries one of them, so inserting
    the two lists of one parse never fails in the index lookup: the insert
    completes or the store raises. *)
Theorem parsed_indices_resolve (chain_block : pyval) (subs doms : list row) :
  parse_subgenes_and_domains chain_block = Ok (subs, doms) ->
  map (fun r => dict_get r "subgene_index") subs
    = map (fun i => Some (VInt (Z.of_nat i))) (seq 0 (List.length subs)) /\
  (forall d, In d doms ->
     exists i, (i < List.length subs)%nat /\
               dict_get d "subgene_index" = Some (VInt (Z.of_nat i))) /\
  (forall herv_chain_id c,
     fst (insert_subgenes_domains subs doms herv_chain_id c) = Ok tt \/
     fst (insert_subgenes_domains subs doms herv_chain_id c) = Raise StoreError).
Proof.
  intros Hp.
  destruct (parse_subgenes_and_domains_inv _ _ _ Hp) as (items & tree & Hit & HF & -> & ->).
  rewrite tree_subgene_records_length. repeat split.
  - apply tree_subgene_records_index.
  - intros d Hin. apply tree_domain_records_index in Hin. exact Hin.
  - intros herv_chain_id c. unfold insert_subgenes_domains, bind.
    destruct (insert_subgene_rows (tree_subgene_records tree 0) herv_chain_id [] c)
      as [[m | e] c1] eqn:Hs.
    + apply subgene_rows_inserted in Hs; [ | reflexivity].
      destruct Hs as (ids & Hlen & _ & _ & _ & -> & _).
      destruct (insert_domain_rows (tree_domain_records tree 0) ([] ++ index_map 0 ids) c1)
        as [r c2] eqn:Hd.
      apply (domain_rows_inserted tree ids 0) in Hd;
        [ | exact Hlen | intros i id; apply index_map_resolves].
      destruct Hd as [-> | (-> & _)]; [now right | ].
      destruct (commit c2) as [[[] | e] c3] eqn:Hc; [now left | ].
      apply commit_raise in Hc. destruct Hc as [-> _]. now right.
    + apply subgene_rows_raise in Hs. subst e. now right.
Qed.

(** *** What the operations do to the connection *)

Lemma no_commit_ret {A : Type} (a : A) : no_commit (ret a).
Proof.
  intros c r c' H. injection H as <- <-. repeat split. exists []. now rewrite app_nil_r.
Qed.

Lemma no_commit_lift {A : Type} (x : result A) : no_commit (lift x).
Proof.
  intros c r c' H. injection H as <- <-. repeat split. exists []. now rewrite app_nil_r.
Qed.

Lemma no_commit_execute (table : string) (data : row) : no_commit (execute table data).
Proof.
  intros c r c' H. unfold execute in H.
  destruct (store_insert c table data) as [id | ]; injection H as <- <-; simpl.
  - repeat split. now eexists.
  - repeat split. exists []. now rewrite app_nil_r.
Qed.

Lemma no_commit_bind {A B : Type} (m : M A) (f : A -> M B) :
  no_commit m -> (forall a, no_commit (f a)) -> no_commit (bind m f).
Proof.
  intros Hm Hf c r c' H. unfold bind in H.
  destruct (m c) as [[a | e] c1] eqn:E.
  - destruct (Hm _ _ _ E) as (Hn & Hc & new1 & Hl).
    destruct (Hf a _ _ _ H) as (Hn' & Hc' & new2 & Hl').
    repeat split; try congruence.
    exists (new1 ++ new2). rewrite Hl', Hl, app_assoc. reflexivity.
  - injection H as <- <-. exact (Hm _ _ _ E).
Qed.

Lemma insert_subgene_rows_no_commit (subgenes : list row) (herv_chain_id : Z) :
  forall m, no_commit (insert_subgene_rows subgenes herv_chain_id m).
Proof.
  induction subgenes as [ | s rest IH]; intros m; simpl.
  - apply no_commit_ret.
  - apply no_commit_bind; [apply no_commit_lift | intros popped].
    apply no_commit_bind; [apply no_commit_execute | intros id].
    apply no_commit_bind; [apply no_commit_lift | intros m']. apply IH.
Qed.

Lemma insert_domain_rows_no_commit (domains : list row) (m : keymap) :
  no_commit (insert_domain_rows domains m).
Proof.
  induction domains as [ | d rest IH]; simpl.
  - apply no_commit_ret.
  - apply no_commit_bind; [apply no_commit_lift | intros popped].
    apply no_commit_bind; [apply no_commit_lift | intros id].
    apply no_commit_bind; [apply no_commit_execute | intros _]. apply IH.
Qed.

Lemma insert_motif_rows_no_commit (motifs : list row) (herv_chain_id : Z) :
  no_commit (insert_motif_rows motifs herv_chain_id).
Proof.
  induction motifs as [ | d rest IH]; simpl.
  - apply no_commit_ret.
  - apply no_commit_bind; [apply no_commit_execute | intros _]. apply IH.
Qed.

Lemma insert_ltr_rows_no_commit (ltr_list : list row) (herv_chain_id : Z) :
  no_commit (insert_ltr_rows ltr_list herv_chain_id).
Proof.
  induction ltr_list as [ | d rest IH]; simpl.
  - apply no_commit_ret.
  - apply no_commit_bind; [apply no_commit_execute | intros _]. apply IH.
Qed.

Lemma no_commit_grows {A : Type} (m : M A) : no_commit m -> grows m.
Proof.
  intros Hm c r c' Hwf H. destruct (Hm _ _ _ H) as (Hn & Hc & new & Hl).
  unfold wf in *. repeat split.
  - rewrite Hn, Hl, length_app. lia.
  - lia.
  - exact Hc.
  - now exists new.
Qed.

Lemma grows_commit : grows commit.
Proof.
  intros c r c' Hwf H. unfold commit in H.
  destruct (store_commit c); injection H as <- <-; unfold wf in *; simpl.
  - repeat split; try lia. exists []. now rewrite app_nil_r.
  - repeat split; try lia. exists []. now rewrite app_nil_r.
Qed.

Lemma grows_bind {A B : Type} (m : M A) (f : A -> M B) :
  grows m -> (forall a, grows (f a)) -> grows (bind m f).
Proof.
  intros Hm Hf c r c' Hwf H. unfold bind in H.
  destruct (m c) as [[a | e] c1] eqn:E.
  - destruct (Hm _ _ _ Hwf E) as (Hwf1 & Hn & Hc & new1 & Hl).
    destruct (Hf a _ _ _ Hwf1 H) as (Hwf2 & Hn' & Hc' & new2 & Hl').
    repeat split; try congruence; try lia.
    exists (new1 ++ new2). rewrite Hl', Hl, app_assoc. reflexivity.
  - injection H as <- <-. exact (Hm _ _ _ Hwf E).
Qed.

Lemma grows_lift {A : Type} (x : result A) : grows (lift x).
Proof. apply no_commit_grows, no_commit_lift. Qed.

Lemma grows_ret {A : Type} (a : A) : grows (ret a).
Proof. apply no_commit_grows, no_commit_ret. Qed.

Lemma grows_insert_run_metadata (metadata : row) : grows (insert_run_metadata metadata).
Proof.
  unfold insert_run_metadata.
  apply grows_bind; [apply no_commit_grows, no_commit_execute | intros id].
  apply grows_bind; [apply grows_commit | intros _]. apply grows_ret.
Qed.

Lemma grows_insert_herv_chain (entry : row) (pk : Z) : grows (insert_herv_chain entry pk).
Proof.
  unfold insert_herv_chain.
  apply grows_bind; [apply no_commit_grows, no_commit_execute | intros id].
  apply grows_bind; [apply grows_commit | intros _]. apply grows_ret.
Qed.

Lemma grows_insert_subgenes_domains (subgenes domains : list row) (herv_chain_id : Z) :
  grows (insert_subgenes_domains subgenes domains herv_chain_id).
Proof.
  unfold insert_subgenes_domains.
  apply grows_bind;
    [apply no_commit_grows, insert_subgene_rows_no_commit | intros m].
  apply grows_bind;
    [apply no_commit_grows, insert_domain_rows_no_commit | intros _].
  apply grows_commit.
Qed.

Lemma grows_insert_motifs (motifs : list row) (herv_chain_id : Z) :
  grows (insert_motifs motifs herv_chain_id).
Proof.
  unfold insert_motifs.
  apply grows_bind; [apply no_commit_grows, insert_motif_rows_no_commit | intros _].
  apply grows_commit.
Qed.

Lemma grows_insert_ltrs (ltr_list : list row) (herv_chain_id : Z) :
  grows (insert_ltrs ltr_list herv_chain_id).
Proof.
  unfold insert_ltrs.
  apply grows_bind; [apply no_commit_grows, insert_ltr_rows_no_commit | intros _].
  apply grows_commit.
Qed.

Lemma grows_load_chain (data : pyval) (pk : Z) (chain_block : pyval) :
  grows (load_chain data pk chain_block).
Proof.
  unfold load_chain.
  apply grows_bind; [apply grows_lift | intros md].
  apply grows_bind; [apply grows_insert_herv_chain | intros hid].
  apply grows_bind; [apply grows_lift | intros sd].
  apply grows_bind; [apply grows_insert_subgenes_domains | intros _].
  apply grows_bind; [apply grows_lift | intros motifs].
  apply grows_bind; [apply grows_insert_motifs | intros _].
  apply grows_bind; [apply grows_lift | intros ltr].
  apply grows_insert_ltrs.
Qed.

Lemma grows_load_chains (data : pyval) (pk : Z) (chain_blocks : list pyval) :
  grows (load_chains data pk chain_blocks).
Proof.
  induction chain_blocks as [ | b rest IH]; simpl.
  - apply grows_ret.
  - apply grows_bind; [apply grows_load_chain | intros _]. exact IH.
Qed.

Lemma grows_parse_and_load (data : pyval) : grows (parse_and_load_retroctector data).
Proof.
  unfold parse_and_load_retroctector.
  apply grows_bind; [apply grows_lift | intros md].
  apply grows_bind; [apply grows_insert_run_metadata | intros pk].
  apply grows_bind; [apply grows_lift | intros blocks].
  apply grows_bind; [apply grows_lift | intros l].
  apply grows_load_chains.
Qed.

Lemma committed_extends (c c' : conn) (new : list entry) :
  wf c -> (ncommitted c <= ncommitted c')%nat -> log c' = log c ++ new ->
  exists more, committed c' = committed c ++ more.
Proof.
  unfold wf, committed. intros Hwf Hle Hl.
  exists (skipn (ncommitted c) (firstn (ncommitted c') (log c'))).
  rewrite <- (firstn_skipn (ncommitted c) (firstn (ncommitted c') (log c'))) at 1.
  f_equal. rewrite firstn_firstn, Nat.min_l by exact Hle.
  rewrite Hl, firstn_app.
  replace (ncommitted c - List.length (log c))%nat with 0%nat by lia.
  simpl. now rewrite app_nil_r.
Qed.

Lemma grows_committed {A : Type} (m : M A) (c c' : conn) (r : result A) :
  grows m -> wf c -> m c = (r, c') ->
  exists more, committed c' = committed c ++ more.
Proof.
  intros Hg Hwf H. destruct (Hg _ _ _ Hwf H) as (_ & Hle & _ & new & Hl).
  exact (committed_extends c c' new Hwf Hle Hl).
Qed.

Lemma committed_all (c : conn) :
  ncommitted c = List.length (log c) -> committed c = log c.
Proof. unfold committed. intros ->. apply firstn_all. Qed.

Lemma committed_close (c : conn) : committed (close c) = committed c.
Proof. unfold close, committed at 1. simpl. apply firstn_all. Qed.

Lemma committed_same (c c' : conn) (new : list entry) :
  wf c -> ncommitted c' = ncommitted c -> log c' = log c ++ new ->
  committed c' = committed c.
Proof.
  unfold wf, committed. intros Hwf -> ->. rewrite firstn_app.
  replace (ncommitted c - List.length (log c))%nat with 0%nat by lia.
  simpl. now rewrite app_nil_r.
Qed.

Lemma insert_domain_rows_app (pre rest : list row) (m : keymap) (c : conn) :
  insert_domain_rows (pre ++ rest) m c
  = bind (insert_domain_rows pre m) (fun _ => insert_domain_rows rest m) c.
Proof.
  revert c. induction pre as [ | d pre IH]; intros c; [reflexivity | ].
  simpl. unfold bind, lift in *.
  destruct (dict_pop d "subgene_index") as [popped | e]; [ | reflexivity].
  destruct (keymap_lookup m (fst popped)) as [id | e]; [ | reflexivity].
  destruct (execute "domains" _ c) as [[x | e] c1]; [ | reflexivity].
  apply IH.
Qed.

Lemma load_chains_app (data : pyval) (pk : Z) (before rest : list pyval) (c : conn) :
  load_chains data pk (before ++ rest) c
  = bind (load_chains data pk before) (fun _ => load_chains data pk rest) c.
Proof.
  revert c. induction before as [ | b before IH]; intros c; [reflexivity | ].
  simpl. unfold bind in *.
  destruct (load_chain data pk b c) as [[x | e] c1]; [ | reflexivity].
  apply IH.
Qed.

(** *** Commits *)

Lemma insert_subgenes_domains_ok (subgenes domains : list row) (herv_chain_id : Z)
    (c c' : conn) :
  insert_subgenes_domains subgenes domains herv_chain_id c = (Ok tt, c') ->
  ncommitted c' = List.length (log c').
Proof.
  unfold insert_subgenes_domains. intros H.
  apply bind_ok in H. destruct H as (m & c1 & _ & H).
  apply bind_ok in H. destruct H as (x & c2 & _ & H).
  apply commit_ok in H. now subst c'.
Qed.

Lemma insert_subgenes_domains_raise (subgenes domains : list row) (herv_chain_id : Z)
    (c c' : conn) (e : pyexc) :
  insert_subgenes_domains subgenes domains herv_chain_id c = (Raise e, c') ->
  ncommitted c' = ncommitted c /\ exists new, log c' = log c ++ new.
Proof.
  unfold insert_subgenes_domains. intros H.
  apply bind_raise in H. destruct H as [H | (m & c1 & Hs & H)].
  - destruct (insert_subgene_rows_no_commit _ _ _ _ _ _ H) as (Hn & _ & Hl). auto.
  - destruct (insert_subgene_rows_no_commit _ _ _ _ _ _ Hs) as (Hn1 & _ & new1 & Hl1).
    apply bind_raise in H. destruct H as [H | (x & c2 & Hd & H)].
    + destruct (insert_domain_rows_no_commit _ _ _ _ _ H) as (Hn2 & _ & new2 & Hl2).
      split; [congruence | ].
      exists (new1 ++ new2). rewrite Hl2, Hl1, app_assoc. reflexivity.
    + destruct (insert_domain_rows_no_commit _ _ _ _ _ Hd) as (Hn2 & _ & new2 & Hl2).
      apply commit_raise in H. destruct H as [_ ->].
      split; [congruence | ].
      exists (new1 ++ new2). rewrite Hl2, Hl1, app_assoc. reflexivity.
Qed.

Lemma insert_herv_chain_ok (entry : row) (pk : Z) (c c' : conn) (id : Z) :
  insert_herv_chain entry pk c = (Ok id, c') ->
  ncommitted c' = List.length (log c') /\
  log c' = log c ++ [mk_entry "herv_chain"
                       (dict_set entry "run_metadata_id" (VInt pk)) id] /\
  closed c' = closed c.
Proof.
  unfold insert_herv_chain. intros H.
  apply bind_ok in H. destruct H as (x & c1 & He & H).
  apply bind_ok in H. destruct H as (u & c2 & Hc & H).
  apply execute_ok in He. destruct He as [_ ->].
  apply commit_ok in Hc. subst c2. injection H as <- <-. simpl. auto.
Qed.


(** *** A domain whose index was never assigned *)

Lemma insert_domain_rows_unassigned (domains : list row) (m : keymap) (d : row)
    (i : Z) :
  In d domains ->
  dict_get d "subgene_index" = Some (VInt i) ->
  keymap_find m (VInt i) = None ->
  forall c, exists e c', insert_domain_rows domains m c = (Raise e, c').
Proof.
  induction domains as [ | d0 rest IH]; intros Hin Hidx Hm c; [contradiction | ].
  destruct Hin as [-> | Hin].
  - simpl. unfold bind, lift, dict_pop. rewrite Hidx. simpl.
    unfold keymap_lookup. simpl. rewrite Hm. eauto.
  - simpl. unfold bind, lift.
    destruct (dict_pop d0 "subgene_index") as [popped | e]; [ | eauto].
    destruct (keymap_lookup m (fst popped)) as [id | e]; [ | eauto].
    destruct (execute "domains" _ c) as [[x | e] c1]; [ | eauto].
    apply IH; assumption.
Qed.

(** C4: the error kinds of the spec are no classes of the module; the
    failure to resolve a parent is the [KeyError] raised by the lookup
    [subgene_index_to_id[subgene_index]].  Once the subgenes of the chain
    are inserted, a domain that refers to a positional index that received no
    identifier makes the insert fail, wherever the domain stands in the
    list, and nothing of the batch is committed; the insert fails at that
    domain, with the lookup's [KeyError], when the domains before it went
    in. *)
Theorem unassigned_index_raises_KeyError :
  (forall subgenes domains herv_chain_id m c c1 d i,
     insert_subgene_rows subgenes herv_chain_id [] c = (Ok m, c1) ->
     In d domains ->
     dict_get d "subgene_index" = Some (VInt i) ->
     keymap_find m (VInt i) = None ->
     exists e c',
       insert_subgenes_domains subgenes domains herv_chain_id c = (Raise e, c') /\
       ncommitted c' = ncommitted c) /\
  (forall subgenes domains pre post d i herv_chain_id m c c1 c2,
     insert_subgene_rows subgenes herv_chain_id [] c = (Ok m, c1) ->
     domains = pre ++ d :: post ->
     insert_domain_rows pre m c1 = (Ok tt, c2) ->
     dict_get d "subgene_index" = Some (VInt i) ->
     keymap_find m (VInt i) = None ->
     insert_subgenes_domains subgenes domains herv_chain_id c = (Raise KeyError, c2) /\
     ncommitted c2 = ncommitted c).
Proof.
  split.
  - intros subgenes domains herv_chain_id m c c1 d i Hs Hin Hidx Hm.
    destruct (insert_domain_rows_unassigned domains m d i Hin Hidx Hm c1)
      as (e & c' & Hd).
    assert (H : insert_subgenes_domains subgenes domains herv_chain_id c
                = (Raise e, c')).
    { unfold insert_subgenes_domains. unfold bind at 1. rewrite Hs.
      unfold bind at 1. rewrite Hd. reflexivity. }
    exists e, c'. split; [exact H | ].
    exact (proj1 (insert_subgenes_domains_raise _ _ _ _ _ _ H)).
  - intros subgenes domains pre post d i herv_chain_id m c c1 c2
           Hs -> Hpre Hidx Hm.
    split.
    + unfold insert_subgenes_domains. unfold bind at 1. rewrite Hs.
      unfold bind at 1. rewrite insert_domain_rows_app. unfold bind at 1.
      rewrite Hpre. simpl. unfold bind at 1. unfold lift at 1. unfold dict_pop.
      rewrite Hidx. unfold bind at 1. unfold lift at 1. simpl fst.
      unfold keymap_lookup. simpl py_hashable. cbv iota. rewrite Hm. reflexivity.
    + destruct (insert_subgene_rows_no_commit _ _ _ _ _ _ Hs) as (H1 & _).
      destruct (insert_domain_rows_no_commit _ _ _ _ _ Hpre) as (H2 & _).
      congruence.
Qed.

(** *** The LTR set of the document, once per chain *)

Lemma only_tables_ret {A : Type} (tables : list string) (a : A) :
  only_tables tables (ret a).
Proof.
  intros c r c' H. injection H as <- <-. exists []. now rewrite app_nil_r.
Qed.

Lemma only_tables_lift {A : Type} (tables : list string) (x : result A) :
  only_tables tables (lift x).
Proof.
  intros c r c' H. injection H as <- <-. exists []. now rewrite app_nil_r.
Qed.

Lemma only_tables_commit (tables : list string) : only_tables tables commit.
Proof.
  intros c r c' H. unfold commit in H.
  destruct (store_commit c); injection H as <- <-; exists [];
    simpl; now rewrite app_nil_r.
Qed.

Lemma only_tables_execute (tables : list string) (table : string) (data : row) :
  In table tables -> only_tables tables (execute table data).
Proof.
  intros Hin c r c' H. unfold execute in H.
  destruct (store_insert c table data) as [id | ]; injection H as <- <-; simpl.
  - eexists. split; [reflexivity | ]. constructor; [exact Hin | constructor].
  - exists []. now rewrite app_nil_r.
Qed.

Lemma only_tables_bind {A B : Type} (tables : list string) (m : M A) (f : A -> M B) :
  only_tables tables m -> (forall a, only_tables tables (f a)) ->
  only_tables tables (bind m f).
Proof.
  intros Hm Hf c r c' H. unfold bind in H.
  destruct (m c) as [[a | e] c1] eqn:E.
  - destruct (Hm _ _ _ E) as (new1 & Hl1 & H1).
    destruct (Hf a _ _ _ H) as (new2 & Hl2 & H2).
    exists (new1 ++ new2). split.
    + rewrite Hl2, Hl1, app_assoc. reflexivity.
    + apply Forall_app. auto.
  - injection H as <- <-. exact (Hm _ _ _ E).
Qed.

Lemma only_tables_subgenes_domains (subgenes domains : list row) (herv_chain_id : Z) :
  only_tables ["subgenes"; "domains"]
    (insert_subgenes_domains subgenes domains herv_chain_id).
Proof.
  unfold insert_subgenes_domains.
  apply only_tables_bind.
  - generalize (@nil (pyval * Z)).
    induction subgenes as [ | s rest IH]; intros m; simpl.
    + apply only_tables_ret.
    + apply only_tables_bind; [apply only_tables_lift | intros popped].
      apply only_tables_bind; [apply only_tables_execute; simpl; auto | intros id].
      apply only_tables_bind; [apply only_tables_lift | intros m']. apply IH.
  - intros m. apply only_tables_bind; [ | intros _; apply only_tables_commit].
    induction domains as [ | d rest IH]; simpl.
    + apply only_tables_ret.
    + apply only_tables_bind; [apply only_tables_lift | intros popped].
      apply only_tables_bind; [apply only_tables_lift | intros id].
      apply only_tables_bind; [apply only_tables_execute; simpl; auto | intros _].
      exact IH.
Qed.

Lemma only_tables_motifs (motifs : list row) (herv_chain_id : Z) :
  only_tables ["motifs"] (insert_motifs motifs herv_chain_id).
Proof.
  unfold insert_motifs.
  apply only_tables_bind; [ | intros _; apply only_tables_commit].
  induction motifs as [ | d rest IH]; simpl.
  - apply only_tables_ret.
  - apply only_tables_bind; [apply only_tables_execute; simpl; auto | intros _].
    exact IH.
Qed.

Lemma filter_other_tables (t : string) (tables : list string) (new : list entry) :
  Forall (fun e => In (e_table e) tables) new ->
  ~ In t tables ->
  filter (is_table t) new = [].
Proof.
  intros HF Hn. induction HF as [ | e new He HF IH]; simpl; [reflexivity | ].
  unfold is_table at 1. destruct (String.eqb_spec (e_table e) t) as [E | E].
  - exfalso. apply Hn. now rewrite <- E.
  - exact IH.
Qed.

Lemma insert_ltr_rows_entries (ltr_list : list row) (herv_chain_id : Z) :
  forall c c',
    insert_ltr_rows ltr_list herv_chain_id c = (Ok tt, c') ->
    exists new,
      log c' = log c ++ new /\
      Forall (fun e => e_table e = "ltr") new /\
      map e_row new = map (ltr_row herv_chain_id) ltr_list.
Proof.
  induction ltr_list as [ | r rest IH]; intros c c' H; simpl in H.
  - injection H as <-. exists []. rewrite app_nil_r. repeat split. constructor.
  - apply bind_ok in H. destruct H as (x & c1 & He & H).
    apply execute_ok in He. destruct He as [_ ->].
    destruct (IH _ _ H) as (new & Hl & Ht & Hr).
    eexists (_ :: new). simpl in *. repeat split.
    + rewrite Hl, <- app_assoc. reflexivity.
    + constructor; [reflexivity | exact Ht].
    + rewrite Hr. reflexivity.
Qed.

Lemma filter_same_table (t : string) (new : list entry) :
  Forall (fun e => e_table e = t) new -> filter (is_table t) new = new.
Proof.
  intros HF. induction HF as [ | e new He HF IH]; simpl; [reflexivity | ].
  unfold is_table at 1. rewrite He, String.eqb_refl, IH. reflexivity.
Qed.

Lemma filter_table_ne (t t' : string) (new : list entry) :
  Forall (fun e => e_table e = t') new -> t' <> t -> filter (is_table t) new = [].
Proof.
  intros HF Hne. apply (filter_other_tables t [t']).
  - eapply Forall_impl; [ | exact HF]. intros e He. simpl. auto.
  - simpl. intros [E | []]. contradiction.
Qed.

(** One iteration of the loop over the chain blocks. *)
Lemma load_chain_ltrs (data : pyval) (pk : Z) (chain_block : pyval) (c c' : conn) :
  load_chain data pk chain_block c = (Ok tt, c') ->
  exists herv_chain_id ltrs new,
    parse_ltrs data = Ok ltrs /\
    log c' = log c ++ new /\
    map e_id (filter (is_table "herv_chain") new) = [herv_chain_id] /\
    map e_row (filter (is_table "ltr") new) = map (ltr_row herv_chain_id) ltrs.
Proof.
  unfold load_chain. intros H.
  apply bind_ok in H. destruct H as (md & c1 & Hmd & H).
  apply lift_inv in Hmd. destruct Hmd as [Hmd ->].
  apply bind_ok in H. destruct H as (hid & c2 & Hch & H).
  apply insert_herv_chain_ok in Hch. destruct Hch as (_ & Hl2 & _).
  apply bind_ok in H. destruct H as (sd & c3 & Hsd & H).
  apply lift_inv in Hsd. destruct Hsd as [Hsd ->].
  apply bind_ok in H. destruct H as (u1 & c4 & Hb & H).
  destruct (only_tables_subgenes_domains _ _ _ _ _ _ Hb) as (new4 & Hl4 & Ht4).
  apply bind_ok in H. destruct H as (motifs & c5 & Hmo & H).
  apply lift_inv in Hmo. destruct Hmo as [Hmo ->].
  apply bind_ok in H. destruct H as (u2 & c6 & Him & H).
  destruct (only_tables_motifs _ _ _ _ _ Him) as (new6 & Hl6 & Ht6).
  apply bind_ok in H. destruct H as (ltr & c7 & Hltr & H).
  apply lift_inv in Hltr. destruct Hltr as [Hltr ->].
  unfold insert_ltrs in H.
  apply bind_ok in H. destruct H as (u3 & c8 & Hrows & H). destruct u3.
  apply commit_ok in H.
  destruct (insert_ltr_rows_entries _ _ _ _ Hrows) as (new8 & Hl8 & Ht8 & Hr8).
  exists hid, ltr,
    ([mk_entry "herv_chain" (dict_set md "run_metadata_id" (VInt pk)) hid]
       ++ new4 ++ new6 ++ new8).
  split; [symmetry; exact Hltr | ].
  split.
  { subst c'. simpl. rewrite Hl8, Hl6, Hl4, Hl2, <- !app_assoc. reflexivity. }
  rewrite !filter_app.
  rewrite (filter_other_tables "herv_chain" _ new4 Ht4)
    by (simpl; intros [E | [E | []]]; discriminate).
  rewrite (filter_other_tables "herv_chain" _ new6 Ht6)
    by (simpl; intros [E | []]; discriminate).
  rewrite (filter_table_ne "herv_chain" "ltr" new8 Ht8) by discriminate.
  rewrite (filter_other_tables "ltr" _ new4 Ht4)
    by (simpl; intros [E | [E | []]]; discriminate).
  rewrite (filter_other_tables "ltr" _ new6 Ht6)
    by (simpl; intros [E | []]; discriminate).
  rewrite (filter_same_table "ltr" new8 Ht8).
  simpl. split; [reflexivity | exact Hr8].
Qed.

Lemma load_chains_ltrs (data : pyval) (pk : Z) (chain_blocks : list pyval) :
  forall c c',
    load_chains data pk chain_blocks c = (Ok tt, c') ->
    exists new,
      log c' = log c ++ new /\
      List.length (filter (is_table "herv_chain") new) = List.length chain_blocks /\
      (chain_blocks = [] -> new = []) /\
      (chain_blocks <> [] -> exists ltrs, parse_ltrs data = Ok ltrs) /\
      forall ltrs, parse_ltrs data = Ok ltrs ->
        map e_row (filter (is_table "ltr") new)
        = flat_map (fun herv_chain_id => map (ltr_row herv_chain_id) ltrs)
                   (map e_id (filter (is_table "herv_chain") new)).
Proof.
  induction chain_blocks as [ | b rest IH]; intros c c' H; simpl in H.
  - injection H as <-. exists []. rewrite app_nil_r. simpl.
    repeat split; auto. intros E. now elim E.
  - apply bind_ok in H. destruct H as (u & c1 & Hb & H).
    destruct u.
    destruct (load_chain_ltrs _ _ _ _ _ Hb) as (hid & ltrs0 & new1 & Hp & Hl1 & Hc1 & Hr1).
    destruct (IH _ _ H) as (new2 & Hl2 & Hlen2 & _ & _ & Hr2).
    exists (new1 ++ new2). split; [ | split; [ | split; [ | split]]].
    + rewrite Hl2, Hl1, app_assoc. reflexivity.
    + rewrite filter_app, length_app, Hlen2.
      rewrite <- (length_map e_id (filter (is_table "herv_chain") new1)), Hc1.
      reflexivity.
    + discriminate.
    + intros _. now exists ltrs0.
    + intros ltrs Hltrs. rewrite !filter_app, !map_app, Hc1, Hr1.
      rewrite (Hr2 ltrs Hltrs). simpl.
      assert (ltrs0 = ltrs) by congruence. subst ltrs0. reflexivity.
Qed.

Lemma dict_get_set_same (d : row) (k : string) (v : pyval) :
  dict_get (dict_set d k v) k = Some v.
Proof.
  induction d as [ | [k' v'] d IH]; simpl.
  - now rewrite String.eqb_refl.
  - destruct (String.eqb k' k) eqn:E; simpl.
    + now rewrite String.eqb_refl.
    + now rewrite E.
Qed.

Lemma length_flat_map_const {A B : Type} (f : A -> list B) (l : list A) (n : nat) :
  (forall a, List.length (f a) = n) ->
  List.length (flat_map f l) = (List.length l * n)%nat.
Proof.
  intros Hf. induction l as [ | a l IH]; simpl; [reflexivity | ].
  now rewrite length_app, Hf, IH.
Qed.

(** The [ltr] rows of a completed load, by the result of [parse_ltrs]. *)
Lemma load_ltr_rows (data : pyval) (c c' : conn) :
  parse_and_load_retroctector data c = (Ok tt, c') ->
  exists (chain_blocks : list pyval) (new : list entry),
    rbind (py_get data "pseuGID" (VList [])) py_iter = Ok chain_blocks /\
    log c' = log c ++ new /\
    List.length (filter (is_table "herv_chain") new) = List.length chain_blocks /\
    (chain_blocks = [] -> filter (is_table "ltr") new = []) /\
    (chain_blocks <> [] -> exists ltrs, parse_ltrs data = Ok ltrs) /\
    forall ltrs, parse_ltrs data = Ok ltrs ->
      map e_row (filter (is_table "ltr") new)
      = flat_map (fun herv_chain_id => map (ltr_row herv_chain_id) ltrs)
                 (map e_id (filter (is_table "herv_chain") new)).
Proof.
  unfold parse_and_load_retroctector. intros H.
  apply bind_ok in H. destruct H as (md & c1 & Hmd & H).
  apply lift_inv in Hmd. destruct Hmd as [Hmd ->].
  apply bind_ok in H. destruct H as (pk & c2 & Hrun & H).
  unfold insert_run_metadata in Hrun.
  apply bind_ok in Hrun. destruct Hrun as (x & c3 & He & Hrun).
  apply bind_ok in Hrun. destruct Hrun as (u & c4 & Hc & Hrun).
  apply execute_ok in He. destruct He as [_ ->].
  apply commit_ok in Hc. subst c4. injection Hrun as -> <-.
  apply bind_ok in H. destruct H as (blocks & c5 & Hb & H).
  apply lift_inv in Hb. destruct Hb as [Hb ->].
  apply bind_ok in H. destruct H as (chain_blocks & c6 & Hi & H).
  apply lift_inv in Hi. destruct Hi as [Hi ->].
  destruct (load_chains_ltrs _ _ _ _ _ H) as (new & Hl & Hlen & Hnil & Hex & Hrows).
  exists chain_blocks, (mk_entry "run_metadata" md pk :: new).
  split; [unfold get_herv_chain_blocks in Hb; rewrite <- Hb; simpl; auto | ].
  split; [rewrite Hl; simpl; rewrite <- app_assoc; reflexivity | ].
  simpl filter. split; [exact Hlen | ].
  split; [intros E; now rewrite (Hnil E) | ].
  split; [exact Hex | exact Hrows].
Qed.

(** *** Optional fields *)

Lemma eval_columns_table (alt src : pyval) (t : list (string * field_spec)) :
  forall k, eval_columns alt src t k = rbind (eval_table alt src t) k.
Proof.
  unfold eval_table.
  induction t as [ | [c f] t IH]; intros k; simpl; [reflexivity | ].
  destruct (eval_field alt src f) as [v | e]; simpl; [ | reflexivity].
  rewrite IH.
  destruct (rmapM (eval_field alt src) (map snd t)) as [vs | e]; reflexivity.
Qed.

Lemma eval_columns_Ok (alt src : pyval) (t : list (string * field_spec)) :
  eval_columns alt src t Ok = eval_table alt src t.
Proof.
  rewrite eval_columns_table. destruct (eval_table alt src t); reflexivity.
Qed.

Lemma parse_run_metadata_table (json_data : pyval) :
  parse_run_metadata json_data
  = rbind (py_get json_data "header" (VDict [])) (fun header =>
    rbind (py_get json_data "footer" (VDict [])) (fun footer =>
    eval_table header footer run_table)).
Proof.
  unfold parse_run_metadata.
  destruct (py_get json_data "header" (VDict [])) as [header | ]; [ | reflexivity].
  cbn [rbind].
  destruct (py_get json_data "footer" (VDict [])) as [footer | ]; [ | reflexivity].
  cbn [rbind]. rewrite <- eval_columns_Ok. reflexivity.
Qed.

Lemma solo_ltr_entry_table (entry : pyval) :
  solo_ltr_entry entry = eval_table VNone entry solo_ltr_table.
Proof. rewrite <- eval_columns_Ok. vm_compute. reflexivity. Qed.

Lemma full_ltr_entry_table (chain_index : Z) (entry : pyval) :
  full_ltr_entry chain_index entry
  = eval_table VNone entry (full_ltr_table chain_index).
Proof. rewrite <- eval_columns_Ok. vm_compute. reflexivity. Qed.

Lemma extract_herv_chain_metadata_table (chain_block : pyval) :
  extract_herv_chain_metadata chain_block = eval_table VNone chain_block chain_table.
Proof. rewrite <- eval_columns_Ok. reflexivity. Qed.

Lemma dict_get_remove (d : row) (k k' : string) :
  dict_get (dict_remove d k) k'
  = if String.eqb k k' then None else dict_get d k'.
Proof.
  induction d as [ | [k0 v0] d IH]; simpl.
  - now destruct (String.eqb k k').
  - destruct (String.eqb_spec k0 k) as [-> | Hne]; simpl.
    + rewrite IH. destruct (String.eqb_spec k k') as [-> | Hne']; [reflexivity | ].
      destruct (String.eqb_spec k k'); [contradiction | reflexivity].
    + rewrite IH. destruct (String.eqb_spec k0 k') as [-> | Hne'].
      * destruct (String.eqb_spec k k'); [congruence | reflexivity].
      * reflexivity.
Qed.

Lemma eval_field_absent (alt src : row) (f : field_spec) :
  absent_in alt src f ->
  eval_field (VDict alt) (VDict src) f = field_default f.
Proof.
  destruct f; simpl; try contradiction.
  - intros ->. reflexivity.
  - intros ->. reflexivity.
  - intros [-> ->]. reflexivity.
  - intros ->. reflexivity.
Qed.

Lemma eval_field_remove (alt src : row) (k : string) (f : field_spec) (v : pyval) :
  optional_default_ok f = true ->
  reads_required k f = false ->
  eval_field (VDict alt) (VDict src) f = Ok v ->
  exists v', eval_field (VDict alt) (VDict (dict_remove src k)) f = Ok v'.
Proof.
  intros Hd Hr H. destruct f as [c | k' dflt | k' | conv k' dflt | conv k' | k' hk hd | hk];
    simpl in *.
  - eauto.
  - eauto.
  - rewrite dict_get_remove. rewrite String.eqb_sym in Hr. rewrite Hr.
    destruct (dict_get src k'); [eauto | discriminate].
  - rewrite dict_get_remove. destruct (String.eqb k k'); [ | eauto].
    unfold optional_default_ok in Hd. simpl in Hd.
    destruct (conv dflt) as [v0 | ]; [eauto | discriminate].
  - rewrite dict_get_remove. rewrite String.eqb_sym in Hr. rewrite Hr.
    destruct (dict_get src k'); [eauto | discriminate].
  - unfold py_or. destruct (py_truthy _); eauto.
  - eauto.
Qed.

Lemma eval_field_remove_alt (alt src : row) (hk : string) (f : field_spec) (v : pyval) :
  eval_field (VDict alt) (VDict src) f = Ok v ->
  exists v', eval_field (VDict (dict_remove alt hk)) (VDict src) f = Ok v'.
Proof.
  intros H. destruct f; simpl in *; eauto.
  unfold py_or. destruct (py_truthy _); eauto.
Qed.

Lemma rmapM_ok_all {A B : Type} (f g : A -> result B) (l : list A) (vs : list B) :
  (forall a v, In a l -> f a = Ok v -> exists v', g a = Ok v') ->
  rmapM f l = Ok vs -> exists vs', rmapM g l = Ok vs'.
Proof.
  revert vs. induction l as [ | a l IH]; intros vs Hfg H; simpl in *.
  - eauto.
  - destruct (f a) as [v | ] eqn:Ea; simpl in H; [ | discriminate].
    destruct (rmapM f l) as [vs0 | ] eqn:El; simpl in H; [ | discriminate].
    destruct (Hfg a v (or_introl eq_refl) Ea) as (v' & ->).
    destruct (IH vs0 (fun a v Hin => Hfg a v (or_intror Hin)) eq_refl) as (vs' & ->).
    simpl. eauto.
Qed.

Lemma eval_table_remove (alt src : row) (k : string) (t : list (string * field_spec))
    (r : row) :
  forallb (fun cf => optional_default_ok (snd cf)) t = true ->
  forallb (fun cf => negb (reads_required k (snd cf))) t = true ->
  eval_table (VDict alt) (VDict src) t = Ok r ->
  exists r', eval_table (VDict alt) (VDict (dict_remove src k)) t = Ok r'.
Proof.
  intros Hd Hr H. unfold eval_table in *.
  destruct (rmapM (eval_field (VDict alt) (VDict src)) (map snd t)) as [vs | ] eqn:E;
    simpl in H; [ | discriminate].
  rewrite forallb_forall in Hd, Hr.
  assert (Hstep : forall f v, In f (map snd t) ->
            eval_field (VDict alt) (VDict src) f = Ok v ->
            exists v', eval_field (VDict alt) (VDict (dict_remove src k)) f = Ok v').
  { intros f v Hin Hf. apply in_map_iff in Hin. destruct Hin as (cf & <- & Hin).
    apply (eval_field_remove alt src k (snd cf) v).
    - exact (Hd cf Hin).
    - apply negb_true_iff. exact (Hr cf Hin).
    - exact Hf. }
  destruct (rmapM_ok_all _ _ _ _ Hstep E) as (vs' & ->).
  simpl. eauto.
Qed.

Lemma eval_table_remove_alt (alt src : row) (hk : string)
    (t : list (string * field_spec)) (r : row) :
  eval_table (VDict alt) (VDict src) t = Ok r ->
  exists r', eval_table (VDict (dict_remove alt hk)) (VDict src) t = Ok r'.
Proof.
  intros H. unfold eval_table in *.
  destruct (rmapM (eval_field (VDict alt) (VDict src)) (map snd t)) as [vs | ] eqn:E;
    simpl in H; [ | discriminate].
  assert (Hstep : forall f v, In f (map snd t) ->
            eval_field (VDict alt) (VDict src) f = Ok v ->
            exists v', eval_field (VDict (dict_remove alt hk)) (VDict src) f = Ok v').
  { intros f v _ Hf. exact (eval_field_remove_alt alt src hk f v Hf). }
  destruct (rmapM_ok_all _ _ _ _ Hstep E) as (vs' & ->).
  simpl. eauto.
Qed.

Lemma rmapM_Forall2 {A B : Type} (f : A -> result B) (l : list A) (vs : list B) :
  rmapM f l = Ok vs -> Forall2 (fun a v => f a = Ok v) l vs.
Proof.
  revert vs. induction l as [ | a l IH]; intros vs H; simpl in H.
  - injection H as <-. constructor.
  - destruct (f a) as [v | ] eqn:Ea; simpl in H; [ | discriminate].
    destruct (rmapM f l) as [vs0 | ] eqn:El; simpl in H; [ | discriminate].
    injection H as <-. constructor; [exact Ea | apply IH; reflexivity].
Qed.

(** The value a table-built row holds in a column. *)
Lemma eval_table_column (alt src : pyval) (t : list (string * field_spec)) (r : row)
    (col : string) (f : field_spec) :
  NoDup (map fst t) ->
  eval_table alt src t = Ok r ->
  In (col, f) t ->
  exists v, dict_get r col = Some v /\ eval_field alt src f = Ok v.
Proof.
  unfold eval_table. intros Hnd H Hin.
  destruct (rmapM (eval_field alt src) (map snd t)) as [vs | ] eqn:E;
    simpl in H; [ | discriminate].
  injection H as <-. apply rmapM_Forall2 in E.
  revert vs E Hnd Hin. induction t as [ | [c0 f0] t IH]; intros vs E Hnd Hin.
  - contradiction.
  - simpl in E. inversion E as [ | a v l vs' Hf HF]; subst. simpl.
    inversion Hnd as [ | x l' Hnotin Hnd']; subst.
    destruct Hin as [Heq | Hin].
    + injection Heq as -> ->. rewrite String.eqb_refl. eauto.
    + destruct (String.eqb_spec c0 col) as [-> | Hne].
      * exfalso. apply Hnotin. apply in_map_iff. now exists (col, f).
      * apply IH; assumption.
Qed.

Lemma NoDup_strings (l : list string) :
  distinct_strings l = true -> NoDup l.
Proof.
  induction l as [ | x l IH]; intros H; [constructor | ]. simpl in H.
  apply andb_true_iff in H. destruct H as [Hx Hl]. constructor.
  - intros Hin. apply negb_true_iff in Hx.
    assert (existsb (String.eqb x) l = true).
    { apply existsb_exists. exists x. split; [exact Hin | apply String.eqb_refl]. }
    congruence.
  - apply IH. exact Hl.
Qed.

(** A column whose field the source omits holds the default of the
    column, and the default is of one of the five kinds. *)
Lemma eval_table_default (alt src : row) (t : list (string * field_spec)) (r : row)
    (col : string) (f : field_spec) :
  NoDup (map fst t) ->
  forallb (fun cf => optional_default_ok (snd cf)) t = true ->
  eval_table (VDict alt) (VDict src) t = Ok r ->
  In (col, f) t ->
  absent_in alt src f ->
  exists v, dict_get r col = Some v /\ field_default f = Ok v /\ default_kind v = true.
Proof.
  intros Hnd Hd H Hin Ha.
  destruct (eval_table_column _ _ _ _ _ _ Hnd H Hin) as (v & Hv & He).
  exists v. split; [exact Hv | ].
  rewrite (eval_field_absent alt src f Ha) in He. split; [exact He | ].
  rewrite forallb_forall in Hd. specialize (Hd (col, f) Hin). simpl in Hd.
  unfold optional_default_ok in Hd. rewrite He in Hd.
  destruct f; simpl in Ha; try contradiction; exact Hd.
Qed.

Ltac nodup_columns := apply NoDup_strings; vm_compute; reflexivity.

Lemma run_table_columns : NoDup (map fst run_table).
Proof. nodup_columns. Qed.

Lemma solo_ltr_table_columns : NoDup (map fst solo_ltr_table).
Proof. nodup_columns. Qed.

Lemma full_ltr_table_columns (chain_index : Z) :
  NoDup (map fst (full_ltr_table chain_index)).
Proof. nodup_columns. Qed.

Lemma chain_table_columns : NoDup (map fst chain_table).
Proof. nodup_columns. Qed.

Lemma run_table_defaults :
  forallb (fun cf => optional_default_ok (snd cf)) run_table = true.
Proof. vm_compute. reflexivity. Qed.

Lemma solo_ltr_table_defaults :
  forallb (fun cf => optional_default_ok (snd cf)) solo_ltr_table = true.
Proof. vm_compute. reflexivity. Qed.

Lemma full_ltr_table_defaults (chain_index : Z) :
  forallb (fun cf => optional_default_ok (snd cf)) (full_ltr_table chain_index) = true.
Proof. vm_compute. reflexivity. Qed.

Lemma chain_table_defaults :
  forallb (fun cf => optional_default_ok (snd cf)) chain_table = true.
Proof. vm_compute. reflexivity. Qed.

Lemma run_table_no_required (k : string) :
  forallb (fun cf => negb (reads_required k (snd cf))) run_table = true.
Proof. reflexivity. Qed.

Lemma ltr_tables_required (k : string) (chain_index : Z) :
  k <> "init_idx" -> k <> "fin_idx" ->
  forallb (fun cf => negb (reads_required k (snd cf))) solo_ltr_table = true /\
  forallb (fun cf => negb (reads_required k (snd cf))) (full_ltr_table chain_index) = true.
Proof.
  intros H1 H2.
  assert (E1 : String.eqb "init_idx" k = false) by (apply String.eqb_neq; congruence).
  assert (E2 : String.eqb "fin_idx" k = false) by (apply String.eqb_neq; congruence).
  split; cbn [forallb solo_ltr_table full_ltr_table snd reads_required negb andb];
    rewrite E1, E2; reflexivity.
Qed.

Lemma parse_run_metadata_sections (json_data : pyval) (header footer : pyval) :
  py_get json_data "header" (VDict []) = Ok header ->
  py_get json_data "footer" (VDict []) = Ok footer ->
  parse_run_metadata json_data = eval_table header footer run_table.
Proof.
  intros Hh Hf. rewrite parse_run_metadata_table, Hh, Hf. reflexivity.
Qed.


(** *** The command *)

(** Once the connection is established [main] closes it however the
    load ends, and what was raised is printed unless it is not an
    [Exception]. *)
Lemma main_after_connect (w : world) (input : string) (c : conn) :
  w_parse_args w = Ok input ->
  w_connect w = Ok c ->
  (exists c1, ms_conn (main w) = Some (close c1)) /\
  (ms_result (main w) = Ok tt \/
   exists e, is_Exception e = false /\ ms_result (main w) = Raise e).
Proof.
  intros Ha Hc. unfold main, main_try. rewrite Ha, Hc.
  destruct (w_load_json w input) as [data | e].
  - destruct (parse_and_load_retroctector data c) as [[[] | e] c1];
      unfold main_except; simpl.
    + split; [now exists c1 | now left].
    + destruct (is_Exception e) eqn:E; simpl.
      * split; [now exists c1 | now left].
      * split; [now exists c1 | right; now exists e].
  - unfold main_except; simpl. destruct (is_Exception e) eqn:E; simpl.
    + split; [now exists c | now left].
    + split; [now exists c | right; now exists e].
Qed.

(** C9 at the runs without a connection: when [psycopg2.connect] raises,
    or the argument parser exits, the [finally] block reads the local
    [conn] that was never bound; [main] ends with [UnboundLocalError]
    instead of returning, and no connection is closed. *)
Theorem main_without_connection :
  (forall input e load_json,
     main (mk_world (Ok input) (Raise e) load_json)
     = mk_main_state (Raise UnboundLocalError)
         (PrintLoading input :: (if is_Exception e then [PrintError e] else []))
         None) /\
  (forall e connect load_json,
     main (mk_world (Raise e) connect load_json)
     = mk_main_state (Raise UnboundLocalError)
         (if is_Exception e then [PrintError e] else [])
         None).
Proof.
  split.
  - intros input e load_json. unfold main, main_try, main_except. simpl.
    destruct (is_Exception e); reflexivity.
  - intros e connect load_json. unfold main, main_try, main_except. simpl.
    destruct (is_Exception e); reflexivity.
Qed.

(** ** Further properties *)

(** *** The columns of the rows *)

Lemma rmapM_length {A B : Type} (f : A -> result B) (l : list A) (vs : list B) :
  rmapM f l = Ok vs -> List.length vs = List.length l.
Proof.
  intros H. apply rmapM_Forall2 in H.
  induction H; simpl; [reflexivity | now f_equal].
Qed.

Lemma map_fst_combine {A B : Type} (a : list A) (b : list B) :
  List.length a = List.length b -> map fst (combine a b) = a.
Proof.
  revert b. induction a as [ | x a IH]; intros [ | y b] H; simpl in *;
    try reflexivity; try discriminate.
  f_equal. apply IH. now injection H.
Qed.

Lemma eval_table_keys (alt src : pyval) (t : list (string * field_spec)) (r : row) :
  eval_table alt src t = Ok r -> map fst r = map fst t.
Proof.
  unfold eval_table. intros H.
  destruct (rmapM (eval_field alt src) (map snd t)) as [vs | ] eqn:E;
    simpl in H; [ | discriminate].
  injection H as <-. apply map_fst_combine.
  rewrite (rmapM_length _ _ _ E). now rewrite !length_map.
Qed.

(** Whatever the document holds, a mapper that returns gives a row with
    the same columns in the same order: the 29 columns of the run metadata,
    the 31 columns of an LTR (the same for a solo and for a full LTR), the 7
    columns of a chain. *)
Theorem mapper_columns :
  (forall json_data r, parse_run_metadata json_data = Ok r -> map fst r = run_columns) /\
  (forall entry r, solo_ltr_entry entry = Ok r -> map fst r = ltr_columns) /\
  (forall chain_index entry r,
     full_ltr_entry chain_index entry = Ok r -> map fst r = ltr_columns) /\
  (forall chain_block r,
     extract_herv_chain_metadata chain_block = Ok r -> map fst r = chain_columns) /\
  (forall json_data ltrs r,
     parse_ltrs json_data = Ok ltrs -> In r ltrs -> map fst r = ltr_columns).
Proof.
  assert (Hsolo : forall entry r, solo_ltr_entry entry = Ok r -> map fst r = ltr_columns).
  { intros entry r H. rewrite solo_ltr_entry_table in H.
    apply eval_table_keys in H. exact H. }
  assert (Hfull : forall chain_index entry r,
            full_ltr_entry chain_index entry = Ok r -> map fst r = ltr_columns).
  { intros chain_index entry r H. rewrite full_ltr_entry_table in H.
    apply eval_table_keys in H. exact H. }
  split; [ | split; [exact Hsolo | split; [exact Hfull | split]]].
  - intros json_data r H. rewrite parse_run_metadata_table in H.
    destruct (py_get json_data "header" (VDict [])) as [header | ]; simpl in H;
      [ | discriminate].
    destruct (py_get json_data "footer" (VDict [])) as [footer | ]; simpl in H;
      [ | discriminate].
    apply eval_table_keys in H. exact H.
  - intros chain_block r H. rewrite extract_herv_chain_metadata_table in H.
    apply eval_table_keys in H. exact H.
  - intros json_data ltrs r H Hin. unfold parse_ltrs in H.
    destruct (py_get json_data "soloLTRs" (VList [])) as [sl | ]; simpl in H;
      [ | discriminate].
    destruct (py_iter sl) as [solo_items | ]; simpl in H; [ | discriminate].
    destruct (rmapM solo_ltr_entry solo_items) as [solo | ] eqn:Eso; simpl in H;
      [ | discriminate].
    destruct (py_get json_data "pseuGID" (VList [])) as [ch | ]; simpl in H;
      [ | discriminate].
    destruct (py_iter ch) as [chain_items | ]; simpl in H; [ | discriminate].
    destruct (chain_ltrs_loop chain_items 0) as [full | ] eqn:Ef; simpl in H;
      [ | discriminate].
    injection H as <-. apply in_app_or in Hin. destruct Hin as [Hin | Hin].
    + apply rmapM_Forall2 in Eso.
      clear - Eso Hin Hsolo. induction Eso as [ | x y l l' Hxy HF IH];
        [contradiction | ].
      destruct Hin as [<- | Hin]; [eapply Hsolo; exact Hxy | now apply IH].
    + clear - Ef Hin Hfull. revert full Ef Hin. generalize 0.
      induction chain_items as [ | chain rest IH]; intros k full Ef Hin; simpl in Ef.
      * injection Ef as <-. contradiction.
      * destruct (py_get chain "LTRs" (VList [])) as [ls | ]; simpl in Ef;
          [ | discriminate].
        destruct (py_iter ls) as [items | ]; simpl in Ef; [ | discriminate].
        destruct (rmapM (full_ltr_entry k) items) as [entries | ] eqn:Ee;
          simpl in Ef; [ | discriminate].
        destruct (chain_ltrs_loop rest (k + 1)) as [more | ] eqn:Em; simpl in Ef;
          [ | discriminate].
        injection Ef as <-. apply in_app_or in Hin. destruct Hin as [Hin | Hin].
        -- apply rmapM_Forall2 in Ee.
           clear - Ee Hin Hfull. induction Ee as [ | x y l l' Hxy HF IH];
             [contradiction | ].
           destruct Hin as [<- | Hin]; [eapply Hfull; exact Hxy | now apply IH].
        -- eapply IH; [exact Em | exact Hin].
Qed.

(** *** Required fields *)

(** An LTR entry that is a dict maps to a row exactly when it has both
    [init_idx] and [fin_idx], which the row then carries; without one of them
    the mapper raises [KeyError], and on an entry that is not a dict it
    raises [AttributeError]. *)
Theorem ltr_entry_required_fields :
  (forall d,
     match dict_get d "init_idx", dict_get d "fin_idx" with
     | Some a, Some b =>
         exists r, solo_ltr_entry (VDict d) = Ok r /\
                   dict_get r "init_idx" = Some a /\ dict_get r "fin_idx" = Some b
     | _, _ => solo_ltr_entry (VDict d) = Raise KeyError
     end) /\
  (forall chain_index d,
     match dict_get d "init_idx", dict_get d "fin_idx" with
     | Some a, Some b =>
         exists r, full_ltr_entry chain_index (VDict d) = Ok r /\
                   dict_get r "init_idx" = Some a /\ dict_get r "fin_idx" = Some b
     | _, _ => full_ltr_entry chain_index (VDict d) = Raise KeyError
     end) /\
  (forall v, match v with
             | VDict _ => True
             | _ => solo_ltr_entry v = Raise AttributeError /\
                    forall chain_index,
                      full_ltr_entry chain_index v = Raise AttributeError
             end).
Proof.
  split; [ | split].
  - intros d. unfold solo_ltr_entry. simpl.
    destruct (dict_get d "init_idx") as [a | ]; [ | reflexivity].
    destruct (dict_get d "fin_idx") as [b | ]; [ | reflexivity].
    simpl. eexists. split; [reflexivity | ]. split; reflexivity.
  - intros chain_index d. unfold full_ltr_entry. simpl.
    destruct (dict_get d "init_idx") as [a | ]; [ | reflexivity].
    destruct (dict_get d "fin_idx") as [b | ]; [ | reflexivity].
    simpl. eexists. split; [reflexivity | ]. split; reflexivity.
  - intros v. destruct v; try exact I; split; try intros chain_index; reflexivity.
Qed.

(** The chain metadata of a dict block: with the six required keys
    present the result is the conversion of the score to an integer followed
    by the row; a missing key among the first five gives [KeyError] whatever
    else the block holds; a result implies the six keys; a block that is not
    a dict gives [TypeError]. *)
Theorem chain_metadata_required_fields :
  (forall d a b c t s ty,
     dict_get d "chain_level" = Some a ->
     dict_get d "chain_start_idx" = Some b ->
     dict_get d "chain_end_idx" = Some c ->
     dict_get d "retrovirus_type" = Some t ->
     dict_get d "score" = Some s ->
     dict_get d "type_of_chain" = Some ty ->
     extract_herv_chain_metadata (VDict d)
     = rbind (py_int s) (fun n =>
         Ok [("chain_level", a); ("chain_start_idx", b); ("chain_end_idx", c);
             ("retrovirus_type", t); ("score", n); ("type_of_chain", ty);
             ("integration_sites", field d "integration_sites")])) /\
  (forall d k,
     In k ["chain_level"; "chain_start_idx"; "chain_end_idx"; "retrovirus_type";
           "score"] ->
     dict_get d k = None ->
     extract_herv_chain_metadata (VDict d) = Raise KeyError) /\
  (forall d r,
     extract_herv_chain_metadata (VDict d) = Ok r ->
     forall k,
       In k ["chain_level"; "chain_start_idx"; "chain_end_idx"; "retrovirus_type";
             "score"; "type_of_chain"] ->
       dict_get d k <> None) /\
  (forall v, match v with
             | VDict _ => True
             | _ => extract_herv_chain_metadata v = Raise TypeError
             end).
Proof.
  split; [ | split; [ | split]].
  - intros d a b c t s ty Ha Hb Hc Ht Hs Hty.
    unfold extract_herv_chain_metadata. simpl.
    rewrite Ha, Hb, Hc, Ht, Hs, Hty. simpl.
    destruct (py_int s); reflexivity.
  - intros d k Hin Hk. unfold extract_herv_chain_metadata. simpl.
    simpl in Hin.
    destruct Hin as [<- | [<- | [<- | [<- | [<- | []]]]]]; rewrite ?Hk;
      repeat match goal with
             | |- context [dict_get d ?x] =>
                 destruct (dict_get d x); simpl; try reflexivity
             end;
      rewrite ?Hk in *; try discriminate; try reflexivity.
  - intros d r H k Hin Hk. unfold extract_herv_chain_metadata in H. simpl in H.
    simpl in Hin.
    destruct (dict_get d "chain_level") eqn:E1; simpl in H; [ | discriminate].
    destruct (dict_get d "chain_start_idx") eqn:E2; simpl in H; [ | discriminate].
    destruct (dict_get d "chain_end_idx") eqn:E3; simpl in H; [ | discriminate].
    destruct (dict_get d "retrovirus_type") eqn:E4; simpl in H; [ | discriminate].
    destruct (dict_get d "score") as [sc | ] eqn:E5; simpl in H; [ | discriminate].
    destruct (py_int sc); simpl in H; [ | discriminate].
    destruct (dict_get d "type_of_chain") eqn:E6; simpl in H; [ | discriminate].
    destruct Hin as [<- | [<- | [<- | [<- | [<- | [<- | []]]]]]]; congruence.
  - intros v. destruct v; try exact I; reflexivity.
Qed.

(** *** The LTR set *)

Lemma solo_ltr_entry_tags (entry : pyval) (r : row) :
  solo_ltr_entry entry = Ok r ->
  dict_get r "herv_chain_index" = Some VNone /\
  dict_get r "ltr_type" = Some (VStr "solo").
Proof.
  intros H. rewrite solo_ltr_entry_table in H. split.
  - destruct (eval_table_column _ _ _ _ "herv_chain_index" (FConst VNone)
                solo_ltr_table_columns H ltac:(simpl; auto)) as (v & Hv & E).
    injection E as <-. exact Hv.
  - destruct (eval_table_column _ _ _ _ "ltr_type" (FConst (VStr "solo"))
                solo_ltr_table_columns H ltac:(simpl; auto)) as (v & Hv & E).
    injection E as <-. exact Hv.
Qed.

Lemma full_ltr_entry_tag (chain_index : Z) (entry : pyval) (r : row) :
  full_ltr_entry chain_index entry = Ok r ->
  dict_get r "herv_chain_index" = Some (VInt chain_index).
Proof.
  intros H. rewrite full_ltr_entry_table in H.
  destruct (eval_table_column _ _ _ _ "herv_chain_index" (FConst (VInt chain_index))
              (full_ltr_table_columns chain_index) H ltac:(simpl; auto))
    as (v & Hv & E).
  injection E as <-. exact Hv.
Qed.

Lemma rmapM_Forall_out {A B : Type} (f : A -> result B) (P : B -> Prop)
    (l : list A) (vs : list B) :
  (forall a v, f a = Ok v -> P v) -> rmapM f l = Ok vs -> Forall P vs.
Proof.
  intros Hf H. apply rmapM_Forall2 in H.
  induction H as [ | a v l vs Hav HF IH]; constructor; eauto.
Qed.

Lemma chain_ltrs_loop_tags (chains : list pyval) :
  forall k full,
    chain_ltrs_loop chains k = Ok full ->
    exists per_chain : list (list row),
      full = List.concat per_chain /\
      Forall2 (fun chain rows =>
                 exists items,
                   rbind (py_get chain "LTRs" (VList [])) py_iter = Ok items /\
                   List.length rows = List.length items) chains per_chain /\
      forall i rows r,
        nth_error per_chain i = Some rows -> In r rows ->
        dict_get r "herv_chain_index" = Some (VInt (k + Z.of_nat i)).
Proof.
  induction chains as [ | chain rest IH]; intros k full H; simpl in H.
  - injection H as <-. exists []. split; [reflexivity | ]. split; [constructor | ].
    intros i rows r Hn. destruct i; discriminate.
  - destruct (py_get chain "LTRs" (VList [])) as [ls | ] eqn:Eg; simpl in H;
      [ | discriminate].
    destruct (py_iter ls) as [items | ] eqn:Ei; simpl in H; [ | discriminate].
    destruct (rmapM (full_ltr_entry k) items) as [entries | ] eqn:Ee; simpl in H;
      [ | discriminate].
    destruct (chain_ltrs_loop rest (k + 1)) as [more | ] eqn:Em; simpl in H;
      [ | discriminate].
    injection H as <-.
    destruct (IH _ _ Em) as (per_chain & -> & HF & Htag).
    exists (entries :: per_chain). split; [reflexivity | ]. split.
    + constructor; [ | exact HF]. exists items. rewrite Eg. simpl.
      split; [exact Ei | ]. exact (rmapM_length _ _ _ Ee).
    + intros i rows r Hn Hin. destruct i as [ | i]; simpl in Hn.
      * injection Hn as <-.
        pose proof (rmapM_Forall_out _ _ _ _ (full_ltr_entry_tag k) Ee) as Hall.
        rewrite Forall_forall in Hall. rewrite Z.add_0_r. now apply Hall.
      * rewrite (Htag i rows r Hn Hin). do 2 f_equal. lia.
Qed.

(** What [parse_ltrs] returns is the solo LTRs of the document, each with
    no chain index and the type "solo", followed by the full LTRs of the
    chain blocks in order, those of the i-th block tagged with the index i;
    no entry is dropped. *)
Theorem parse_ltrs_tags (json_data : pyval) (ltrs : list row) :
  parse_ltrs json_data = Ok ltrs ->
  exists (solo_items chain_blocks : list pyval) (solo : list row)
         (per_chain : list (list row)),
    rbind (py_get json_data "soloLTRs" (VList [])) py_iter = Ok solo_items /\
    rbind (py_get json_data "pseuGID" (VList [])) py_iter = Ok chain_blocks /\
    ltrs = solo ++ List.concat per_chain /\
    List.length solo = List.length solo_items /\
    Forall (fun r => dict_get r "herv_chain_index" = Some VNone /\
                     dict_get r "ltr_type" = Some (VStr "solo")) solo /\
    Forall2 (fun chain rows =>
               exists items,
                 rbind (py_get chain "LTRs" (VList [])) py_iter = Ok items /\
                 List.length rows = List.length items) chain_blocks per_chain /\
    (forall i rows r,
       nth_error per_chain i = Some rows -> In r rows ->
       dict_get r "herv_chain_index" = Some (VInt (Z.of_nat i))).
Proof.
  unfold parse_ltrs. intros H.
  destruct (py_get json_data "soloLTRs" (VList [])) as [sl | ]; simpl in *;
    [ | discriminate].
  destruct (py_iter sl) as [solo_items | ]; simpl in *; [ | discriminate].
  destruct (rmapM solo_ltr_entry solo_items) as [solo | ] eqn:Eso; simpl in H;
    [ | discriminate].
  destruct (py_get json_data "pseuGID" (VList [])) as [ch | ]; simpl in *;
    [ | discriminate].
  destruct (py_iter ch) as [chain_blocks | ]; simpl in *; [ | discriminate].
  destruct (chain_ltrs_loop chain_blocks 0) as [full | ] eqn:Ef; simpl in H;
    [ | discriminate].
  injection H as <-.
  destruct (chain_ltrs_loop_tags _ _ _ Ef) as (per_chain & -> & HF & Htag).
  exists solo_items, chain_blocks, solo, per_chain.
  split; [reflexivity | ]. split; [reflexivity | ]. split; [reflexivity | ].
  split; [exact (rmapM_length _ _ _ Eso) | ].
  split; [exact (rmapM_Forall_out _ _ _ _ solo_ltr_entry_tags Eso) | ].
  split; [exact HF | ].
  intros i rows r Hn Hin. exact (Htag i rows r Hn Hin).
Qed.

Lemma dict_get_set_other (d : row) (k k' : string) (v : pyval) :
  k <> k' -> dict_get (dict_set d k v) k' = dict_get d k'.
Proof.
  intros Hne. induction d as [ | [k0 v0] d IH]; simpl.
  - destruct (String.eqb_spec k k'); [contradiction | reflexivity].
  - destruct (String.eqb_spec k0 k) as [-> | Hk]; simpl.
    + destruct (String.eqb_spec k k'); [contradiction | reflexivity].
    + destruct (String.eqb k0 k'); [reflexivity | exact IH].
Qed.

Lemma same_table_repeat (t : string) (new : list entry) :
  Forall (fun e => e_table e = t) new ->
  map e_table new = repeat t (List.length new).
Proof.
  induction 1 as [ | e new He HF IH]; simpl; [reflexivity | ].
  now rewrite He, IH.
Qed.

Lemma insert_ltr_rows_raise (ltr_list : list row) (herv_chain_id : Z) :
  forall c e c',
    insert_ltr_rows ltr_list herv_chain_id c = (Raise e, c') -> e = StoreError.
Proof.
  induction ltr_list as [ | r rest IH]; intros c e c' H; simpl in H.
  - discriminate.
  - apply bind_raise in H. destruct H as [H | (x & c1 & _ & H)].
    + now apply execute_raise in H.
    + eapply IH. exact H.
Qed.

(** [insert_ltrs] sends each parsed LTR with the key [herv_chain_index]
    taken out and [herv_chain_id] set to its argument, every other column as
    it was: the index of the chain an LTR was parsed from never reaches the
    store.  When it returns, the rows are in the table [ltr] in the order of
    the list and committed; the only exception it raises is the store's, and
    then it has committed nothing. *)
Theorem insert_ltrs_effect :
  (forall herv_chain_id r,
     dict_get (ltr_row herv_chain_id r) "herv_chain_index" = None /\
     dict_get (ltr_row herv_chain_id r) "herv_chain_id" = Some (VInt herv_chain_id) /\
     forall k, k <> "herv_chain_index" -> k <> "herv_chain_id" ->
               dict_get (ltr_row herv_chain_id r) k = dict_get r k) /\
  (forall ltr_list herv_chain_id c c',
     insert_ltrs ltr_list herv_chain_id c = (Ok tt, c') ->
     exists new,
       log c' = log c ++ new /\
       map e_table new = repeat "ltr" (List.length ltr_list) /\
       map e_row new = map (ltr_row herv_chain_id) ltr_list /\
       committed c' = log c') /\
  (forall ltr_list herv_chain_id c e c',
     wf c ->
     insert_ltrs ltr_list herv_chain_id c = (Raise e, c') ->
     e = StoreError /\ committed c' = committed c).
Proof.
  split; [ | split].
  - intros herv_chain_id r. unfold ltr_row. split; [ | split].
    + rewrite dict_get_set_other by discriminate.
      rewrite dict_get_remove. reflexivity.
    + apply dict_get_set_same.
    + intros k H1 H2. rewrite dict_get_set_other by congruence.
      rewrite dict_get_remove.
      destruct (String.eqb_spec "herv_chain_index" k); [congruence | reflexivity].
  - intros ltr_list herv_chain_id c c' H. unfold insert_ltrs in H.
    apply bind_ok in H. destruct H as ([] & c1 & Hrows & Hc).
    apply commit_ok in Hc.
    destruct (insert_ltr_rows_entries _ _ _ _ Hrows) as (new & Hl & Ht & Hr).
    exists new. subst c'. split; [exact Hl | ].
    split.
    { rewrite (same_table_repeat _ _ Ht).
      rewrite <- (length_map e_row new), Hr, length_map. reflexivity. }
    split; [exact Hr | ]. apply committed_all. reflexivity.
  - intros ltr_list herv_chain_id c e c' Hwf H. unfold insert_ltrs in H.
    apply bind_raise in H. destruct H as [H | (x & c1 & Hrows & H)].
    + split; [eapply insert_ltr_rows_raise; exact H | ].
      destruct (insert_ltr_rows_no_commit _ _ _ _ _ H) as (Hn & _ & new & Hl).
      eapply committed_same; eassumption.
    + apply commit_raise in H. destruct H as [-> ->]. split; [reflexivity | ].
      destruct (insert_ltr_rows_no_commit _ _ _ _ _ Hrows) as (Hn & _ & new & Hl).
      eapply committed_same; eassumption.
Qed.

(** *** The statements of a chain iteration *)

Lemma insert_motif_rows_entries (motifs : list row) (herv_chain_id : Z) :
  forall c c',
    insert_motif_rows motifs herv_chain_id c = (Ok tt, c') ->
    exists new,
      log c' = log c ++ new /\
      Forall (fun e => e_table e = "motifs") new /\
      map e_row new
      = map (fun m => dict_set m "herv_chain_id" (VInt herv_chain_id)) motifs.
Proof.
  induction motifs as [ | r rest IH]; intros c c' H; simpl in H.
  - injection H as <-. exists []. rewrite app_nil_r. repeat split. constructor.
  - apply bind_ok in H. destruct H as (x & c1 & He & H).
    apply execute_ok in He. destruct He as [_ ->].
    destruct (IH _ _ H) as (new & Hl & Ht & Hr).
    eexists (_ :: new). simpl in *. repeat split.
    + rewrite Hl, <- app_assoc. reflexivity.
    + constructor; [reflexivity | exact Ht].
    + rewrite Hr. reflexivity.
Qed.

Lemma subgene_entries_facts (herv_chain_id : Z) (tree : chain_tree) :
  forall ids,
    List.length ids = List.length tree ->
    List.length (subgene_entries herv_chain_id tree ids) = List.length tree /\
    map e_id (subgene_entries herv_chain_id tree ids) = ids /\
    Forall (fun e => e_table e = "subgenes" /\
                     dict_get (e_row e) "herv_chain_id" = Some (VInt herv_chain_id))
           (subgene_entries herv_chain_id tree ids).
Proof.
  unfold subgene_entries.
  induction tree as [ | t tree IH]; intros [ | id ids] Hlen; simpl in *;
    try discriminate.
  - repeat split. constructor.
  - injection Hlen as Hlen. destruct (IH ids Hlen) as (H1 & H2 & H3).
    repeat split.
    + now rewrite H1.
    + now rewrite H2.
    + constructor; [split; reflexivity | exact H3].
Qed.

Lemma domain_rows_facts (tree : chain_tree) :
  forall ids k,
    List.length ids = List.length tree ->
    List.length (domain_rows tree ids) = List.length (tree_domain_records tree k) /\
    Forall (fun r => exists id, In id ids /\
                                dict_get r "subgene_id" = Some (VInt id))
           (domain_rows tree ids).
Proof.
  unfold domain_rows.
  induction tree as [ | t tree IH]; intros [ | id ids] k Hlen; simpl in *;
    try discriminate.
  - split; [reflexivity | constructor].
  - injection Hlen as Hlen. destruct (IH ids (k + 1) Hlen) as (H1 & H2).
    split.
    + rewrite !length_app, !length_map, H1. reflexivity.
    + apply Forall_app. split.
      * apply Forall_forall. intros r Hin. apply in_map_iff in Hin.
        destruct Hin as (d & <- & _). exists id. split; [now left | reflexivity].
      * eapply Forall_impl; [ | exact H2].
        intros r (id' & Hin & Hr). exists id'. split; [now right | exact Hr].
Qed.

(** Everything a completed chain iteration sent to the store. *)
Lemma load_chain_entries (data : pyval) (pk : Z) (chain_block : pyval) (c c' : conn) :
  load_chain data pk chain_block c = (Ok tt, c') ->
  exists md herv_chain_id subs doms motifs ltrs sg dm mo lt,
    extract_herv_chain_metadata chain_block = Ok md /\
    parse_subgenes_and_domains chain_block = Ok (subs, doms) /\
    parse_motifs chain_block = Ok motifs /\
    parse_ltrs data = Ok ltrs /\
    log c' = log c
             ++ mk_entry "herv_chain" (dict_set md "run_metadata_id" (VInt pk))
                  herv_chain_id
             :: sg ++ dm ++ mo ++ lt /\
    ncommitted c' = List.length (log c') /\
    (List.length sg = List.length subs /\
     Forall (fun e => e_table e = "subgenes" /\
                      dict_get (e_row e) "herv_chain_id" = Some (VInt herv_chain_id))
            sg) /\
    (List.length dm = List.length doms /\
     Forall (fun e => e_table e = "domains") dm /\
     Forall (fun e => exists s, In s sg /\
                                dict_get (e_row e) "subgene_id" = Some (VInt (e_id s)))
            dm) /\
    (Forall (fun e => e_table e = "motifs") mo /\
     map e_row mo = map (fun m => dict_set m "herv_chain_id" (VInt herv_chain_id)) motifs) /\
    (Forall (fun e => e_table e = "ltr") lt /\
     map e_row lt = map (ltr_row herv_chain_id) ltrs).
Proof.
  unfold load_chain. intros H.
  apply bind_ok in H. destruct H as (md & c1 & Hmd & H).
  apply lift_inv in Hmd. destruct Hmd as [Hmd ->].
  apply bind_ok in H. destruct H as (hid & c2 & Hch & H).
  apply insert_herv_chain_ok in Hch. destruct Hch as (_ & Hl2 & _).
  apply bind_ok in H. destruct H as ([subs doms] & c3 & Hsd & H).
  apply lift_inv in Hsd. destruct Hsd as [Hsd ->]. simpl fst in H. simpl snd in H.
  apply bind_ok in H. destruct H as ([] & c4 & Hb & H).
  apply bind_ok in H. destruct H as (motifs & c5 & Hmo & H).
  apply lift_inv in Hmo. destruct Hmo as [Hmo ->].
  apply bind_ok in H. destruct H as ([] & c6 & Him & H).
  apply bind_ok in H. destruct H as (ltrs & c7 & Hltr & H).
  apply lift_inv in Hltr. destruct Hltr as [Hltr ->].
  (* subgenes and domains *)
  symmetry in Hsd.
  destruct (parse_subgenes_and_domains_inv _ _ _ Hsd) as (items & tree & _ & _ & Es & Ed).
  unfold insert_subgenes_domains in Hb.
  apply bind_ok in Hb. destruct Hb as (m & c41 & Hs & Hb).
  apply bind_ok in Hb. destruct Hb as ([] & c42 & Hd & Hc4).
  apply commit_ok in Hc4.
  rewrite Es in Hs. apply subgene_rows_inserted in Hs; [ | reflexivity].
  destruct Hs as (ids & Hlen & Hlog41 & _ & _ & -> & _).
  rewrite Ed in Hd.
  apply (domain_rows_inserted tree ids 0) in Hd;
    [ | exact Hlen | intros i id; apply index_map_resolves].
  destruct Hd as [Hd | (_ & dm & Hlog42 & Htd & Hrd & _ & _)]; [discriminate | ].
  destruct (subgene_entries_facts hid tree ids Hlen) as (Hsl & Hsid & Hsf).
  destruct (domain_rows_facts tree ids 0 Hlen) as (Hdl & Hdf).
  (* motifs *)
  unfold insert_motifs in Him.
  apply bind_ok in Him. destruct Him as ([] & c61 & Hmrows & Hc6).
  apply commit_ok in Hc6.
  destruct (insert_motif_rows_entries _ _ _ _ Hmrows) as (mo & Hlog61 & Htm & Hrm).
  (* LTRs *)
  unfold insert_ltrs in H.
  apply bind_ok in H. destruct H as ([] & c8 & Hlrows & Hc8).
  apply commit_ok in Hc8.
  destruct (insert_ltr_rows_entries _ _ _ _ Hlrows) as (lt & Hlog8 & Htl & Hrl).
  exists md, hid, subs, doms, motifs, ltrs, (subgene_entries hid tree ids), dm, mo, lt.
  split; [now symmetry | ]. split; [exact Hsd | ].
  split; [now symmetry | ]. split; [now symmetry | ].
  split.
  { subst c'. simpl. rewrite Hlog8. subst c6. simpl. rewrite Hlog61.
    subst c4. simpl. rewrite Hlog42, Hlog41, Hl2.
    rewrite <- !app_assoc. reflexivity. }
  split; [subst c'; reflexivity | ].
  split.
  { split; [ | exact Hsf]. rewrite Hsl, Es, tree_subgene_records_length. reflexivity. }
  split.
  { split; [ | split; [exact Htd | ]].
    - rewrite <- (length_map e_row dm), Hrd, Hdl, Ed. reflexivity.
    - assert (Hrows : Forall (fun r => exists id, In id ids /\
                                dict_get r "subgene_id" = Some (VInt id))
                             (map e_row dm)) by (rewrite Hrd; exact Hdf).
      rewrite Forall_forall in Hrows. apply Forall_forall. intros e He.
      destruct (Hrows (e_row e) (in_map e_row _ _ He)) as (id & Hid & Hr).
      rewrite <- Hsid in Hid. apply in_map_iff in Hid.
      destruct Hid as (s & <- & Hs). now exists s. }
  split; [split; assumption | split; assumption].
Qed.

(** Every row of a completed chain iteration is linked to a parent that
    is in the store: the chain row to the run, the subgene, motif and LTR
    rows to the chain row of the iteration, and each domain row to a subgene
    row of the same iteration. *)
Theorem chain_rows_linked (data : pyval) (pk : Z) (chain_block : pyval) (c c' : conn) :
  load_chain data pk chain_block c = (Ok tt, c') ->
  exists chain_entry rest,
    log c' = log c ++ chain_entry :: rest /\
    e_table chain_entry = "herv_chain" /\
    dict_get (e_row chain_entry) "run_metadata_id" = Some (VInt pk) /\
    Forall (fun e =>
              (In (e_table e) ["subgenes"; "motifs"; "ltr"] /\
               dict_get (e_row e) "herv_chain_id" = Some (VInt (e_id chain_entry))) \/
              (e_table e = "domains" /\
               exists s, In s rest /\ e_table s = "subgenes" /\
                         dict_get (e_row e) "subgene_id" = Some (VInt (e_id s))))
           rest.
Proof.
  intros H.
  destruct (load_chain_entries _ _ _ _ _ H)
    as (md & hid & subs & doms & motifs & ltrs & sg & dm & mo & lt &
        _ & _ & _ & _ & Hlog & _ & (_ & Hsg) & (_ & Htd & Hdm) & (Htm & Hrm) & (Htl & Hrl)).
  exists (mk_entry "herv_chain" (dict_set md "run_metadata_id" (VInt pk)) hid),
         (sg ++ dm ++ mo ++ lt).
  split; [exact Hlog | ]. split; [reflexivity | ].
  split; [apply dict_get_set_same | ]. simpl e_id.
  rewrite Forall_forall in Hsg, Htd, Hdm, Htm, Htl.
  apply Forall_forall. intros e He.
  apply in_app_or in He. destruct He as [He | He].
  { left. destruct (Hsg e He) as [Ht Hr]. rewrite Ht. simpl. auto. }
  apply in_app_or in He. destruct He as [He | He].
  { right. split; [exact (Htd e He) | ].
    destruct (Hdm e He) as (s & Hs & Hr). exists s.
    split; [apply in_or_app; now left | ].
    split; [exact (proj1 (Hsg s Hs)) | exact Hr]. }
  apply in_app_or in He. destruct He as [He | He].
  { left. rewrite (Htm e He). split; [simpl; auto | ].
    assert (Hin : In (e_row e) (map e_row mo)) by (now apply in_map).
    rewrite Hrm in Hin. apply in_map_iff in Hin. destruct Hin as (m & <- & _).
    apply dict_get_set_same. }
  left. rewrite (Htl e He). split; [simpl; auto | ].
  assert (Hin : In (e_row e) (map e_row lt)) by (now apply in_map).
  rewrite Hrl in Hin. apply in_map_iff in Hin. destruct Hin as (r & <- & _).
  apply dict_get_set_same.
Qed.

(** *** The statements of a load *)

Lemma load_chain_tables (data : pyval) (pk : Z) (chain_block : pyval) (c c' : conn) :
  load_chain data pk chain_block c = (Ok tt, c') ->
  exists new,
    log c' = log c ++ new /\
    map e_table new = block_statement_tables data chain_block /\
    ncommitted c' = List.length (log c').
Proof.
  intros H.
  destruct (load_chain_entries _ _ _ _ _ H)
    as (md & hid & subs & doms & motifs & ltrs & sg & dm & mo & lt &
        _ & Hsd & Hmo & Hltr & Hlog & Hn & (Hls & Hsg) & (Hld & Htd & _) &
        (Htm & Hrm) & (Htl & Hrl)).
  eexists. split; [exact Hlog | ]. split; [ | exact Hn].
  unfold block_statement_tables, chain_statement_tables.
  rewrite Hsd, Hmo, Hltr. simpl. f_equal.
  rewrite !map_app.
  assert (Hsg' : Forall (fun e => e_table e = "subgenes") sg).
  { eapply Forall_impl; [ | exact Hsg]. intros e He. exact (proj1 He). }
  rewrite (same_table_repeat _ _ Hsg'), (same_table_repeat _ _ Htd),
    (same_table_repeat _ _ Htm), (same_table_repeat _ _ Htl).
  rewrite Hls, Hld.
  rewrite <- (length_map e_row mo), Hrm, length_map.
  rewrite <- (length_map e_row lt), Hrl, length_map. reflexivity.
Qed.

Lemma load_chains_tables (data : pyval) (pk : Z) (chain_blocks : list pyval) :
  forall c c',
    load_chains data pk chain_blocks c = (Ok tt, c') ->
    exists new,
      log c' = log c ++ new /\
      map e_table new = flat_map (block_statement_tables data) chain_blocks /\
      (ncommitted c = List.length (log c) -> ncommitted c' = List.length (log c')).
Proof.
  induction chain_blocks as [ | b rest IH]; intros c c' H; simpl in H.
  - injection H as <-. exists []. rewrite app_nil_r. auto.
  - apply bind_ok in H. destruct H as ([] & c1 & Hb & H).
    destruct (load_chain_tables _ _ _ _ _ Hb) as (new1 & Hl1 & Ht1 & Hn1).
    destruct (IH _ _ H) as (new2 & Hl2 & Ht2 & Hn2).
    exists (new1 ++ new2). split; [ | split].
    + rewrite Hl2, Hl1, app_assoc. reflexivity.
    + simpl. rewrite map_app, Ht1, Ht2. reflexivity.
    + intros _. exact (Hn2 Hn1).
Qed.

Lemma parse_and_load_tables (data : pyval) (c c' : conn) :
  parse_and_load_retroctector data c = (Ok tt, c') ->
  exists chain_blocks new,
    rbind (get_herv_chain_blocks data) py_iter = Ok chain_blocks /\
    log c' = log c ++ new /\
    map e_table new
    = "run_metadata" :: flat_map (block_statement_tables data) chain_blocks /\
    ncommitted c' = List.length (log c').
Proof.
  unfold parse_and_load_retroctector. intros H.
  apply bind_ok in H. destruct H as (md & c1 & Hmd & H).
  apply lift_inv in Hmd. destruct Hmd as [Hmd ->].
  apply bind_ok in H. destruct H as (pk & c2 & Hrun & H).
  unfold insert_run_metadata in Hrun.
  apply bind_ok in Hrun. destruct Hrun as (x & c3 & He & Hrun).
  apply bind_ok in Hrun. destruct Hrun as (u & c4 & Hc & Hrun).
  apply execute_ok in He. destruct He as [_ ->].
  apply commit_ok in Hc. subst c4. injection Hrun as -> <-.
  apply bind_ok in H. destruct H as (blocks & c5 & Hb & H).
  apply lift_inv in Hb. destruct Hb as [Hb ->].
  apply bind_ok in H. destruct H as (chain_blocks & c6 & Hi & H).
  apply lift_inv in Hi. destruct Hi as [Hi ->].
  destruct (load_chains_tables _ _ _ _ _ H) as (new & Hl & Ht & Hn).
  exists chain_blocks, (mk_entry "run_metadata" md pk :: new).
  split; [rewrite <- Hb; simpl; auto | ].
  split; [rewrite Hl; simpl; rewrite <- app_assoc; reflexivity | ].
  split; [simpl; now rewrite Ht | ].
  apply Hn. reflexivity.
Qed.


(** Loading is not idempotent: a second completed load of the same
    document on the same connection adds as many rows to each table again,
    statement for statement. *)
Theorem repeated_load_duplicates (data : pyval) (c c1 c2 : conn) :
  parse_and_load_retroctector data c = (Ok tt, c1) ->
  parse_and_load_retroctector data c1 = (Ok tt, c2) ->
  exists new1 new2,
    log c1 = log c ++ new1 /\
    log c2 = log c ++ new1 ++ new2 /\
    new1 <> [] /\
    map e_table new2 = map e_table new1 /\
    forall t, List.length (filter (is_table t) new2)
              = List.length (filter (is_table t) new1).
Proof.
  intros H1 H2.
  destruct (parse_and_load_tables _ _ _ H1) as (b1 & new1 & Hb1 & Hl1 & Ht1 & _).
  destruct (parse_and_load_tables _ _ _ H2) as (b2 & new2 & Hb2 & Hl2 & Ht2 & _).
  assert (b2 = b1) by congruence. subst b2.
  assert (Heq : map e_table new2 = map e_table new1) by congruence.
  exists new1, new2.
  split; [exact Hl1 | ].
  split; [rewrite Hl2, Hl1, <- app_assoc; reflexivity | ].
  split; [intros ->; discriminate | ].
  split; [exact Heq | ].
  intros t. clear - Heq. revert new2 Heq.
  induction new1 as [ | e1 new1 IH]; intros [ | e2 new2] Heq; simpl in *;
    try discriminate; [reflexivity | ].
  injection Heq as He Heq.
  assert (Et : is_table t e2 = is_table t e1) by (unfold is_table; now rewrite He).
  rewrite Et. destruct (is_table t e1); simpl; [f_equal | ]; exact (IH new2 Heq).
Qed.

(** Once the run row is inserted it stays: whatever happens in the rest
    of the load, after the connection is closed the store holds what was on
    the connection before, the run row, and the rows committed after it. *)
Theorem run_row_persists (data : pyval) (c c1 c' : conn) (metadata : row) (pk : Z)
    (r : result unit) :
  parse_run_metadata data = Ok metadata ->
  insert_run_metadata metadata c = (Ok pk, c1) ->
  parse_and_load_retroctector data c = (r, c') ->
  exists more,
    committed (close c') = log c ++ mk_entry "run_metadata" metadata pk :: more.
Proof.
  intros Hmd Hrun H. rewrite committed_close.
  unfold parse_and_load_retroctector in H. unfold bind at 1 in H. unfold lift at 1 in H.
  rewrite Hmd in H. unfold bind at 1 in H. rewrite Hrun in H.
  assert (Hc1 : log c1 = log c ++ [mk_entry "run_metadata" metadata pk] /\
                ncommitted c1 = List.length (log c1)).
  { unfold insert_run_metadata in Hrun.
    apply bind_ok in Hrun. destruct Hrun as (x & c3 & He & Hrun).
    apply bind_ok in Hrun. destruct Hrun as (u & c4 & Hc & Hrun).
    apply execute_ok in He. destruct He as [_ ->].
    apply commit_ok in Hc. subst c4. injection Hrun as -> <-. split; reflexivity. }
  destruct Hc1 as [Hl1 Hn1].
  assert (Hwf1 : wf c1) by (unfold wf; lia).
  assert (Hg : grows (bind (lift (get_herv_chain_blocks data))
                        (fun chain_blocks =>
                           bind (lift (py_iter chain_blocks))
                                (fun blocks => load_chains data pk blocks)))).
  { apply grows_bind; [apply grows_lift | intros blocks].
    apply grows_bind; [apply grows_lift | intros l]. apply grows_load_chains. }
  destruct (grows_committed _ _ _ _ Hg Hwf1 H) as (more & Hmore).
  exists more. rewrite Hmore, (committed_all c1 Hn1), Hl1, <- app_assoc. reflexivity.
Qed.

Lemma herv_chain_dict_eq (chain : pyval) :
  herv_chain_dict chain = extract_herv_chain_metadata chain.
Proof. reflexivity. Qed.

Lemma rmapM_ext {A B : Type} (f g : A -> result B) (l : list A) :
  (forall a, f a = g a) -> rmapM f l = rmapM g l.
Proof.
  intros Hfg. induction l as [ | a l IH]; simpl; [reflexivity | ].
  now rewrite Hfg, IH.
Qed.

Lemma load_chains_chain_rows (data : pyval) (pk : Z) (chain_blocks : list pyval) :
  forall c c',
    load_chains data pk chain_blocks c = (Ok tt, c') ->
    exists new mds,
      log c' = log c ++ new /\
      rmapM extract_herv_chain_metadata chain_blocks = Ok mds /\
      map e_row (filter (is_table "herv_chain") new)
      = map (fun md => dict_set md "run_metadata_id" (VInt pk)) mds.
Proof.
  induction chain_blocks as [ | b rest IH]; intros c c' H; simpl in H.
  - injection H as <-. exists [], []. rewrite app_nil_r. auto.
  - apply bind_ok in H. destruct H as ([] & c1 & Hb & H).
    destruct (load_chain_entries _ _ _ _ _ Hb)
      as (md & hid & subs & doms & motifs & ltrs & sg & dm & mo & lt &
          Hmd & _ & _ & _ & Hlog & _ & (_ & Hsg) & (_ & Htd & _) & (Htm & _) & (Htl & _)).
    destruct (IH _ _ H) as (new2 & mds & Hl2 & Hm2 & Hr2).
    eexists (_ ++ new2), (md :: mds). split; [ | split].
    + rewrite Hl2, Hlog, <- app_assoc. reflexivity.
    + simpl. rewrite Hmd, Hm2. reflexivity.
    + assert (Hsg' : Forall (fun e => e_table e = "subgenes") sg).
      { eapply Forall_impl; [ | exact Hsg]. intros e He. exact (proj1 He). }
      rewrite filter_app. simpl filter. rewrite !filter_app.
      rewrite (filter_table_ne "herv_chain" "subgenes" sg Hsg') by discriminate.
      rewrite (filter_table_ne "herv_chain" "domains" dm Htd) by discriminate.
      rewrite (filter_table_ne "herv_chain" "motifs" mo Htm) by discriminate.
      rewrite (filter_table_ne "herv_chain" "ltr" lt Htl) by discriminate.
      simpl. rewrite Hr2. reflexivity.
Qed.

(** [parse_herv_chains] maps every chain block as
    [extract_herv_chain_metadata] does, and the chain rows of a completed
    load are its entries, in order, each with the identifier of the run row
    added. *)
Theorem chain_rows_are_parse_herv_chains :
  (forall data,
     parse_herv_chains data
     = rbind (rbind (get_herv_chain_blocks data) py_iter)
             (rmapM extract_herv_chain_metadata)) /\
  (forall data c c',
     parse_and_load_retroctector data c = (Ok tt, c') ->
     exists run_entry rest mds,
       log c' = log c ++ run_entry :: rest /\
       e_table run_entry = "run_metadata" /\
       parse_herv_chains data = Ok mds /\
       map e_row (filter (is_table "herv_chain") rest)
       = map (fun md => dict_set md "run_metadata_id" (VInt (e_id run_entry))) mds).
Proof.
  assert (Heq : forall data,
            parse_herv_chains data
            = rbind (rbind (get_herv_chain_blocks data) py_iter)
                    (rmapM extract_herv_chain_metadata)).
  { intros data. unfold parse_herv_chains, get_herv_chain_blocks.
    destruct (py_get data "pseuGID" (VList [])) as [chains | ]; simpl; [ | reflexivity].
    destruct (py_iter chains) as [items | ]; simpl; [ | reflexivity].
    apply rmapM_ext. exact herv_chain_dict_eq. }
  split; [exact Heq | ].
  intros data c c' H. unfold parse_and_load_retroctector in H.
  apply bind_ok in H. destruct H as (md & c1 & Hmd & H).
  apply lift_inv in Hmd. destruct Hmd as [Hmd ->].
  apply bind_ok in H. destruct H as (pk & c2 & Hrun & H).
  unfold insert_run_metadata in Hrun.
  apply bind_ok in Hrun. destruct Hrun as (x & c3 & He & Hrun).
  apply bind_ok in Hrun. destruct Hrun as (u & c4 & Hc & Hrun).
  apply execute_ok in He. destruct He as [_ ->].
  apply commit_ok in Hc. subst c4. injection Hrun as -> <-.
  apply bind_ok in H. destruct H as (blocks & c5 & Hb & H).
  apply lift_inv in Hb. destruct Hb as [Hb ->].
  apply bind_ok in H. destruct H as (chain_blocks & c6 & Hi & H).
  apply lift_inv in Hi. destruct Hi as [Hi ->].
  destruct (load_chains_chain_rows _ _ _ _ _ H) as (new & mds & Hl & Hm & Hr).
  exists (mk_entry "run_metadata" md pk), new, mds.
  split; [rewrite Hl; simpl; rewrite <- app_assoc; reflexivity | ].
  split; [reflexivity | ].
  split; [ | exact Hr].
  rewrite Heq, <- Hb. simpl. rewrite <- Hi. simpl. exact Hm.
Qed.

(** *** The parse of a chain block on well-shaped and ill-shaped input *)

Lemma tree_domain_records_length (tree : chain_tree) :
  forall k, List.length (tree_domain_records tree k) = tree_domain_count tree.
Proof.
  unfold tree_domain_count.
  induction tree as [ | t tree IH]; intros k; simpl; [reflexivity | ].
  now rewrite !length_app, length_map, IH.
Qed.

(** On a chain block whose subgenes are dicts and whose domains are dicts
    the parse returns one record per subgene and one per domain; a block
    without [subgenes] gives two empty lists, while a block whose [subgenes]
    is present but null, or a number, raises [TypeError], and a block that is
    not a dict raises [AttributeError]. *)
Theorem parse_subgenes_and_domains_shape :
  (forall chain_block items tree,
     rbind (py_get chain_block "subgenes" (VList [])) py_iter = Ok items ->
     Forall2 subgene_source items tree ->
     parse_subgenes_and_domains chain_block
     = Ok (tree_subgene_records tree 0, tree_domain_records tree 0) /\
     List.length (tree_subgene_records tree 0) = List.length tree /\
     List.length (tree_domain_records tree 0) = tree_domain_count tree) /\
  (forall b, dict_get b "subgenes" = None ->
             parse_subgenes_and_domains (VDict b) = Ok ([], [])) /\
  (forall b v, dict_get b "subgenes" = Some v ->
     match v with
     | VNone | VBool _ | VInt _ | VFloat _ | VDatetime _ =>
         parse_subgenes_and_domains (VDict b) = Raise TypeError
     | _ => True
     end) /\
  (forall v, match v with
             | VDict _ => True
             | _ => parse_subgenes_and_domains v = Raise AttributeError
             end).
Proof.
  split; [ | split; [ | split]].
  - intros chain_block items tree Hit HF. split; [ | split].
    + unfold parse_subgenes_and_domains.
      destruct (py_get chain_block "subgenes" (VList [])) as [sgs | ]; simpl in *;
        [ | discriminate].
      rewrite Hit. simpl. apply subgenes_loop_ok. exact HF.
    + apply tree_subgene_records_length.
    + apply tree_domain_records_length.
  - intros b H. unfold parse_subgenes_and_domains. simpl. rewrite H. reflexivity.
  - intros b v H. unfold parse_subgenes_and_domains. simpl. rewrite H.
    destruct v; try exact I; reflexivity.
  - intros v. destruct v; try exact I; reflexivity.
Qed.

(** *** [parse_subgenes], [parse_domains] and [insert_subgenes] *)

Lemma subgene_dict_dict (d : row) : subgene_dict (VDict d) = Ok (subgene_fields d).
Proof. reflexivity. Qed.

Lemma subgene_dict_inv (x : pyval) (r : row) :
  subgene_dict x = Ok r -> exists d, x = VDict d /\ r = subgene_fields d.
Proof.
  destruct x; try discriminate. intros H. exists d. split; [reflexivity | ].
  rewrite subgene_dict_dict in H. now injection H.
Qed.

Lemma subgene_sources_dicts (items : list pyval) (tree : chain_tree) :
  Forall2 subgene_source items tree -> items = map VDict (map fst tree).
Proof.
  induction 1 as [ | item t items tree [Hd _] HF IH]; simpl; [reflexivity | ].
  now rewrite Hd, IH.
Qed.

Lemma drop_index_records (tree : chain_tree) :
  forall k,
    map (fun r => dict_remove r "subgene_index") (tree_subgene_records tree k)
    = map subgene_fields (map fst tree).
Proof.
  induction tree as [ | t tree IH]; intros k; simpl; [reflexivity | ].
  now rewrite IH.
Qed.

Lemma chain_subgenes_agrees (chain : pyval) (sd : list row * list row) :
  parse_subgenes_and_domains chain = Ok sd ->
  chain_subgenes chain
  = Ok (map (fun r => dict_remove r "subgene_index") (fst sd)).
Proof.
  destruct sd as [subs doms]. intros H.
  destruct (parse_subgenes_and_domains_inv _ _ _ H) as (items & tree & Hit & HF & -> & _).
  unfold chain_subgenes.
  destruct (py_get chain "subgenes" (VList [])) as [sgs | ]; simpl in *;
    [ | discriminate].
  rewrite Hit. simpl. rewrite (subgene_sources_dicts _ _ HF).
  rewrite (rmapM_dicts_ok subgene_dict subgene_fields _ subgene_dict_dict).
  now rewrite drop_index_records.
Qed.

(** On a document every chain block of which the per-chain parser
    accepts, [parse_subgenes] returns the subgene records of all the chains
    in order, without their positional index. *)
Theorem parse_subgenes_agrees (json_data : pyval) (chain_blocks : list pyval)
    (sds : list (list row * list row)) :
  rbind (py_get json_data "pseuGID" (VList [])) py_iter = Ok chain_blocks ->
  Forall2 (fun b sd => parse_subgenes_and_domains b = Ok sd) chain_blocks sds ->
  parse_subgenes json_data
  = Ok (flat_map (fun sd => map (fun r => dict_remove r "subgene_index") (fst sd)) sds).
Proof.
  intros Hb HF. unfold parse_subgenes.
  destruct (py_get json_data "pseuGID" (VList [])) as [chains | ]; simpl in *;
    [ | discriminate].
  rewrite Hb. simpl.
  assert (E : rmapM chain_subgenes chain_blocks
              = Ok (map (fun sd => map (fun r => dict_remove r "subgene_index") (fst sd))
                        sds)).
  { clear Hb. induction HF as [ | b sd bs sds' Hbsd HF IH]; simpl; [reflexivity | ].
    now rewrite (chain_subgenes_agrees _ _ Hbsd), IH. }
  rewrite E. simpl. now rewrite flat_map_concat_map.
Qed.

Lemma domain_dict_inv (x : pyval) (r : row) :
  domain_dict x = Ok r ->
  exists d, x = VDict d /\
            (forall k, In k domain_required -> dict_get d k <> None) /\
            forall k, r = ("subgene_id", VNone)
                          :: dict_remove (domain_record k d) "subgene_index".
Proof.
  destruct x; try discriminate. intros H. exists d. split; [reflexivity | ].
  unfold domain_dict in H. simpl in H.
  destruct (dict_get d "type") eqn:E1; simpl in H; [ | discriminate].
  destruct (dict_get d "score") eqn:E2; simpl in H; [ | discriminate].
  destruct (dict_get d "hotspot") eqn:E3; simpl in H; [ | discriminate].
  destruct (dict_get d "frame") eqn:E4; simpl in H; [ | discriminate].
  destruct (dict_get d "pos_init") eqn:E5; simpl in H; [ | discriminate].
  destruct (dict_get d "pos_fin") eqn:E6; simpl in H; [ | discriminate].
  destruct (dict_get d "match_input") eqn:E7; simpl in H; [ | discriminate].
  destruct (dict_get d "reference_match") eqn:E8; simpl in H; [ | discriminate].
  destruct (dict_get d "n_bases") eqn:E9; simpl in H; [ | discriminate].
  injection H as <-. split.
  - intros k Hin. simpl in Hin.
    destruct Hin as [<- | [<- | [<- | [<- | [<- | [<- | [<- | [<- | [<- | []]]]]]]]]];
      congruence.
  - intros k. simpl. unfold field. rewrite E1, E2, E3, E4, E5, E6, E7, E8, E9.
    reflexivity.
Qed.

Lemma subgene_domains_agrees (items : list pyval) :
  forall per k,
    rmapM subgene_domains items = Ok per ->
    exists subs doms,
      subgenes_loop items k = Ok (subs, doms) /\
      map (fun r => dict_remove r "subgene_id") (List.concat per)
      = map (fun r => dict_remove r "subgene_index") doms /\
      Forall (fun r => dict_get r "subgene_id" = Some VNone) (List.concat per).
Proof.
  induction items as [ | item items IH]; intros per k H; simpl in H.
  - injection H as <-. exists [], []. simpl. repeat split. constructor.
  - destruct (subgene_domains item) as [ds | ] eqn:Ed; simpl in H; [ | discriminate].
    destruct (rmapM subgene_domains items) as [per' | ] eqn:Er; simpl in H;
      [ | discriminate].
    injection H as <-.
    destruct (IH per' (k + 1) eq_refl) as (subs & doms & Hloop & Hmap & Hnone).
    unfold subgene_domains in Ed.
    destruct (py_get item "domains" (VList [])) as [dv | ] eqn:Eg; simpl in Ed;
      [ | discriminate].
    destruct (py_iter dv) as [ditems | ] eqn:Ei; simpl in Ed; [ | discriminate].
    assert (Hitem : exists d, item = VDict d).
    { destruct item; try discriminate. now eexists. }
    destruct Hitem as (sd & ->). simpl in Eg. injection Eg as <-.
    assert (Hds : exists dds, ditems = map VDict dds /\
                    map (fun r => dict_remove r "subgene_id") ds
                    = map (fun r => dict_remove r "subgene_index")
                          (map (domain_record k) dds) /\
                    Forall (fun r => dict_get r "subgene_id" = Some VNone) ds).
    { clear - Ed. revert ds Ed.
      induction ditems as [ | x ditems IHd]; intros ds Ed; simpl in Ed.
      - injection Ed as <-. exists []. repeat split. constructor.
      - destruct (domain_dict x) as [r | ] eqn:Ex; simpl in Ed; [ | discriminate].
        destruct (rmapM domain_dict ditems) as [rs | ] eqn:Ers; simpl in Ed;
          [ | discriminate].
        injection Ed as <-.
        destruct (domain_dict_inv _ _ Ex) as (d & -> & _ & Hr).
        destruct (IHd rs eq_refl) as (dds & -> & Hm & Hn).
        exists (d :: dds). split; [reflexivity | ]. split.
        + simpl map. rewrite Hm. f_equal. rewrite (Hr k). reflexivity.
        + constructor; [rewrite (Hr k); reflexivity | exact Hn]. }
    destruct Hds as (dds & -> & Hm1 & Hn1).
    exists (subgene_record k sd :: subs), (map (domain_record k) dds ++ doms).
    split; [ | split].
    + simpl. rewrite Ei. simpl.
      rewrite (rmapM_dicts_ok (parsed_domain k) (domain_record k) dds
                 (parsed_domain_dict k)).
      simpl. rewrite Hloop. reflexivity.
    + simpl. rewrite !map_app, Hm1, Hmap. reflexivity.
    + simpl. apply Forall_app. auto.
Qed.

Lemma chain_domains_agrees (chain : pyval) (ds : list row) :
  chain_domains chain = Ok ds ->
  exists sd,
    parse_subgenes_and_domains chain = Ok sd /\
    map (fun r => dict_remove r "subgene_id") ds
    = map (fun r => dict_remove r "subgene_index") (snd sd) /\
    Forall (fun r => dict_get r "subgene_id" = Some VNone) ds.
Proof.
  unfold chain_domains, parse_subgenes_and_domains. intros H.
  destruct (py_get chain "subgenes" (VList [])) as [sgs | ]; simpl in *;
    [ | discriminate].
  destruct (py_iter sgs) as [items | ]; simpl in *; [ | discriminate].
  destruct (rmapM subgene_domains items) as [per | ] eqn:E; simpl in H;
    [ | discriminate].
  injection H as <-.
  destruct (subgene_domains_agrees items per 0 E) as (subs & doms & Hloop & Hm & Hn).
  exists (subs, doms). auto.
Qed.

(** [parse_domains] reads nine fields of a domain by subscript: a domain
    dict without one of them makes it raise [KeyError] where the per-chain
    parser records [None].  When it returns, every chain block is accepted by
    the per-chain parser and the entries are the same domains in the same
    order, except that each carries [subgene_id = None] in place of the index
    of its subgene. *)
Theorem parse_domains_agrees :
  (forall d k,
     In k domain_required -> dict_get d k = None ->
     domain_dict (VDict d) = Raise KeyError /\
     forall i, parsed_domain i (VDict d) = Ok (domain_record i d) /\
               dict_get (domain_record i d) k = Some VNone) /\
  (forall json_data ds,
     parse_domains json_data = Ok ds ->
     exists chain_blocks sds,
       rbind (py_get json_data "pseuGID" (VList [])) py_iter = Ok chain_blocks /\
       Forall2 (fun b sd => parse_subgenes_and_domains b = Ok sd) chain_blocks sds /\
       map (fun r => dict_remove r "subgene_id") ds
       = flat_map (fun sd => map (fun r => dict_remove r "subgene_index") (snd sd)) sds /\
       Forall (fun r => dict_get r "subgene_id" = Some VNone) ds).
Proof.
  split.
  - intros d k Hin Hk. split.
    + unfold domain_dict. simpl. simpl in Hin.
      destruct Hin as [<- | [<- | [<- | [<- | [<- | [<- | [<- | [<- | [<- | []]]]]]]]]];
        rewrite ?Hk;
        repeat match goal with
               | |- context [dict_get d ?x] =>
                   destruct (dict_get d x); simpl; try reflexivity
               end;
        rewrite ?Hk in *; try discriminate; try reflexivity.
    + intros i. split; [reflexivity | ]. simpl in Hin.
      destruct Hin as [<- | [<- | [<- | [<- | [<- | [<- | [<- | [<- | [<- | []]]]]]]]]];
        simpl; unfold field; rewrite Hk; reflexivity.
  - intros json_data ds H. unfold parse_domains in H.
    destruct (py_get json_data "pseuGID" (VList [])) as [chains | ]; simpl in *;
      [ | discriminate].
    destruct (py_iter chains) as [chain_blocks | ]; simpl in *; [ | discriminate].
    destruct (rmapM chain_domains chain_blocks) as [per | ] eqn:E; simpl in H;
      [ | discriminate].
    injection H as <-. exists chain_blocks.
    clear - E. revert per E.
    induction chain_blocks as [ | b bs IH]; intros per E; simpl in E.
    + injection E as <-. exists []. simpl. repeat split; constructor.
    + destruct (chain_domains b) as [dsb | ] eqn:Eb; simpl in E; [ | discriminate].
      destruct (rmapM chain_domains bs) as [per' | ] eqn:Ebs; simpl in E;
        [ | discriminate].
      injection E as <-.
      destruct (chain_domains_agrees _ _ Eb) as (sd & Hsd & Hm & Hn).
      destruct (IH per' eq_refl) as (sds & _ & HF & Hm' & Hn').
      exists (sd :: sds). split; [reflexivity | ]. split; [ | split].
      * constructor; assumption.
      * simpl. rewrite map_app, Hm, Hm'. reflexivity.
      * simpl. apply Forall_app. auto.
Qed.

Lemma insert_subgenes_no_commit (subgenes : list row) (herv_chain_id : Z) :
  no_commit (insert_subgenes subgenes herv_chain_id).
Proof.
  induction subgenes as [ | s rest IH]; simpl.
  - apply no_commit_ret.
  - apply no_commit_bind; [apply no_commit_lift | intros name].
    apply no_commit_bind; [apply no_commit_lift | intros type].
    apply no_commit_bind; [apply no_commit_lift | intros score].
    apply no_commit_bind; [apply no_commit_lift | intros hotspot].
    apply no_commit_bind; [apply no_commit_execute | intros _]. exact IH.
Qed.

Lemma insert_subgenes_cons (d : row) (rest : list row) (herv_chain_id : Z) (c : conn) :
  insert_subgenes (subgene_fields d :: rest) herv_chain_id c
  = bind (execute "subgenes" (subgene_values herv_chain_id d))
         (fun _ => insert_subgenes rest herv_chain_id) c.
Proof. reflexivity. Qed.

Lemma insert_subgenes_fields (ds : list row) (herv_chain_id : Z) :
  forall c r c',
    insert_subgenes (map subgene_fields ds) herv_chain_id c = (r, c') ->
    r = Raise StoreError \/
    (r = Ok tt /\
     exists new,
       log c' = log c ++ new /\
       map e_table new = repeat "subgenes" (List.length ds) /\
       map e_row new = map (subgene_values herv_chain_id) ds).
Proof.
  induction ds as [ | d ds IH]; intros c r c' H.
  - simpl in H. injection H as <- <-. right. split; [reflexivity | ].
    exists []. now rewrite app_nil_r.
  - simpl map in H. rewrite insert_subgenes_cons in H. unfold bind in H.
    destruct (execute "subgenes" (subgene_values herv_chain_id d) c)
      as [[x | e] c1] eqn:He.
    + apply execute_ok in He. destruct He as [_ ->].
      destruct (IH _ _ _ H) as [-> | (-> & new & Hl & Ht & Hr)]; [now left | right].
      split; [reflexivity | ]. eexists (_ :: new). simpl in *.
      split; [rewrite Hl, <- app_assoc; reflexivity | ].
      split; [now rewrite Ht | now rewrite Hr].
    + apply execute_raise in He. destruct He as [-> ->].
      injection H as <- <-. now left.
Qed.

(** [insert_subgenes] never commits: whatever it did is gone when the
    connection is closed without a commit by the caller.  On the records of
    [parse_subgenes] it sends one row per record, the chain identifier
    first, and only the store can make it fail; a record without one of the
    four keys makes it raise [KeyError] before the record is sent. *)
Theorem insert_subgenes_effect :
  (forall subgenes herv_chain_id c r c',
     wf c ->
     insert_subgenes subgenes herv_chain_id c = (r, c') ->
     ncommitted c' = ncommitted c /\ committed (close c') = committed c) /\
  (forall json_data records,
     parse_subgenes json_data = Ok records ->
     exists ds, records = map subgene_fields ds) /\
  (forall ds herv_chain_id c r c',
     insert_subgenes (map subgene_fields ds) herv_chain_id c = (r, c') ->
     r = Raise StoreError \/
     (r = Ok tt /\
      exists new,
        log c' = log c ++ new /\
        map e_table new = repeat "subgenes" (List.length ds) /\
        map e_row new = map (subgene_values herv_chain_id) ds)) /\
  (forall subgene rest herv_chain_id c k,
     In k ["name"; "type"; "score"; "hotspot"] ->
     dict_get subgene k = None ->
     insert_subgenes (subgene :: rest) herv_chain_id c = (Raise KeyError, c)).
Proof.
  split; [ | split; [ | split]].
  - intros subgenes herv_chain_id c r c' Hwf H.
    destruct (insert_subgenes_no_commit _ _ _ _ _ H) as (Hn & _ & new & Hl).
    split; [exact Hn | ]. rewrite committed_close.
    eapply committed_same; eassumption.
  - intros json_data records H. unfold parse_subgenes in H.
    destruct (py_get json_data "pseuGID" (VList [])) as [chains | ]; simpl in H;
      [ | discriminate].
    destruct (py_iter chains) as [items | ]; simpl in H; [ | discriminate].
    destruct (rmapM chain_subgenes items) as [per | ] eqn:E; simpl in H;
      [ | discriminate].
    injection H as <-. clear - E. revert per E.
    induction items as [ | b bs IH]; intros per E; simpl in E.
    + injection E as <-. now exists [].
    + destruct (chain_subgenes b) as [rs | ] eqn:Eb; simpl in E; [ | discriminate].
      destruct (rmapM chain_subgenes bs) as [per' | ] eqn:Ebs; simpl in E;
        [ | discriminate].
      injection E as <-. destruct (IH per' eq_refl) as (ds' & Hds').
      unfold chain_subgenes in Eb.
      destruct (py_get b "subgenes" (VList [])) as [sgs | ]; simpl in Eb;
        [ | discriminate].
      destruct (py_iter sgs) as [sitems | ]; simpl in Eb; [ | discriminate].
      destruct (rmapM_dicts_inv _ _ _ _ subgene_dict_inv Eb) as (ds & _ & ->).
      exists (ds ++ ds'). simpl. now rewrite Hds', map_app.
  - exact insert_subgenes_fields.
  - intros subgene rest herv_chain_id c k Hin Hk. simpl.
    unfold bind, lift, row_item. simpl in Hin.
    destruct Hin as [<- | [<- | [<- | [<- | []]]]]; rewrite ?Hk;
      repeat match goal with
             | |- context [dict_get subgene ?x] =>
                 destruct (dict_get subgene x); try reflexivity
             end;
      rewrite ?Hk in *; try discriminate; try reflexivity.
Qed.

(** *** The command with a connection *)

(** Once [psycopg2.connect] has returned, [main] closes the connection
    whatever happens next and prints that it did; an [Exception] raised by
    the reading of the document or by the load is printed and not
    propagated; after the close the store holds what it held before, plus the
    rows the load committed. *)
Theorem main_closes_connection (w : world) (input : string) (c : conn) :
  w_parse_args w = Ok input ->
  w_connect w = Ok c ->
  wf c ->
  exists c1 mid,
    ms_conn (main w) = Some (close c1) /\
    closed (close c1) = true /\
    log (close c1) = committed c1 /\
    (exists more, committed (close c1) = committed c ++ more) /\
    ms_output (main w) = [PrintLoading input; PrintConnected] ++ mid ++ [PrintClosed] /\
    ((mid = [] /\ ms_result (main w) = Ok tt) \/
     (exists e, is_Exception e = true /\ mid = [PrintError e] /\
                ms_result (main w) = Ok tt) \/
     (exists e, is_Exception e = false /\ mid = [] /\
                ms_result (main w) = Raise e)).
Proof.
  intros Ha Hc Hwf. unfold main, main_try. rewrite Ha, Hc.
  destruct (w_load_json w input) as [data | e].
  - destruct (parse_and_load_retroctector data c) as [r c1] eqn:Hload.
    destruct (grows_committed _ _ _ _ (grows_parse_and_load data) Hwf Hload)
      as (more & Hmore).
    assert (Hmore' : exists more, committed (close c1) = committed c ++ more)
      by (exists more; now rewrite committed_close).
    destruct r as [[] | e]; unfold main_except; simpl.
    + exists c1, []. repeat split; auto.
    + destruct (is_Exception e) eqn:E; simpl.
      * exists c1, [PrintError e]. repeat split; auto.
        right. left. now exists e.
      * exists c1, []. repeat split; auto.
        right. right. now exists e.
  - assert (Hmore' : exists more, committed (close c) = committed c ++ more)
      by (exists []; now rewrite committed_close, app_nil_r).
    unfold main_except; simpl. destruct (is_Exception e) eqn:E; simpl.
    + exists c, [PrintError e]. repeat split; auto.
      right. left. now exists e.
    + exists c, []. repeat split; auto.
      right. right. now exists e.
Qed.

(** *** The values of the run metadata *)

Ltac find_column := simpl; repeat (first [left; reflexivity | right]).

Lemma py_int_result (x v : pyval) : py_int x = Ok v -> exists z, v = VInt z.
Proof.
  destruct x; simpl; try discriminate.
  - intros H. injection H as <-. eauto.
  - intros H. injection H as <-. eauto.
  - destruct (Z_of_float f); simpl; [ | discriminate].
    intros H. injection H as <-. eauto.
  - destruct (str_to_int s); [ | discriminate].
    intros H. injection H as <-. eauto.
Qed.

Lemma py_float_result (x v : pyval) : py_float x = Ok v -> exists f, v = VFloat f.
Proof.
  destruct x; simpl; try discriminate.
  - intros H. injection H as <-. eauto.
  - destruct (float_of_Z z); simpl; [ | discriminate].
    intros H. injection H as <-. eauto.
  - intros H. injection H as <-. eauto.
  - destruct (str_to_float s); [ | discriminate].
    intros H. injection H as <-. eauto.
Qed.

Lemma parse_datetime_result (x v : pyval) :
  parse_datetime x = Ok v ->
  v = VNone \/ exists t, valid_datetime t = true /\ v = VDatetime t.
Proof.
  unfold parse_datetime. destruct (strptime x) as [t | e] eqn:E.
  - intros H. injection H as <-. right. exists t.
    split; [exact (strptime_valid _ _ E) | reflexivity].
  - destruct (is_Exception e); [ | discriminate].
    intros H. injection H as <-. now left.
Qed.

Lemma conv_column (alt src : pyval) (r : row) (col k : string)
    (conv : pyval -> result pyval) (dflt : pyval) :
  eval_table alt src run_table = Ok r ->
  In (col, FConv conv k dflt) run_table ->
  exists x v, py_get src k dflt = Ok x /\ conv x = Ok v /\ dict_get r col = Some v.
Proof.
  intros H Hin.
  destruct (eval_table_column _ _ _ _ col _ run_table_columns H Hin) as (v & Hv & He).
  simpl in He. destruct (py_get src k dflt) as [x | ]; simpl in He; [ | discriminate].
  now exists x, v.
Qed.

Lemma parse_run_metadata_inv (json_data : pyval) (r : row) :
  parse_run_metadata json_data = Ok r ->
  exists header footer,
    py_get json_data "header" (VDict []) = Ok header /\
    py_get json_data "footer" (VDict []) = Ok footer /\
    eval_table header footer run_table = Ok r.
Proof.
  intros H. rewrite parse_run_metadata_table in H.
  destruct (py_get json_data "header" (VDict [])) as [header | ]; simpl in H;
    [ | discriminate].
  destruct (py_get json_data "footer" (VDict [])) as [footer | ]; simpl in H;
    [ | discriminate].
  now exists header, footer.
Qed.

(** The run metadata a document maps to has typed columns: the seven
    counters are integers, the six thresholds and factors are floats,
    [sdfactor] is a boolean, and the two timestamps are valid instants or
    [None]. *)
Theorem run_metadata_types (json_data : pyval) (r : row) :
  parse_run_metadata json_data = Ok r ->
  (forall col k, In (col, k) run_int_columns ->
                 exists z, dict_get r col = Some (VInt z)) /\
  (forall col k, In (col, k) run_float_columns ->
                 exists f, dict_get r col = Some (VFloat f)) /\
  (exists b, dict_get r "sdfactor" = Some (VBool b)) /\
  (forall col k, In (col, k) run_datetime_columns ->
     dict_get r col = Some VNone \/
     exists t, valid_datetime t = true /\ dict_get r col = Some (VDatetime t)).
Proof.
  intros H. destruct (parse_run_metadata_inv _ _ H) as (header & footer & _ & _ & Ht).
  split; [ | split; [ | split]].
  - intros col k Hin.
    assert (Hc : In (col, FConv py_int k (VInt 0)) run_table).
    { simpl in Hin.
      repeat (destruct Hin as [Hin | Hin];
              [injection Hin as <- <-; find_column | ]).
      contradiction. }
    destruct (conv_column _ _ _ _ _ _ _ Ht Hc) as (x & v & _ & Hv & Hr).
    destruct (py_int_result _ _ Hv) as (z & ->). now exists z.
  - intros col k Hin.
    assert (Hc : In (col, FConv py_float k (VInt 0)) run_table).
    { simpl in Hin.
      repeat (destruct Hin as [Hin | Hin];
              [injection Hin as <- <-; find_column | ]).
      contradiction. }
    destruct (conv_column _ _ _ _ _ _ _ Ht Hc) as (x & v & _ & Hv & Hr).
    destruct (py_float_result _ _ Hv) as (f & ->). now exists f.
  - assert (Hc : In ("sdfactor", FConv (fun x => Ok (to_bool x)) "SDFactor" (VBool false))
                    run_table) by find_column.
    destruct (conv_column _ _ _ _ _ _ _ Ht Hc) as (x & v & _ & Hv & Hr).
    injection Hv as <-. rewrite Hr.
    destruct x; simpl; eauto.
  - intros col k Hin.
    assert (Hc : In (col, FConv parse_datetime k VNone) run_table).
    { simpl in Hin.
      repeat (destruct Hin as [Hin | Hin];
              [injection Hin as <- <-; find_column | ]).
      contradiction. }
    destruct (conv_column _ _ _ _ _ _ _ Ht Hc) as (x & v & _ & Hv & Hr).
    destruct (parse_datetime_result _ _ Hv) as [-> | (t & Hvalid & ->)];
      [now left | right; now exists t].
Qed.

(** The four columns with a fallback take the footer's value when it is
    true, and otherwise the header's, so that a footer value that is
    present but empty, zero or false is replaced by the header's;
    [selected] comes from the header alone. *)
Theorem run_metadata_fallback (json_data : pyval) (header footer r : row) :
  py_get json_data "header" (VDict []) = Ok (VDict header) ->
  py_get json_data "footer" (VDict []) = Ok (VDict footer) ->
  parse_run_metadata json_data = Ok r ->
  (forall col k hk dflt,
     In (col, k, hk, dflt) run_fallback_columns ->
     dict_get r col
     = Some (if py_truthy (field footer k) then field footer k
             else match dict_get header hk with
                  | Some x => x
                  | None => dflt
                  end)) /\
  dict_get r "selected" = Some (field header "Selected").
Proof.
  intros Hh Hf H. rewrite (parse_run_metadata_sections _ _ _ Hh Hf) in H. split.
  - intros col k hk dflt Hin.
    assert (Hc : In (col, FOr k hk dflt) run_table).
    { simpl in Hin.
      repeat (destruct Hin as [Hin | Hin];
              [injection Hin as <- <- <- <-; find_column | ]).
      contradiction. }
    destruct (eval_table_column _ _ _ _ col _ run_table_columns H Hc) as (v & Hv & He).
    rewrite Hv. f_equal. simpl in He. unfold py_or in He. unfold field.
    destruct (py_truthy match dict_get footer k with
                        | Some x => x
                        | None => VNone
                        end); now injection He.
  - assert (Hc : In ("selected", FAltGet "Selected") run_table) by find_column.
    destruct (eval_table_column _ _ _ _ "selected" _ run_table_columns H Hc)
      as (v & Hv & He).
    rewrite Hv. f_equal. simpl in He. now injection He.
Qed.

(** A numeric field that is present but null is not defaulted: the
    mapping of the run metadata fails, where the absent field gives 0. *)
Theorem run_metadata_null_number (json_data : pyval) (footer : row) (col k : string) :
  py_get json_data "footer" (VDict []) = Ok (VDict footer) ->
  In (col, k) (run_int_columns ++ run_float_columns) ->
  dict_get footer k = Some VNone ->
  exists e, parse_run_metadata json_data = Raise e.
Proof.
  intros Hf Hin Hk.
  destruct (parse_run_metadata json_data) as [r | e] eqn:H; [ | now exists e].
  exfalso. destruct (parse_run_metadata_inv _ _ H) as (header & footer' & _ & Hf' & Ht).
  assert (footer' = VDict footer) by congruence. subst footer'.
  apply in_app_or in Hin. destruct Hin as [Hin | Hin].
  - assert (Hc : In (col, FConv py_int k (VInt 0)) run_table).
    { simpl in Hin.
      repeat (destruct Hin as [Hin | Hin];
              [injection Hin as <- <-; find_column | ]).
      contradiction. }
    destruct (conv_column _ _ _ _ _ _ _ Ht Hc) as (x & v & Hx & Hv & _).
    simpl in Hx. rewrite Hk in Hx. injection Hx as <-. discriminate.
  - assert (Hc : In (col, FConv py_float k (VInt 0)) run_table).
    { simpl in Hin.
      repeat (destruct Hin as [Hin | Hin];
              [injection Hin as <- <-; find_column | ]).
      contradiction. }
    destruct (conv_column _ _ _ _ _ _ _ Ht Hc) as (x & v & Hx & Hv & _).
    simpl in Hx. rewrite Hk in Hx. injection Hx as <-. discriminate.
Qed.

(** *** The load in terms of the document *)

Lemma listed_ok (v : pyval) (key : string) (items : list pyval) :
  rbind (py_get v key (VList [])) py_iter = Ok items -> listed v key = items.
Proof. unfold listed. now intros ->. Qed.

Lemma chain_ltrs_loop_rows (chains : list pyval) :
  forall k full,
    chain_ltrs_loop chains k = Ok full ->
    exists per_chain : list (list row),
      full = List.concat per_chain /\
      List.length per_chain = List.length chains /\
      forall i chain rows,
        nth_error chains i = Some chain -> nth_error per_chain i = Some rows ->
        exists items,
          rbind (py_get chain "LTRs" (VList [])) py_iter = Ok items /\
          Forall2 (fun item r => full_ltr_entry (k + Z.of_nat i) item = Ok r)
                  items rows.
Proof.
  induction chains as [ | chain rest IH]; intros k full H; simpl in H.
  - injection H as <-. exists []. split; [reflexivity | ]. split; [reflexivity | ].
    intros i chain rows Hn. destruct i; discriminate.
  - destruct (py_get chain "LTRs" (VList [])) as [ls | ] eqn:Eg; simpl in H;
      [ | discriminate].
    destruct (py_iter ls) as [items | ] eqn:Ei; simpl in H; [ | discriminate].
    destruct (rmapM (full_ltr_entry k) items) as [entries | ] eqn:Ee; simpl in H;
      [ | discriminate].
    destruct (chain_ltrs_loop rest (k + 1)) as [more | ] eqn:Em; simpl in H;
      [ | discriminate].
    injection H as <-.
    destruct (IH _ _ Em) as (per_chain & -> & Hlen & Hrows).
    exists (entries :: per_chain). split; [reflexivity | ].
    split; [simpl; now rewrite Hlen | ].
    intros i ch rows Hc Hr. destruct i as [ | i]; simpl in Hc, Hr.
    + injection Hc as <-. injection Hr as <-. exists items.
      rewrite Eg. simpl. split; [exact Ei | ].
      rewrite Z.add_0_r. exact (rmapM_Forall2 _ _ _ Ee).
    + destruct (Hrows i ch rows Hc Hr) as (its & Hi & HF).
      exists its. split; [exact Hi | ].
      replace (k + Z.of_nat (S i)) with (k + 1 + Z.of_nat i) by lia. exact HF.
Qed.

Lemma chain_ltrs_loop_length (chains : list pyval) :
  forall k full,
    chain_ltrs_loop chains k = Ok full ->
    List.length full
    = List.length (flat_map (fun chain => listed chain "LTRs") chains).
Proof.
  induction chains as [ | chain rest IH]; intros k full H; simpl in H.
  - now injection H as <-.
  - destruct (py_get chain "LTRs" (VList [])) as [ls | ] eqn:Eg; simpl in H;
      [ | discriminate].
    destruct (py_iter ls) as [items | ] eqn:Ei; simpl in H; [ | discriminate].
    destruct (rmapM (full_ltr_entry k) items) as [entries | ] eqn:Ee; simpl in H;
      [ | discriminate].
    destruct (chain_ltrs_loop rest (k + 1)) as [more | ] eqn:Em; simpl in H;
      [ | discriminate].
    injection H as <-. cbn [flat_map].
    rewrite !length_app, (IH _ _ Em), (rmapM_length _ _ _ Ee).
    rewrite (listed_ok chain "LTRs" items) by (rewrite Eg; exact Ei).
    reflexivity.
Qed.

(** What [parse_ltrs] returns, entry by entry of the document. *)
Lemma parse_ltrs_rows (json_data : pyval) (ltrs : list row) :
  parse_ltrs json_data = Ok ltrs ->
  List.length ltrs = List.length (document_ltrs json_data) /\
  exists (solo_items chain_blocks : list pyval) (solo : list row)
         (per_chain : list (list row)),
    rbind (py_get json_data "soloLTRs" (VList [])) py_iter = Ok solo_items /\
    rbind (py_get json_data "pseuGID" (VList [])) py_iter = Ok chain_blocks /\
    ltrs = solo ++ List.concat per_chain /\
    Forall2 (fun item r => solo_ltr_entry item = Ok r) solo_items solo /\
    List.length per_chain = List.length chain_blocks /\
    forall i chain rows,
      nth_error chain_blocks i = Some chain -> nth_error per_chain i = Some rows ->
      exists items,
        rbind (py_get chain "LTRs" (VList [])) py_iter = Ok items /\
        Forall2 (fun item r => full_ltr_entry (Z.of_nat i) item = Ok r) items rows.
Proof.
  unfold parse_ltrs, document_ltrs, listed. intros H.
  destruct (py_get json_data "soloLTRs" (VList [])) as [sl | ]; simpl in *;
    [ | discriminate].
  destruct (py_iter sl) as [solo_items | ]; simpl in *; [ | discriminate].
  destruct (rmapM solo_ltr_entry solo_items) as [solo | ] eqn:Eso; simpl in H;
    [ | discriminate].
  destruct (py_get json_data "pseuGID" (VList [])) as [ch | ]; simpl in *;
    [ | discriminate].
  destruct (py_iter ch) as [chain_blocks | ]; simpl in *; [ | discriminate].
  destruct (chain_ltrs_loop chain_blocks 0) as [full | ] eqn:Ef; simpl in H;
    [ | discriminate].
  injection H as <-. split.
  - rewrite !length_app, (rmapM_length _ _ _ Eso).
    now rewrite (chain_ltrs_loop_length _ _ _ Ef).
  - destruct (chain_ltrs_loop_rows _ _ _ Ef) as (per_chain & -> & Hlen & Hrows).
    exists solo_items, chain_blocks, solo, per_chain.
    split; [reflexivity | ]. split; [reflexivity | ]. split; [reflexivity | ].
    split; [exact (rmapM_Forall2 _ _ _ Eso) | ]. split; [exact Hlen | ].
    intros i chain rows Hc Hr. exact (Hrows i chain rows Hc Hr).
Qed.

(** C2: in a load that completes, every chain iteration inserts the LTR
    set of the whole document, each row carrying the identifier generated
    for the chain of that iteration.  The set is read off the document: the
    row of every entry of [soloLTRs], then for every chain block, in order,
    the row of every entry of its [LTRs], so not only those of the chain of
    the iteration.  With n chain blocks the table [ltr] receives n copies of
    the set, the k-th with the identifier of the k-th chain row, n times the
    number of LTR entries of the document in all. *)
Theorem ltr_set_inserted_per_chain (data : pyval) (c c' : conn) :
  parse_and_load_retroctector data c = (Ok tt, c') ->
  exists (chain_blocks : list pyval) (new : list entry),
    rbind (py_get data "pseuGID" (VList [])) py_iter = Ok chain_blocks /\
    log c' = log c ++ new /\
    List.length (filter (is_table "herv_chain") new) = List.length chain_blocks /\
    List.length (filter (is_table "ltr") new)
    = (List.length chain_blocks * List.length (document_ltrs data))%nat /\
    (forall herv_chain_id r,
       dict_get (ltr_row herv_chain_id r) "herv_chain_id" = Some (VInt herv_chain_id)) /\
    (chain_blocks <> [] ->
     exists (solo_items : list pyval) (solo : list row) (per_chain : list (list row)),
       rbind (py_get data "soloLTRs" (VList [])) py_iter = Ok solo_items /\
       Forall2 (fun item r => solo_ltr_entry item = Ok r) solo_items solo /\
       List.length per_chain = List.length chain_blocks /\
       (forall i chain rows,
          nth_error chain_blocks i = Some chain -> nth_error per_chain i = Some rows ->
          exists items,
            rbind (py_get chain "LTRs" (VList [])) py_iter = Ok items /\
            Forall2 (fun item r => full_ltr_entry (Z.of_nat i) item = Ok r)
                    items rows) /\
       map e_row (filter (is_table "ltr") new)
       = flat_map (fun herv_chain_id =>
                     map (ltr_row herv_chain_id) (solo ++ List.concat per_chain))
                  (map e_id (filter (is_table "herv_chain") new))).
Proof.
  intros H.
  destruct (load_ltr_rows _ _ _ H)
    as (chain_blocks & new & Hb & Hl & Hlen & Hnil & Hex & Hrows).
  exists chain_blocks, new.
  split; [exact Hb | ]. split; [exact Hl | ]. split; [exact Hlen | ].
  split; [ | split; [intros hid r; apply dict_get_set_same | ]].
  - destruct chain_blocks as [ | b rest].
    + now rewrite (Hnil eq_refl).
    + destruct Hex as (ltrs & Hltrs); [discriminate | ].
      rewrite <- (length_map e_row), (Hrows ltrs Hltrs).
      rewrite (length_flat_map_const _ _ (List.length ltrs))
        by (intros a; apply length_map).
      rewrite length_map, Hlen.
      now rewrite (proj1 (parse_ltrs_rows _ _ Hltrs)).
  - intros Hne. destruct (Hex Hne) as (ltrs & Hltrs).
    destruct (parse_ltrs_rows _ _ Hltrs)
      as (_ & solo_items & blocks & solo & per_chain & Hs & Hb' & -> & Hsolo & Hpl & Hper).
    assert (blocks = chain_blocks) by congruence. subst blocks.
    exists solo_items, solo, per_chain.
    split; [exact Hs | ]. split; [exact Hsolo | ]. split; [exact Hpl | ].
    split; [exact Hper | ]. exact (Hrows _ Hltrs).
Qed.

(** The number of records of a chain block, by what the block holds. *)
Lemma subgene_sources_domains (items : list pyval) (tree : chain_tree) :
  Forall2 subgene_source items tree ->
  List.length (flat_map (fun subgene => listed subgene "domains") items)
  = tree_domain_count tree.
Proof.
  unfold tree_domain_count.
  induction 1 as [ | item t items tree (_ & Hd) HF IH]; simpl; [reflexivity | ].
  rewrite !length_app, IH, (listed_ok _ _ _ Hd), length_map. reflexivity.
Qed.

Lemma parse_subgenes_and_domains_counts (chain_block : pyval) (subs doms : list row) :
  parse_subgenes_and_domains chain_block = Ok (subs, doms) ->
  List.length subs = List.length (listed chain_block "subgenes") /\
  List.length doms = List.length (block_domains chain_block).
Proof.
  intros H.
  destruct (parse_subgenes_and_domains_inv _ _ _ H) as (items & tree & Hi & HF & -> & ->).
  unfold block_domains. rewrite (listed_ok _ _ _ Hi). split.
  - rewrite tree_subgene_records_length. symmetry. exact (Forall2_length HF).
  - rewrite tree_domain_records_length. symmetry.
    exact (subgene_sources_domains _ _ HF).
Qed.

Lemma motifs_of_type_count (chain_block : pyval) (motif_type : string) (rs : list row) :
  motifs_of_type chain_block motif_type = Ok rs ->
  List.length rs
  = List.length (listed chain_block (motif_type ++ "_motifs")%string).
Proof.
  intros H. destruct (motifs_of_type_inv _ _ _ H) as (ds & Hd & ->).
  rewrite (listed_ok _ _ _ Hd), !length_map. reflexivity.
Qed.

Lemma parse_motifs_count (chain_block : pyval) (ms : list row) :
  parse_motifs chain_block = Ok ms ->
  List.length ms = List.length (block_motifs chain_block).
Proof.
  unfold parse_motifs, block_motifs, motif_types. simpl. intros H.
  destruct (motifs_of_type chain_block "Slippery") as [r1 | ] eqn:E1;
    simpl in H; [ | discriminate].
  destruct (motifs_of_type chain_block "PseudoKnot") as [r2 | ] eqn:E2;
    simpl in H; [ | discriminate].
  destruct (motifs_of_type chain_block "SpliceAcceptor") as [r3 | ] eqn:E3;
    simpl in H; [ | discriminate].
  destruct (motifs_of_type chain_block "SpliceDonor") as [r4 | ] eqn:E4;
    simpl in H; [ | discriminate].
  injection H as <-.
  rewrite !length_app.
  rewrite (motifs_of_type_count _ _ _ E1), (motifs_of_type_count _ _ _ E2),
    (motifs_of_type_count _ _ _ E3), (motifs_of_type_count _ _ _ E4).
  reflexivity.
Qed.

Lemma load_chain_document_tables (data : pyval) (pk : Z) (chain_block : pyval)
    (c c' : conn) :
  load_chain data pk chain_block c = (Ok tt, c') ->
  block_statement_tables data chain_block = document_statement_tables data chain_block.
Proof.
  intros H.
  destruct (load_chain_entries _ _ _ _ _ H)
    as (md & hid & subs & doms & motifs & ltrs & sg & dm & mo & lt &
        _ & Hsd & Hmo & Hltr & _).
  unfold block_statement_tables, document_statement_tables.
  rewrite Hsd, Hmo, Hltr. simpl fst. simpl snd.
  destruct (parse_subgenes_and_domains_counts _ _ _ Hsd) as (-> & ->).
  rewrite (parse_motifs_count _ _ Hmo), (proj1 (parse_ltrs_rows _ _ Hltr)).
  reflexivity.
Qed.

Lemma load_chains_document_tables (data : pyval) (pk : Z) (chain_blocks : list pyval) :
  forall c c',
    load_chains data pk chain_blocks c = (Ok tt, c') ->
    flat_map (block_statement_tables data) chain_blocks
    = flat_map (document_statement_tables data) chain_blocks.
Proof.
  induction chain_blocks as [ | b rest IH]; intros c c' H; simpl in H; [reflexivity | ].
  apply bind_ok in H. destruct H as ([] & c1 & Hb & H).
  simpl. now rewrite (load_chain_document_tables _ _ _ _ _ Hb), (IH _ _ H).
Qed.

Lemma load_chains_statements (data : pyval) (pk : Z) (chain_blocks : list pyval)
    (c c' : conn) :
  load_chains data pk chain_blocks c = (Ok tt, c') ->
  exists new,
    log c' = log c ++ new /\
    map e_table new = flat_map (document_statement_tables data) chain_blocks /\
    (ncommitted c = List.length (log c) -> ncommitted c' = List.length (log c')).
Proof.
  intros H. destruct (load_chains_tables _ _ _ _ _ H) as (new & Hl & Ht & Hn).
  exists new. split; [exact Hl | ]. split; [ | exact Hn].
  now rewrite Ht, (load_chains_document_tables _ _ _ _ _ H).
Qed.

(** A completed load sends its statements in a fixed order: the run row,
    then for each chain block of the document, in source order, the chain
    row, one [subgenes] row per entry of the block's [subgenes], one
    [domains] row per entry of the [domains] of those subgenes, one [motifs]
    row per entry of the block's four motif lists, and one [ltr] row per LTR
    entry of the whole document; when the load returns nothing is left
    uncommitted. *)
Theorem load_statement_order (data : pyval) (c c' : conn) :
  parse_and_load_retroctector data c = (Ok tt, c') ->
  exists new,
    log c' = log c ++ new /\
    map e_table new
    = "run_metadata" :: flat_map (document_statement_tables data)
                                 (listed data "pseuGID") /\
    committed c' = log c'.
Proof.
  unfold parse_and_load_retroctector. intros H.
  apply bind_ok in H. destruct H as (md & c1 & Hmd & H).
  apply lift_inv in Hmd. destruct Hmd as [Hmd ->].
  apply bind_ok in H. destruct H as (pk & c2 & Hrun & H).
  unfold insert_run_metadata in Hrun.
  apply bind_ok in Hrun. destruct Hrun as (x & c3 & He & Hrun).
  apply bind_ok in Hrun. destruct Hrun as (u & c4 & Hc & Hrun).
  apply execute_ok in He. destruct He as [_ ->].
  apply commit_ok in Hc. subst c4. injection Hrun as -> <-.
  apply bind_ok in H. destruct H as (blocks & c5 & Hb & H).
  apply lift_inv in Hb. destruct Hb as [Hb ->].
  apply bind_ok in H. destruct H as (chain_blocks & c6 & Hi & H).
  apply lift_inv in Hi. destruct Hi as [Hi ->].
  destruct (load_chains_statements _ _ _ _ _ H) as (new & Hl & Ht & Hn).
  exists (mk_entry "run_metadata" md pk :: new).
  split; [rewrite Hl; simpl; rewrite <- app_assoc; reflexivity | ].
  split.
  - simpl. rewrite Ht. unfold listed. unfold get_herv_chain_blocks in Hb.
    rewrite <- Hb. simpl. rewrite <- Hi. reflexivity.
  - apply committed_all. apply Hn. reflexivity.
Qed.

(** *** Commits during the load *)

Lemma insert_run_metadata_ok (metadata : row) (c c' : conn) (id : Z) :
  insert_run_metadata metadata c = (Ok id, c') ->
  log c' = log c ++ [mk_entry "run_metadata" metadata id] /\
  ncommitted c' = List.length (log c').
Proof.
  unfold insert_run_metadata. intros H.
  apply bind_ok in H. destruct H as (x & c1 & He & H).
  apply bind_ok in H. destruct H as (u & c2 & Hc & H).
  apply execute_ok in He. destruct He as [_ ->].
  apply commit_ok in Hc. subst c2. injection H as <- <-. simpl. auto.
Qed.

(** The load up to the chain blocks. *)
Lemma parse_and_load_chains (data : pyval) (c c1 : conn) (metadata : row) (pk : Z)
    (chain_blocks : list pyval) :
  parse_run_metadata data = Ok metadata ->
  insert_run_metadata metadata c = (Ok pk, c1) ->
  rbind (py_get data "pseuGID" (VList [])) py_iter = Ok chain_blocks ->
  parse_and_load_retroctector data c = load_chains data pk chain_blocks c1.
Proof.
  intros Hmd Hrun Hb.
  unfold parse_and_load_retroctector, get_herv_chain_blocks.
  unfold bind at 1. unfold lift at 1. rewrite Hmd.
  unfold bind at 1. rewrite Hrun.
  destruct (py_get data "pseuGID" (VList [])) as [blocks | ]; [ | discriminate].
  simpl in Hb. unfold bind at 1. unfold lift at 1.
  unfold bind at 1. unfold lift at 1. rewrite Hb. reflexivity.
Qed.

Lemma firstn_past {A : Type} (l new : list A) (n : nat) :
  (List.length l <= n)%nat ->
  firstn n (l ++ new) = l ++ firstn (n - List.length l) new.
Proof.
  intros H. rewrite firstn_app. f_equal. apply firstn_all2. exact H.
Qed.

(** A load that fails while it processes a chain block, the blocks
    before it having been processed. *)
Lemma load_fails_in_chain (data : pyval) (c c1 c2 c3 : conn) (metadata : row)
    (pk : Z) (before after : list pyval) (chain_block : pyval) (e : pyexc) :
  parse_run_metadata data = Ok metadata ->
  insert_run_metadata metadata c = (Ok pk, c1) ->
  rbind (py_get data "pseuGID" (VList [])) py_iter
    = Ok (before ++ chain_block :: after) ->
  load_chains data pk before c1 = (Ok tt, c2) ->
  load_chain data pk chain_block c2 = (Raise e, c3) ->
  parse_and_load_retroctector data c = (Raise e, c3) /\
  ncommitted c2 = List.length (log c2) /\
  exists prior,
    log c2 = log c ++ mk_entry "run_metadata" metadata pk :: prior /\
    map e_table prior = flat_map (document_statement_tables data) before.
Proof.
  intros Hmd Hrun Hb Hbefore Hchain.
  destruct (insert_run_metadata_ok _ _ _ _ Hrun) as (Hl1 & Hn1).
  destruct (load_chains_statements _ _ _ _ _ Hbefore) as (prior & Hl2 & Ht & Hn2).
  split; [ | split; [exact (Hn2 Hn1) | ]].
  - rewrite (parse_and_load_chains _ _ _ _ _ _ Hmd Hrun Hb).
    rewrite load_chains_app. unfold bind at 1. rewrite Hbefore.
    simpl. unfold bind at 1. rewrite Hchain. reflexivity.
  - exists prior. split; [ | exact Ht].
    rewrite Hl2, Hl1, <- app_assoc. reflexivity.
Qed.

(** A batch of statements followed by one commit that fails on the way:
    the commit point has not moved. *)
Lemma batch_raise (rows : M unit) (c c' : conn) (e : pyexc) :
  no_commit rows ->
  bind rows (fun _ => commit) c = (Raise e, c') ->
  ncommitted c' = ncommitted c /\ exists new, log c' = log c ++ new.
Proof.
  intros Hrows H. apply bind_raise in H. destruct H as [H | (x & c1 & Hr & H)].
  - destruct (Hrows _ _ _ H) as (Hn & _ & Hl). auto.
  - apply commit_raise in H. destruct H as [_ ->].
    destruct (Hrows _ _ _ Hr) as (Hn & _ & Hl). auto.
Qed.

Lemma committed_before (c c' : conn) (new : list entry) :
  ncommitted c = List.length (log c) ->
  ncommitted c' = ncommitted c ->
  log c' = log c ++ new ->
  committed (close c') = log c.
Proof.
  intros Hall Hn Hl. rewrite committed_close.
  rewrite (committed_same c c' new); [now apply committed_all | | exact Hn | exact Hl].
  unfold wf. lia.
Qed.

(** The statements of a subgene/domain batch that completes. *)
Lemma batch_entries (chain_block : pyval) (subs doms : list row) (herv_chain_id : Z)
    (c c' : conn) :
  parse_subgenes_and_domains chain_block = Ok (subs, doms) ->
  insert_subgenes_domains subs doms herv_chain_id c = (Ok tt, c') ->
  exists batch,
    log c' = log c ++ batch /\
    map e_table batch
    = repeat "subgenes" (List.length (listed chain_block "subgenes"))
      ++ repeat "domains" (List.length (block_domains chain_block)).
Proof.
  intros Hp H.
  destruct (parse_subgenes_and_domains_counts _ _ _ Hp) as (Hcs & Hcd).
  destruct (parse_subgenes_and_domains_inv _ _ _ Hp) as (items & tree & _ & _ & Es & Ed).
  unfold insert_subgenes_domains in H.
  apply bind_ok in H. destruct H as (m & c1 & Hs & H).
  apply bind_ok in H. destruct H as ([] & c2 & Hd & Hc).
  apply commit_ok in Hc.
  rewrite Es in Hs. apply subgene_rows_inserted in Hs; [ | reflexivity].
  destruct Hs as (ids & Hlen & Hlog1 & _ & _ & -> & _).
  rewrite Ed in Hd.
  apply (domain_rows_inserted tree ids 0) in Hd;
    [ | exact Hlen | intros i id; apply index_map_resolves].
  destruct Hd as [Hd | (_ & dm & Hlog2 & Htd & Hrd & _)]; [discriminate | ].
  destruct (subgene_entries_facts herv_chain_id tree ids Hlen) as (Hsl & _ & Hsf).
  destruct (domain_rows_facts tree ids 0 Hlen) as (Hdl & _).
  exists (subgene_entries herv_chain_id tree ids ++ dm).
  split; [subst c'; simpl; rewrite Hlog2, Hlog1, <- app_assoc; reflexivity | ].
  rewrite map_app.
  assert (Hsg : Forall (fun e => e_table e = "subgenes")
                       (subgene_entries herv_chain_id tree ids)).
  { eapply Forall_impl; [ | exact Hsf]. intros e He. exact (proj1 He). }
  rewrite (same_table_repeat _ _ Hsg), (same_table_repeat _ _ Htd).
  rewrite Hsl, <- Hcs, Es, tree_subgene_records_length.
  rewrite <- (length_map e_row dm), Hrd, Hdl, <- Hcd, Ed. reflexivity.
Qed.

(** C3: the load commits after the run insert, after each chain's
    subgene/domain batch and after each chain's motif batch, and a
    subgene/domain batch in which something fails leaves the commit point
    where it was.  So when the load fails while it processes a chain block,
    it stops there, and after the connection is closed the store holds the
    run row and every row of the chain blocks processed before, followed by
    what the failing iteration had committed; when the failure is in the
    subgene/domain batch, that is the chain row alone, and none of the rows
    the batch sent is in the store; when it is in the motif batch, the
    subgene and domain rows of the chain are in the store and no motif row of
    the batch is; when it is in the insert of the LTRs, the motif rows are in
    the store too. *)
Theorem commit_per_grouping :
  (forall metadata c id c',
     insert_run_metadata metadata c = (Ok id, c') ->
     log c' = log c ++ [mk_entry "run_metadata" metadata id] /\
     committed c' = log c') /\
  (forall subgenes domains herv_chain_id c c',
     insert_subgenes_domains subgenes domains herv_chain_id c = (Ok tt, c') ->
     committed c' = log c') /\
  (forall motifs herv_chain_id c c',
     insert_motifs motifs herv_chain_id c = (Ok tt, c') ->
     committed c' = log c') /\
  (forall subgenes domains herv_chain_id c e c',
     wf c ->
     insert_subgenes_domains subgenes domains herv_chain_id c = (Raise e, c') ->
     committed c' = committed c /\ committed (close c') = committed c) /\
  (forall data c metadata pk c1 before chain_block after c2 e c3,
     parse_run_metadata data = Ok metadata ->
     insert_run_metadata metadata c = (Ok pk, c1) ->
     rbind (py_get data "pseuGID" (VList [])) py_iter
       = Ok (before ++ chain_block :: after) ->
     load_chains data pk before c1 = (Ok tt, c2) ->
     load_chain data pk chain_block c2 = (Raise e, c3) ->
     parse_and_load_retroctector data c = (Raise e, c3) /\
     exists prior kept lost,
       log c2 = log c ++ mk_entry "run_metadata" metadata pk :: prior /\
       map e_table prior = flat_map (document_statement_tables data) before /\
       log c3 = log c2 ++ kept ++ lost /\
       committed (close c3) = log c2 ++ kept) /\
  (forall data c metadata pk c1 before chain_block after c2 chain_metadata
          herv_chain_id c2' subgenes domains e c3,
     parse_run_metadata data = Ok metadata ->
     insert_run_metadata metadata c = (Ok pk, c1) ->
     rbind (py_get data "pseuGID" (VList [])) py_iter
       = Ok (before ++ chain_block :: after) ->
     load_chains data pk before c1 = (Ok tt, c2) ->
     extract_herv_chain_metadata chain_block = Ok chain_metadata ->
     insert_herv_chain chain_metadata pk c2 = (Ok herv_chain_id, c2') ->
     parse_subgenes_and_domains chain_block = Ok (subgenes, domains) ->
     insert_subgenes_domains subgenes domains herv_chain_id c2' = (Raise e, c3) ->
     parse_and_load_retroctector data c = (Raise e, c3) /\
     exists prior batch,
       log c2 = log c ++ mk_entry "run_metadata" metadata pk :: prior /\
       map e_table prior = flat_map (document_statement_tables data) before /\
       log c3
       = log c2
         ++ mk_entry "herv_chain"
              (dict_set chain_metadata "run_metadata_id" (VInt pk)) herv_chain_id
         :: batch /\
       Forall (fun en => In (e_table en) ["subgenes"; "domains"]) batch /\
       committed (close c3)
       = log c2
         ++ [mk_entry "herv_chain"
               (dict_set chain_metadata "run_metadata_id" (VInt pk)) herv_chain_id]) /\
  (forall data c metadata pk c1 before chain_block after c2 chain_metadata
          herv_chain_id c2' subgenes domains c3 motifs e c4,
     parse_run_metadata data = Ok metadata ->
     insert_run_metadata metadata c = (Ok pk, c1) ->
     rbind (py_get data "pseuGID" (VList [])) py_iter
       = Ok (before ++ chain_block :: after) ->
     load_chains data pk before c1 = (Ok tt, c2) ->
     extract_herv_chain_metadata chain_block = Ok chain_metadata ->
     insert_herv_chain chain_metadata pk c2 = (Ok herv_chain_id, c2') ->
     parse_subgenes_and_domains chain_block = Ok (subgenes, domains) ->
     insert_subgenes_domains subgenes domains herv_chain_id c2' = (Ok tt, c3) ->
     parse_motifs chain_block = Ok motifs ->
     insert_motifs motifs herv_chain_id c3 = (Raise e, c4) ->
     parse_and_load_retroctector data c = (Raise e, c4) /\
     exists batch sent,
       log c3
       = log c2
         ++ mk_entry "herv_chain"
              (dict_set chain_metadata "run_metadata_id" (VInt pk)) herv_chain_id
         :: batch /\
       map e_table batch
       = repeat "subgenes" (List.length (listed chain_block "subgenes"))
         ++ repeat "domains" (List.length (block_domains chain_block)) /\
       log c4 = log c3 ++ sent /\
       committed (close c4) = log c3) /\
  (forall data c metadata pk c1 before chain_block after c2 chain_metadata
          herv_chain_id c2' subgenes domains c3 motifs c4 ltr e c5,
     parse_run_metadata data = Ok metadata ->
     insert_run_metadata metadata c = (Ok pk, c1) ->
     rbind (py_get data "pseuGID" (VList [])) py_iter
       = Ok (before ++ chain_block :: after) ->
     load_chains data pk before c1 = (Ok tt, c2) ->
     extract_herv_chain_metadata chain_block = Ok chain_metadata ->
     insert_herv_chain chain_metadata pk c2 = (Ok herv_chain_id, c2') ->
     parse_subgenes_and_domains chain_block = Ok (subgenes, domains) ->
     insert_subgenes_domains subgenes domains herv_chain_id c2' = (Ok tt, c3) ->
     parse_motifs chain_block = Ok motifs ->
     insert_motifs motifs herv_chain_id c3 = (Ok tt, c4) ->
     parse_ltrs data = Ok ltr ->
     insert_ltrs ltr herv_chain_id c4 = (Raise e, c5) ->
     parse_and_load_retroctector data c = (Raise e, c5) /\
     exists motif_entries sent,
       log c4 = log c3 ++ motif_entries /\
       map e_table motif_entries
       = repeat "motifs" (List.length (block_motifs chain_block)) /\
       log c5 = log c4 ++ sent /\
       committed (close c5) = log c4).
Proof.
  split; [ | split; [ | split; [ | split; [ | split; [ | split; [ | split]]]]]].
  - intros metadata c id c' H.
    destruct (insert_run_metadata_ok _ _ _ _ H) as (Hl & Hn).
    split; [exact Hl | now apply committed_all].
  - intros subgenes domains herv_chain_id c c' H.
    apply committed_all. eapply insert_subgenes_domains_ok. eassumption.
  - intros motifs herv_chain_id c c' H. unfold insert_motifs in H.
    apply bind_ok in H. destruct H as (x & c1 & _ & H).
    apply commit_ok in H. subst c'. apply committed_all. reflexivity.
  - intros subgenes domains herv_chain_id c e c' Hwf H.
    destruct (insert_subgenes_domains_raise _ _ _ _ _ _ H) as (Hn & new & Hl).
    rewrite committed_close.
    split; eapply committed_same; eassumption.
  - intros data c metadata pk c1 before chain_block after c2 e c3
           Hmd Hrun Hb Hbefore Hchain.
    destruct (load_fails_in_chain _ _ _ _ _ _ _ _ _ _ _ Hmd Hrun Hb Hbefore Hchain)
      as (Hload & Hn2 & prior & Hl2 & Ht).
    split; [exact Hload | ].
    assert (Hwf2 : wf c2) by (unfold wf; lia).
    destruct (grows_load_chain data pk chain_block c2 _ c3 Hwf2 Hchain)
      as (Hwf3 & Hle & _ & new & Hl3).
    exists prior, (firstn (ncommitted c3 - List.length (log c2)) new),
      (skipn (ncommitted c3 - List.length (log c2)) new).
    split; [exact Hl2 | ]. split; [exact Ht | ].
    split; [now rewrite firstn_skipn | ].
    rewrite committed_close. unfold committed. rewrite Hl3.
    apply firstn_past. lia.
  - intros data c metadata pk c1 before chain_block after c2 chain_metadata
           herv_chain_id c2' subgenes domains e c3
           Hmd Hrun Hb Hbefore Hcm Hchain Hparse Hbatch.
    assert (Hfail : load_chain data pk chain_block c2 = (Raise e, c3)).
    { unfold load_chain. unfold bind at 1. unfold lift at 1. rewrite Hcm.
      unfold bind at 1. rewrite Hchain.
      unfold bind at 1. unfold lift at 1. rewrite Hparse. simpl fst. simpl snd.
      unfold bind at 1. rewrite Hbatch. reflexivity. }
    destruct (load_fails_in_chain _ _ _ _ _ _ _ _ _ _ _ Hmd Hrun Hb Hbefore Hfail)
      as (Hload & Hn2 & prior & Hl2 & Ht).
    split; [exact Hload | ].
    destruct (insert_herv_chain_ok _ _ _ _ _ Hchain) as (Hn2' & Hl2' & _).
    destruct (insert_subgenes_domains_raise _ _ _ _ _ _ Hbatch) as (Hn3 & new & Hl3).
    destruct (only_tables_subgenes_domains _ _ _ _ _ _ Hbatch) as (batch & Hl3' & Hbt).
    assert (batch = new) by (rewrite Hl3 in Hl3'; now apply app_inv_head in Hl3').
    subst new.
    exists prior, batch.
    split; [exact Hl2 | ]. split; [exact Ht | ].
    split; [rewrite Hl3, Hl2', <- app_assoc; reflexivity | ].
    split; [exact Hbt | ].
    rewrite committed_close, <- Hl2'.
    rewrite (committed_same c2' c3 batch); [now apply committed_all | | exact Hn3 | exact Hl3].
    unfold wf. lia.
  - intros data c metadata pk c1 before chain_block after c2 chain_metadata
           herv_chain_id c2' subgenes domains c3 motifs e c4
           Hmd Hrun Hb Hbefore Hcm Hchain Hparse Hbatch Hpm Hmotifs.
    assert (Hfail : load_chain data pk chain_block c2 = (Raise e, c4)).
    { unfold load_chain. unfold bind at 1. unfold lift at 1. rewrite Hcm.
      unfold bind at 1. rewrite Hchain.
      unfold bind at 1. unfold lift at 1. rewrite Hparse. simpl fst. simpl snd.
      unfold bind at 1. rewrite Hbatch.
      unfold bind at 1. unfold lift at 1. rewrite Hpm.
      unfold bind at 1. rewrite Hmotifs. reflexivity. }
    destruct (load_fails_in_chain _ _ _ _ _ _ _ _ _ _ _ Hmd Hrun Hb Hbefore Hfail)
      as (Hload & _).
    split; [exact Hload | ].
    destruct (insert_herv_chain_ok _ _ _ _ _ Hchain) as (_ & Hl2' & _).
    destruct (batch_entries _ _ _ _ _ _ Hparse Hbatch) as (batch & Hl3 & Ht3).
    pose proof (insert_subgenes_domains_ok _ _ _ _ _ Hbatch) as Hn3.
    destruct (batch_raise _ _ _ _ (insert_motif_rows_no_commit _ _) Hmotifs)
      as (Hn4 & sent & Hl4).
    exists batch, sent.
    split; [rewrite Hl3, Hl2', <- app_assoc; reflexivity | ].
    split; [exact Ht3 | ]. split; [exact Hl4 | ].
    exact (committed_before _ _ _ Hn3 Hn4 Hl4).
  - intros data c metadata pk c1 before chain_block after c2 chain_metadata
           herv_chain_id c2' subgenes domains c3 motifs c4 ltr e c5
           Hmd Hrun Hb Hbefore Hcm Hchain Hparse Hbatch Hpm Hmotifs Hpl Hltrs.
    assert (Hfail : load_chain data pk chain_block c2 = (Raise e, c5)).
    { unfold load_chain. unfold bind at 1. unfold lift at 1. rewrite Hcm.
      unfold bind at 1. rewrite Hchain.
      unfold bind at 1. unfold lift at 1. rewrite Hparse. simpl fst. simpl snd.
      unfold bind at 1. rewrite Hbatch.
      unfold bind at 1. unfold lift at 1. rewrite Hpm.
      unfold bind at 1. rewrite Hmotifs.
      unfold bind at 1. unfold lift at 1. rewrite Hpl. exact Hltrs. }
    destruct (load_fails_in_chain _ _ _ _ _ _ _ _ _ _ _ Hmd Hrun Hb Hbefore Hfail)
      as (Hload & _).
    split; [exact Hload | ].
    unfold insert_motifs in Hmotifs.
    apply bind_ok in Hmotifs. destruct Hmotifs as ([] & c41 & Hrows & Hc4).
    apply commit_ok in Hc4.
    destruct (insert_motif_rows_entries _ _ _ _ Hrows) as (mo & Hl41 & Htm & Hrm).
    assert (Hn4 : ncommitted c4 = List.length (log c4)) by (subst c4; reflexivity).
    assert (Hl4 : log c4 = log c3 ++ mo) by (subst c4; exact Hl41).
    destruct (batch_raise _ _ _ _ (insert_ltr_rows_no_commit _ _) Hltrs)
      as (Hn5 & sent & Hl5).
    exists mo, sent.
    split; [exact Hl4 | ]. split.
    { rewrite (same_table_repeat _ _ Htm).
      rewrite <- (length_map e_row mo), Hrm, length_map.
      now rewrite (parse_motifs_count _ _ Hpm). }
    split; [exact Hl5 | ].
    exact (committed_before _ _ _ Hn4 Hn5 Hl5).
Qed.

(** *** Optional fields *)

Lemma default_kind_explicit (v : pyval) : default_kind v = true -> explicit_default v.
Proof.
  unfold explicit_default. destruct v; simpl; try discriminate.
  - now right; right.
  - destruct b; [discriminate | now left].
  - now left.
  - destruct f as [[ | ] | | | ]; try discriminate. now left.
  - intros H. apply String.eqb_eq in H. subst s. now right; left.
Qed.

Lemma insert_run_metadata_raise (metadata : row) (c c' : conn) (e : pyexc) :
  insert_run_metadata metadata c = (Raise e, c') -> e = StoreError.
Proof.
  unfold insert_run_metadata. intros H.
  apply bind_raise in H. destruct H as [H | (x & c1 & _ & H)].
  - now apply execute_raise in H.
  - apply bind_raise in H. destruct H as [H | (u & c2 & _ & H)].
    + now apply commit_raise in H.
    + discriminate.
Qed.

Lemma insert_herv_chain_raise (entry : row) (pk : Z) (c c' : conn) (e : pyexc) :
  insert_herv_chain entry pk c = (Raise e, c') -> e = StoreError.
Proof.
  unfold insert_herv_chain. intros H.
  apply bind_raise in H. destruct H as [H | (x & c1 & _ & H)].
  - now apply execute_raise in H.
  - apply bind_raise in H. destruct H as [H | (u & c2 & _ & H)].
    + now apply commit_raise in H.
    + discriminate.
Qed.

Lemma insert_ltrs_raise (ltr_list : list row) (herv_chain_id : Z) (c c' : conn)
    (e : pyexc) :
  insert_ltrs ltr_list herv_chain_id c = (Raise e, c') -> e = StoreError.
Proof.
  unfold insert_ltrs. intros H.
  apply bind_raise in H. destruct H as [H | (x & c1 & _ & H)].
  - eapply insert_ltr_rows_raise. exact H.
  - now apply commit_raise in H.
Qed.

Lemma insert_motif_rows_raise (motifs : list row) (herv_chain_id : Z) :
  forall c e c',
    insert_motif_rows motifs herv_chain_id c = (Raise e, c') -> e = StoreError.
Proof.
  induction motifs as [ | r rest IH]; intros c e c' H; simpl in H.
  - discriminate.
  - apply bind_raise in H. destruct H as [H | (x & c1 & _ & H)].
    + now apply execute_raise in H.
    + eapply IH. exact H.
Qed.

Lemma insert_motifs_raise (motifs : list row) (herv_chain_id : Z) (c c' : conn)
    (e : pyexc) :
  insert_motifs motifs herv_chain_id c = (Raise e, c') -> e = StoreError.
Proof.
  unfold insert_motifs. intros H.
  apply bind_raise in H. destruct H as [H | (x & c1 & _ & H)].
  - eapply insert_motif_rows_raise. exact H.
  - now apply commit_raise in H.
Qed.

Lemma parsed_batch_raise (chain_block : pyval) (subs doms : list row)
    (herv_chain_id : Z) (c c' : conn) (e : pyexc) :
  parse_subgenes_and_domains chain_block = Ok (subs, doms) ->
  insert_subgenes_domains subs doms herv_chain_id c = (Raise e, c') ->
  e = StoreError.
Proof.
  intros Hp H.
  destruct (parse_subgenes_and_domains_inv _ _ _ Hp) as (items & tree & _ & _ & -> & ->).
  unfold insert_subgenes_domains in H.
  apply bind_raise in H. destruct H as [H | (m & c1 & Hs & H)].
  - eapply subgene_rows_raise. exact H.
  - apply subgene_rows_inserted in Hs; [ | reflexivity].
    destruct Hs as (ids & Hlen & _ & _ & _ & -> & _).
    apply bind_raise in H. destruct H as [H | (u & c2 & _ & H)].
    + apply (domain_rows_inserted tree ids 0) in H;
        [ | exact Hlen | intros i id; apply index_map_resolves].
      destruct H as [H | (H & _)]; [now injection H | discriminate].
    + now apply commit_raise in H.
Qed.

Lemma eval_table_explicit (alt src : row) (t : list (string * field_spec)) (r : row)
    (col : string) (f : field_spec) :
  NoDup (map fst t) ->
  forallb (fun cf => optional_default_ok (snd cf)) t = true ->
  eval_table (VDict alt) (VDict src) t = Ok r ->
  In (col, f) t ->
  absent_in alt src f ->
  exists v, dict_get r col = Some v /\ field_default f = Ok v /\ explicit_default v.
Proof.
  intros Hnd Hd H Hin Ha.
  destruct (eval_table_default _ _ _ _ _ _ Hnd Hd H Hin Ha) as (v & Hv & Hf & Hk).
  exists v. split; [exact Hv | ]. split; [exact Hf | ].
  now apply default_kind_explicit.
Qed.

(** C5: when the source omits an optional field, the mapper puts the
    default of the column in the row: 0 (which is how Python reads [0.0] and
    [False] too), the empty string or [None]; and no insertion fails because
    of it: a mapper that succeeds on a document succeeds on the document
    without the field, and the insert of any row of a mapper raises nothing
    but what the store raises.  For the run metadata every field of the
    header and of the footer is optional; for an LTR every field but
    [init_idx] and [fin_idx]; for a chain, [integration_sites]; for a
    subgene, a domain and a motif, every field. *)
Theorem optional_fields_default :
  (forall json_data header footer r,
     py_get json_data "header" (VDict []) = Ok (VDict header) ->
     py_get json_data "footer" (VDict []) = Ok (VDict footer) ->
     parse_run_metadata json_data = Ok r ->
     (forall col f, In (col, f) run_table -> absent_in header footer f ->
        exists v, dict_get r col = Some v /\ field_default f = Ok v /\
                  explicit_default v) /\
     (forall json_data' k,
        py_get json_data' "header" (VDict []) = Ok (VDict header) ->
        py_get json_data' "footer" (VDict []) = Ok (VDict (dict_remove footer k)) ->
        exists r', parse_run_metadata json_data' = Ok r') /\
     (forall json_data' hk,
        py_get json_data' "header" (VDict []) = Ok (VDict (dict_remove header hk)) ->
        py_get json_data' "footer" (VDict []) = Ok (VDict footer) ->
        exists r', parse_run_metadata json_data' = Ok r')) /\
  parse_run_metadata (VDict []) = Ok run_defaults /\
  (forall entry r,
     solo_ltr_entry (VDict entry) = Ok r ->
     (forall col f, In (col, f) solo_ltr_table -> absent_in [] entry f ->
        exists v, dict_get r col = Some v /\ field_default f = Ok v /\
                  explicit_default v) /\
     (forall k, k <> "init_idx" -> k <> "fin_idx" ->
        exists r', solo_ltr_entry (VDict (dict_remove entry k)) = Ok r')) /\
  (forall chain_index entry r,
     full_ltr_entry chain_index (VDict entry) = Ok r ->
     (forall col f, In (col, f) (full_ltr_table chain_index) -> absent_in [] entry f ->
        exists v, dict_get r col = Some v /\ field_default f = Ok v /\
                  explicit_default v) /\
     (forall k, k <> "init_idx" -> k <> "fin_idx" ->
        exists r', full_ltr_entry chain_index (VDict (dict_remove entry k)) = Ok r')) /\
  (forall chain_block r,
     extract_herv_chain_metadata (VDict chain_block) = Ok r ->
     (dict_get chain_block "integration_sites" = None ->
      dict_get r "integration_sites" = Some VNone) /\
     (exists r', extract_herv_chain_metadata
                   (VDict (dict_remove chain_block "integration_sites")) = Ok r')) /\
  (forall k d, parsed_subgene k (VDict d) = Ok (subgene_record k d)) /\
  (forall k d, parsed_domain k (VDict d) = Ok (domain_record k d)) /\
  (forall t d, motif_entry t (VDict d) = Ok (motif_row t d)) /\
  (forall d k, dict_get d k = None -> field d k = VNone) /\
  (forall metadata c e c',
     insert_run_metadata metadata c = (Raise e, c') -> e = StoreError) /\
  (forall ltr_list herv_chain_id c e c',
     insert_ltrs ltr_list herv_chain_id c = (Raise e, c') -> e = StoreError) /\
  (forall herv_chain_entry run_metadata_pk c e c',
     insert_herv_chain herv_chain_entry run_metadata_pk c = (Raise e, c') ->
     e = StoreError) /\
  (forall chain_block subgenes domains herv_chain_id c e c',
     parse_subgenes_and_domains chain_block = Ok (subgenes, domains) ->
     insert_subgenes_domains subgenes domains herv_chain_id c = (Raise e, c') ->
     e = StoreError) /\
  (forall motifs herv_chain_id c e c',
     insert_motifs motifs herv_chain_id c = (Raise e, c') -> e = StoreError).
Proof.
  split; [ | split; [ | split; [ | split; [ | split; [ | split; [ | 
    split; [ | split; [ | split; [ | split; [ | split; [ | split; [ | split]]]]]]]]]]]].
  - intros json_data header footer r Hh Hf H.
    rewrite (parse_run_metadata_sections _ _ _ Hh Hf) in H.
    split; [ | split].
    + intros col f Hin Ha.
      exact (eval_table_explicit header footer run_table r col f
               run_table_columns run_table_defaults H Hin Ha).
    + intros json_data' k Hh' Hf'.
      rewrite (parse_run_metadata_sections _ _ _ Hh' Hf').
      exact (eval_table_remove header footer k run_table r
               run_table_defaults (run_table_no_required k) H).
    + intros json_data' hk Hh' Hf'.
      rewrite (parse_run_metadata_sections _ _ _ Hh' Hf').
      exact (eval_table_remove_alt header footer hk run_table r H).
  - vm_compute. reflexivity.
  - intros entry r H. rewrite solo_ltr_entry_table in H. split.
    + intros col f Hin Ha.
      exact (eval_table_explicit [] entry solo_ltr_table r col f
               solo_ltr_table_columns solo_ltr_table_defaults H Hin Ha).
    + intros k H1 H2. rewrite solo_ltr_entry_table.
      exact (eval_table_remove [] entry k solo_ltr_table r solo_ltr_table_defaults
               (proj1 (ltr_tables_required k 0 H1 H2)) H).
  - intros chain_index entry r H. rewrite full_ltr_entry_table in H. split.
    + intros col f Hin Ha.
      exact (eval_table_explicit [] entry (full_ltr_table chain_index) r col f
               (full_ltr_table_columns chain_index)
               (full_ltr_table_defaults chain_index) H Hin Ha).
    + intros k H1 H2. rewrite full_ltr_entry_table.
      exact (eval_table_remove [] entry k (full_ltr_table chain_index) r
               (full_ltr_table_defaults chain_index)
               (proj2 (ltr_tables_required k chain_index H1 H2)) H).
  - intros chain_block r H. rewrite extract_herv_chain_metadata_table in H. split.
    + intros Ha.
      destruct (eval_table_default [] chain_block chain_table r "integration_sites"
                  (FGet "integration_sites" VNone)
                  chain_table_columns chain_table_defaults H
                  ltac:(simpl; auto 10) Ha) as (v & Hv & Hd & _).
      injection Hd as <-. exact Hv.
    + rewrite extract_herv_chain_metadata_table.
      exact (eval_table_remove [] chain_block "integration_sites" chain_table r
               chain_table_defaults eq_refl H).
  - intros k d. reflexivity.
  - intros k d. reflexivity.
  - intros t d. reflexivity.
  - intros d k H. unfold field. now rewrite H.
  - intros metadata c e c' H. exact (insert_run_metadata_raise _ _ _ _ H).
  - intros ltr_list herv_chain_id c e c' H. exact (insert_ltrs_raise _ _ _ _ _ H).
  - intros entry pk c e c' H. exact (insert_herv_chain_raise _ _ _ _ _ H).
  - intros chain_block subgenes domains herv_chain_id c e c' Hp H.
    exact (parsed_batch_raise _ _ _ _ _ _ _ Hp H).
  - intros motifs herv_chain_id c e c' H. exact (insert_motifs_raise _ _ _ _ _ H).
Qed.

End Loader.

(** ** The properties on the sample document *)

Lemma to_bool_normalisation_witness :
  rbind (py_get (VDict [("Strand", VStr "P")]) "SDFactor" (VBool false))
        (fun x => Ok (to_bool x)) = Ok (VBool false) /\
  to_bool (VFloat (S754_zero true)) = VBool (py_truthy (VFloat (S754_zero true))).
Proof.
  destruct to_bool_normalisation as (_ & _ & _ & _ & Habsent & Hother & _).
  split.
  - apply Habsent. reflexivity.
  - apply Hother; intros x H; discriminate.
Defined.

Lemma parse_datetime_total_witness :
  (0 < 7)%nat /\
  valid_datetime (mk_datetime 2025 8 4 4 51 37) = true /\
  parse_datetime (VStr (format_gmt 0 (mk_datetime 2025 8 4 4 51 37)))
  = Ok (VDatetime (mk_datetime 2025 8 4 4 51 37)).
Proof.
  split; [lia | ]. split; [reflexivity | ].
  apply (proj1 parse_datetime_total); [lia | reflexivity].
Defined.

Lemma parse_motifs_order_witness :
  parse_motifs sample_chain
  = Ok (map (motif_row "Slippery")
            [[("pos_init", VInt 1900); ("pos_end", VInt 1906); ("score", VInt 12)]]
        ++ map (motif_row "PseudoKnot") []
        ++ map (motif_row "SpliceAcceptor") []
        ++ map (motif_row "SpliceDonor")
             [[("pos_init", VInt 700); ("pos_end", VInt 708); ("score", VInt 9)]]).
Proof.
  apply (proj2 (parse_motifs_order sample_chain)); reflexivity.
Defined.

Lemma domain_foreign_key_witness :
  exists subs doms c',
    parse_subgenes_and_domains sample_chain = Ok (subs, doms) /\
    insert_subgenes_domains serial_insert always_commit subs doms 2 fresh_conn
      = (Ok tt, c') /\
    exists (items : list pyval) (tree : chain_tree) (ids : list Z)
           (dom_entries : list entry),
      rbind (py_get sample_chain "subgenes" (VList [])) py_iter = Ok items /\
      Forall2 subgene_source items tree /\
      map (fun r => dict_get r "subgene_index") subs
        = map (fun i => Some (VInt (Z.of_nat i))) (seq 0 (List.length tree)) /\
      doms = tree_domain_records tree 0 /\
      List.length ids = List.length tree /\
      Forall2 (returned_for serial_insert 2) tree ids /\
      log c' = log fresh_conn ++ subgene_entries 2 tree ids ++ dom_entries /\
      Forall (fun e => e_table e = "domains") dom_entries /\
      map e_row dom_entries = domain_rows tree ids /\
      (NoDup ids ->
       forall i j t id_i id_j r,
         nth_error tree i = Some t -> nth_error ids i = Some id_i ->
         nth_error ids j = Some id_j -> i <> j ->
         In r (map (domain_row id_i) (snd t)) ->
         dict_get r "subgene_id" = Some (VInt id_i) /\
         dict_get r "subgene_id" <> Some (VInt id_j)).
Proof.
  eexists. eexists. eexists.
  split; [reflexivity | ]. split; [reflexivity | ].
  apply (domain_foreign_key serial_insert always_commit sample_chain); reflexivity.
Defined.

Lemma parsed_indices_resolve_witness :
  exists subs doms,
    parse_subgenes_and_domains sample_chain = Ok (subs, doms) /\
    map (fun r => dict_get r "subgene_index") subs
      = map (fun i => Some (VInt (Z.of_nat i))) (seq 0 (List.length subs)) /\
    (forall d, In d doms ->
       exists i, (i < List.length subs)%nat /\
                 dict_get d "subgene_index" = Some (VInt (Z.of_nat i))) /\
    (forall herv_chain_id c,
       fst (insert_subgenes_domains no_domains_insert always_commit subs doms
              herv_chain_id c) = Ok tt \/
       fst (insert_subgenes_domains no_domains_insert always_commit subs doms
              herv_chain_id c) = Raise StoreError).
Proof.
  eexists. eexists. split; [reflexivity | ].
  apply (parsed_indices_resolve no_domains_insert always_commit sample_chain).
  reflexivity.
Defined.


Lemma unassigned_index_raises_KeyError_witness :
  exists m c1 c2,
    insert_subgene_rows serial_insert [subgene_record 0 [("name", VStr "gag")]]
      2 [] fresh_conn = (Ok m, c1) /\
    [domain_record 0 [("type", VStr "MA")]; domain_record 5 [("type", VStr "CA")]]
    = [domain_record 0 [("type", VStr "MA")]]
        ++ domain_record 5 [("type", VStr "CA")] :: [] /\
    insert_domain_rows serial_insert [domain_record 0 [("type", VStr "MA")]] m c1
    = (Ok tt, c2) /\
    dict_get (domain_record 5 [("type", VStr "CA")]) "subgene_index" = Some (VInt 5) /\
    keymap_find m (VInt 5) = None /\
    insert_subgenes_domains serial_insert always_commit
      [subgene_record 0 [("name", VStr "gag")]]
      [domain_record 0 [("type", VStr "MA")]; domain_record 5 [("type", VStr "CA")]]
      2 fresh_conn
    = (Raise KeyError, c2) /\
    ncommitted c2 = ncommitted fresh_conn.
Proof.
  destruct (unassigned_index_raises_KeyError serial_insert always_commit)
    as (_ & Hat).
  eexists. eexists. eexists.
  split; [lazy; reflexivity | ]. split; [reflexivity | ].
  split; [lazy; reflexivity | ]. split; [reflexivity | ]. split; [reflexivity | ].
  eapply (Hat [subgene_record 0 [("name", VStr "gag")]]
              [domain_record 0 [("type", VStr "MA")];
               domain_record 5 [("type", VStr "CA")]]
              [domain_record 0 [("type", VStr "MA")]] []
              (domain_record 5 [("type", VStr "CA")]) 5 2);
    lazy; reflexivity.
Defined.

Lemma commit_per_grouping_witness :
  exists metadata pk c1 c2 chain_metadata herv_chain_id c2' subgenes domains c3,
    parse_run_metadata no_int no_float sample_document_swapped = Ok metadata /\
    insert_run_metadata no_domains_insert always_commit metadata fresh_conn
    = (Ok pk, c1) /\
    rbind (py_get sample_document_swapped "pseuGID" (VList [])) py_iter
    = Ok ([sample_chain2] ++ sample_chain :: []) /\
    load_chains no_int no_domains_insert always_commit sample_document_swapped pk
      [sample_chain2] c1 = (Ok tt, c2) /\
    extract_herv_chain_metadata no_int sample_chain = Ok chain_metadata /\
    insert_herv_chain no_domains_insert always_commit chain_metadata pk c2
    = (Ok herv_chain_id, c2') /\
    parse_subgenes_and_domains sample_chain = Ok (subgenes, domains) /\
    insert_subgenes_domains no_domains_insert always_commit subgenes domains
      herv_chain_id c2' = (Raise StoreError, c3) /\
    map e_table (log c3)
    = ["run_metadata"; "herv_chain"; "ltr"; "ltr"; "herv_chain"; "subgenes";
       "subgenes"] /\
    map e_table (committed (close c3))
    = ["run_metadata"; "herv_chain"; "ltr"; "ltr"; "herv_chain"] /\
    parse_and_load_retroctector no_int no_float no_domains_insert always_commit
      sample_document_swapped fresh_conn = (Raise StoreError, c3) /\
    exists prior batch,
      log c2 = log fresh_conn ++ mk_entry "run_metadata" metadata pk :: prior /\
      map e_table prior
      = flat_map (document_statement_tables sample_document_swapped)
                 [sample_chain2] /\
      log c3
      = log c2
        ++ mk_entry "herv_chain"
             (dict_set chain_metadata "run_metadata_id" (VInt pk)) herv_chain_id
        :: batch /\
      Forall (fun en => In (e_table en) ["subgenes"; "domains"]) batch /\
      committed (close c3)
      = log c2
        ++ [mk_entry "herv_chain"
              (dict_set chain_metadata "run_metadata_id" (VInt pk)) herv_chain_id].
Proof.
  destruct (commit_per_grouping no_int no_float no_domains_insert always_commit)
    as (_ & _ & _ & _ & _ & Hbatch & _).
  do 10 eexists.
  split; [vm_compute; reflexivity | ]. split; [vm_compute; reflexivity | ].
  split; [reflexivity | ]. split; [vm_compute; reflexivity | ].
  split; [vm_compute; reflexivity | ]. split; [vm_compute; reflexivity | ].
  split; [vm_compute; reflexivity | ]. split; [vm_compute; reflexivity | ].
  split; [vm_compute; reflexivity | ]. split; [vm_compute; reflexivity | ].
  eapply (Hbatch sample_document_swapped fresh_conn _ _ _ [sample_chain2]
            sample_chain []);
    vm_compute; reflexivity.
Defined.

Lemma ltr_set_inserted_per_chain_witness :
  exists c',
    parse_and_load_retroctector no_int no_float serial_insert always_commit
      sample_document fresh_conn = (Ok tt, c') /\
    exists (chain_blocks : list pyval) (new : list entry),
      rbind (py_get sample_document "pseuGID" (VList [])) py_iter = Ok chain_blocks /\
      log c' = log fresh_conn ++ new /\
      List.length (filter (is_table "herv_chain") new) = List.length chain_blocks /\
      List.length (filter (is_table "ltr") new)
      = (List.length chain_blocks * List.length (document_ltrs sample_document))%nat /\
      (forall herv_chain_id r,
         dict_get (ltr_row herv_chain_id r) "herv_chain_id"
         = Some (VInt herv_chain_id)) /\
      (chain_blocks <> [] ->
       exists (solo_items : list pyval) (solo : list row)
              (per_chain : list (list row)),
         rbind (py_get sample_document "soloLTRs" (VList [])) py_iter
         = Ok solo_items /\
         Forall2 (fun item r => solo_ltr_entry item = Ok r) solo_items solo /\
         List.length per_chain = List.length chain_blocks /\
         (forall i chain rows,
            nth_error chain_blocks i = Some chain ->
            nth_error per_chain i = Some rows ->
            exists items,
              rbind (py_get chain "LTRs" (VList [])) py_iter = Ok items /\
              Forall2 (fun item r => full_ltr_entry (Z.of_nat i) item = Ok r)
                      items rows) /\
         map e_row (filter (is_table "ltr") new)
         = flat_map (fun herv_chain_id =>
                       map (ltr_row herv_chain_id) (solo ++ List.concat per_chain))
                    (map e_id (filter (is_table "herv_chain") new))).
Proof.
  eexists. split; [vm_compute; reflexivity | ].
  apply (ltr_set_inserted_per_chain no_int no_float serial_insert always_commit
           sample_document fresh_conn).
  vm_compute. reflexivity.
Defined.


Lemma optional_fields_default_witness :
  exists r,
    solo_ltr_entry (VDict [("init_idx", VInt 15000); ("fin_idx", VInt 15400)]) = Ok r /\
    In ("is_primary", FGet "primary" (VBool false)) solo_ltr_table /\
    absent_in [] [("init_idx", VInt 15000); ("fin_idx", VInt 15400)]
      (FGet "primary" (VBool false)) /\
    (exists v, dict_get r "is_primary" = Some v /\
               field_default (FGet "primary" (VBool false)) = Ok v /\
               explicit_default v) /\
    (exists r', solo_ltr_entry
                  (VDict (dict_remove [("init_idx", VInt 15000); ("fin_idx", VInt 15400)]
                            "peak_loc")) = Ok r').
Proof.
  destruct (optional_fields_default no_int no_float serial_insert always_commit)
    as (_ & _ & Hsolo & _).
  destruct (Hsolo [("init_idx", VInt 15000); ("fin_idx", VInt 15400)] _ eq_refl)
    as (Hdefault & Hremove).
  eexists. split; [reflexivity | ].
  assert (Hin : In ("is_primary", FGet "primary" (VBool false)) solo_ltr_table)
    by (simpl; auto).
  split; [exact Hin | ]. split; [reflexivity | ]. split.
  - apply Hdefault; [exact Hin | reflexivity].
  - apply Hremove; discriminate.
Defined.

(** The run the claim C9 does not hold at: the store is unreachable. *)
Lemma main_connect_failure_example :
  main no_int no_float serial_insert always_commit
    (mk_world (Ok "retrotector.json") (Raise StoreError) (fun _ => Raise OSError))
  = mk_main_state (Raise UnboundLocalError)
      [PrintLoading "retrotector.json"; PrintError StoreError] None.
Proof. reflexivity. Qed.

(** ** The further properties on the sample document *)

Lemma mapper_columns_witness :
  exists r,
    solo_ltr_entry (VDict [("init_idx", VInt 15000); ("fin_idx", VInt 15400)]) = Ok r /\
    map fst r = ltr_columns.
Proof.
  destruct (mapper_columns no_int no_float) as (_ & Hsolo & _).
  eexists. split; [reflexivity | ].
  apply (Hsolo (VDict [("init_idx", VInt 15000); ("fin_idx", VInt 15400)])).
  reflexivity.
Defined.

Lemma chain_metadata_required_fields_witness :
  In "score" ["chain_level"; "chain_start_idx"; "chain_end_idx"; "retrovirus_type";
              "score"] /\
  dict_get [("chain_level", VInt 1); ("chain_start_idx", VInt 100);
            ("chain_end_idx", VInt 9000); ("retrovirus_type", VStr "C");
            ("type_of_chain", VStr "P")] "score" = None /\
  extract_herv_chain_metadata no_int
    (VDict [("chain_level", VInt 1); ("chain_start_idx", VInt 100);
            ("chain_end_idx", VInt 9000); ("retrovirus_type", VStr "C");
            ("type_of_chain", VStr "P")])
  = Raise KeyError.
Proof.
  destruct (chain_metadata_required_fields no_int) as (_ & Hmissing & _).
  assert (Hin : In "score" ["chain_level"; "chain_start_idx"; "chain_end_idx";
                            "retrovirus_type"; "score"]) by (simpl; auto 10).
  split; [exact Hin | ]. split; [reflexivity | ].
  apply (Hmissing _ "score"); [exact Hin | reflexivity].
Defined.

Lemma parse_ltrs_tags_witness :
  exists ltrs,
    parse_ltrs sample_document = Ok ltrs /\
    exists (solo_items chain_blocks : list pyval) (solo : list row)
           (per_chain : list (list row)),
      rbind (py_get sample_document "soloLTRs" (VList [])) py_iter = Ok solo_items /\
      rbind (py_get sample_document "pseuGID" (VList [])) py_iter = Ok chain_blocks /\
      ltrs = solo ++ List.concat per_chain /\
      List.length solo = List.length solo_items /\
      Forall (fun r => dict_get r "herv_chain_index" = Some VNone /\
                       dict_get r "ltr_type" = Some (VStr "solo")) solo /\
      Forall2 (fun chain rows =>
                 exists items,
                   rbind (py_get chain "LTRs" (VList [])) py_iter = Ok items /\
                   List.length rows = List.length items) chain_blocks per_chain /\
      (forall i rows r,
         nth_error per_chain i = Some rows -> In r rows ->
         dict_get r "herv_chain_index" = Some (VInt (Z.of_nat i))).
Proof.
  eexists. split; [vm_compute; reflexivity | ].
  apply (parse_ltrs_tags sample_document). vm_compute. reflexivity.
Defined.

Lemma insert_ltrs_effect_witness :
  exists ltrs c',
    parse_ltrs sample_document = Ok ltrs /\
    insert_ltrs serial_insert always_commit ltrs 7 fresh_conn = (Ok tt, c') /\
    exists new,
      log c' = log fresh_conn ++ new /\
      map e_table new = repeat "ltr" (List.length ltrs) /\
      map e_row new = map (ltr_row 7) ltrs /\
      committed c' = log c'.
Proof.
  destruct (insert_ltrs_effect serial_insert always_commit) as (_ & Hok & _).
  eexists. eexists. split; [vm_compute; reflexivity | ].
  split; [vm_compute; reflexivity | ].
  apply (Hok _ 7 fresh_conn). vm_compute. reflexivity.
Defined.

Lemma chain_rows_linked_witness :
  exists c',
    load_chain no_int serial_insert always_commit sample_document 1 sample_chain
      fresh_conn = (Ok tt, c') /\
    exists chain_entry rest,
      log c' = log fresh_conn ++ chain_entry :: rest /\
      e_table chain_entry = "herv_chain" /\
      dict_get (e_row chain_entry) "run_metadata_id" = Some (VInt 1) /\
      Forall (fun e =>
                (In (e_table e) ["subgenes"; "motifs"; "ltr"] /\
                 dict_get (e_row e) "herv_chain_id" = Some (VInt (e_id chain_entry))) \/
                (e_table e = "domains" /\
                 exists s, In s rest /\ e_table s = "subgenes" /\
                           dict_get (e_row e) "subgene_id" = Some (VInt (e_id s))))
             rest.
Proof.
  eexists. split; [vm_compute; reflexivity | ].
  apply (chain_rows_linked no_int serial_insert always_commit sample_document 1
           sample_chain fresh_conn).
  vm_compute. reflexivity.
Defined.

Lemma load_statement_order_witness :
  exists c',
    parse_and_load_retroctector no_int no_float serial_insert always_commit
      sample_document fresh_conn = (Ok tt, c') /\
    exists new,
      log c' = log fresh_conn ++ new /\
      map e_table new
      = "run_metadata" :: flat_map (document_statement_tables sample_document)
                                   (listed sample_document "pseuGID") /\
      committed c' = log c'.
Proof.
  eexists. split; [vm_compute; reflexivity | ].
  apply (load_statement_order no_int no_float serial_insert always_commit
           sample_document fresh_conn).
  vm_compute. reflexivity.
Defined.

Lemma repeated_load_duplicates_witness :
  exists c1 c2,
    parse_and_load_retroctector no_int no_float serial_insert always_commit
      sample_document fresh_conn = (Ok tt, c1) /\
    parse_and_load_retroctector no_int no_float serial_insert always_commit
      sample_document c1 = (Ok tt, c2) /\
    exists new1 new2,
      log c1 = log fresh_conn ++ new1 /\
      log c2 = log fresh_conn ++ new1 ++ new2 /\
      new1 <> [] /\
      map e_table new2 = map e_table new1 /\
      forall t, List.length (filter (is_table t) new2)
                = List.length (filter (is_table t) new1).
Proof.
  eexists. eexists. split; [vm_compute; reflexivity | ].
  split; [vm_compute; reflexivity | ].
  eapply (repeated_load_duplicates no_int no_float serial_insert always_commit
            sample_document fresh_conn);
    vm_compute; reflexivity.
Defined.

Lemma run_row_persists_witness :
  exists metadata pk c1 c',
    parse_run_metadata no_int no_float sample_document = Ok metadata /\
    insert_run_metadata serial_insert always_commit metadata fresh_conn = (Ok pk, c1) /\
    parse_and_load_retroctector no_int no_float no_domains_insert always_commit
      sample_document fresh_conn = (Raise StoreError, c') /\
    exists more,
      committed (close c')
      = log fresh_conn ++ mk_entry "run_metadata" metadata pk :: more.
Proof.
  eexists. eexists. eexists. eexists.
  split; [vm_compute; reflexivity | ]. split; [vm_compute; reflexivity | ].
  split; [vm_compute; reflexivity | ].
  eapply (run_row_persists no_int no_float no_domains_insert always_commit
            sample_document fresh_conn);
    vm_compute; reflexivity.
Defined.

Lemma chain_rows_are_parse_herv_chains_witness :
  exists c',
    parse_and_load_retroctector no_int no_float serial_insert always_commit
      sample_document fresh_conn = (Ok tt, c') /\
    exists run_entry rest mds,
      log c' = log fresh_conn ++ run_entry :: rest /\
      e_table run_entry = "run_metadata" /\
      parse_herv_chains no_int sample_document = Ok mds /\
      map e_row (filter (is_table "herv_chain") rest)
      = map (fun md => dict_set md "run_metadata_id" (VInt (e_id run_entry))) mds.
Proof.
  destruct (chain_rows_are_parse_herv_chains no_int no_float serial_insert
              always_commit) as (_ & Hload).
  eexists. split; [vm_compute; reflexivity | ].
  apply (Hload sample_document fresh_conn). vm_compute. reflexivity.
Defined.

Lemma parse_subgenes_and_domains_shape_witness :
  dict_get [("chain_level", VInt 1); ("score", VInt 900)] "subgenes" = None /\
  parse_subgenes_and_domains (VDict [("chain_level", VInt 1); ("score", VInt 900)])
  = Ok ([], []).
Proof.
  destruct parse_subgenes_and_domains_shape as (_ & Habsent & _).
  split; [reflexivity | ].
  apply (Habsent [("chain_level", VInt 1); ("score", VInt 900)]). reflexivity.
Defined.

Lemma parse_subgenes_agrees_witness :
  exists sds,
    rbind (py_get sample_document "pseuGID" (VList [])) py_iter
    = Ok [sample_chain; sample_chain2] /\
    Forall2 (fun b sd => parse_subgenes_and_domains b = Ok sd)
            [sample_chain; sample_chain2] sds /\
    parse_subgenes sample_document
    = Ok (flat_map (fun sd => map (fun r => dict_remove r "subgene_index") (fst sd))
            sds).
Proof.
  assert (Hsds : exists sds,
             Forall2 (fun b sd => parse_subgenes_and_domains b = Ok sd)
                     [sample_chain; sample_chain2] sds).
  { eexists. apply Forall2_cons; [vm_compute; reflexivity | ].
    apply Forall2_cons; [vm_compute; reflexivity | ]. apply Forall2_nil. }
  destruct Hsds as (sds & Hsds). exists sds.
  split; [reflexivity | ]. split; [exact Hsds | ].
  apply (parse_subgenes_agrees sample_document [sample_chain; sample_chain2] sds);
    [reflexivity | exact Hsds].
Defined.

Lemma parse_domains_agrees_witness :
  In "score" domain_required /\
  dict_get [("type", VStr "MA"); ("pos_init", VInt 120)] "score" = None /\
  domain_dict (VDict [("type", VStr "MA"); ("pos_init", VInt 120)]) = Raise KeyError /\
  forall i,
    parsed_domain i (VDict [("type", VStr "MA"); ("pos_init", VInt 120)])
    = Ok (domain_record i [("type", VStr "MA"); ("pos_init", VInt 120)]) /\
    dict_get (domain_record i [("type", VStr "MA"); ("pos_init", VInt 120)]) "score"
    = Some VNone.
Proof.
  destruct parse_domains_agrees as (Hmissing & _).
  assert (Hin : In "score" domain_required) by (simpl; auto).
  split; [exact Hin | ]. split; [reflexivity | ].
  apply (Hmissing [("type", VStr "MA"); ("pos_init", VInt 120)] "score");
    [exact Hin | reflexivity].
Defined.

Lemma insert_subgenes_effect_witness :
  exists r c',
    wf fresh_conn /\
    insert_subgenes serial_insert
      [subgene_fields [("name", VStr "gag"); ("score", VInt 300)]] 1 fresh_conn
    = (r, c') /\
    ncommitted c' = ncommitted fresh_conn /\
    committed (close c') = committed fresh_conn.
Proof.
  destruct (insert_subgenes_effect serial_insert) as (Hnever & _).
  assert (Hwf : wf fresh_conn) by (unfold wf; simpl; lia).
  eexists. eexists. split; [exact Hwf | ]. split; [vm_compute; reflexivity | ].
  eapply (Hnever [subgene_fields [("name", VStr "gag"); ("score", VInt 300)]] 1
            fresh_conn);
    [exact Hwf | vm_compute; reflexivity].
Defined.

Lemma main_closes_connection_witness :
  w_parse_args (mk_world (Ok "retrotector.json") (Ok fresh_conn)
                  (fun _ => Ok sample_document)) = Ok "retrotector.json" /\
  w_connect (mk_world (Ok "retrotector.json") (Ok fresh_conn)
               (fun _ => Ok sample_document)) = Ok fresh_conn /\
  wf fresh_conn /\
  exists c1 mid,
    ms_conn (main no_int no_float serial_insert always_commit
               (mk_world (Ok "retrotector.json") (Ok fresh_conn)
                  (fun _ => Ok sample_document))) = Some (close c1) /\
    closed (close c1) = true /\
    log (close c1) = committed c1 /\
    (exists more, committed (close c1) = committed fresh_conn ++ more) /\
    ms_output (main no_int no_float serial_insert always_commit
                 (mk_world (Ok "retrotector.json") (Ok fresh_conn)
                    (fun _ => Ok sample_document)))
    = [PrintLoading "retrotector.json"; PrintConnected] ++ mid ++ [PrintClosed] /\
    ((mid = [] /\
      ms_result (main no_int no_float serial_insert always_commit
                   (mk_world (Ok "retrotector.json") (Ok fresh_conn)
                      (fun _ => Ok sample_document))) = Ok tt) \/
     (exists e, is_Exception e = true /\ mid = [PrintError e] /\
                ms_result (main no_int no_float serial_insert always_commit
                             (mk_world (Ok "retrotector.json") (Ok fresh_conn)
                                (fun _ => Ok sample_document))) = Ok tt) \/
     (exists e, is_Exception e = false /\ mid = [] /\
                ms_result (main no_int no_float serial_insert always_commit
                             (mk_world (Ok "retrotector.json") (Ok fresh_conn)
                                (fun _ => Ok sample_document))) = Raise e)).
Proof.
  assert (Hwf : wf fresh_conn) by (unfold wf; simpl; lia).
  split; [reflexivity | ]. split; [reflexivity | ]. split; [exact Hwf | ].
  apply (main_closes_connection no_int no_float serial_insert always_commit
           (mk_world (Ok "retrotector.json") (Ok fresh_conn)
              (fun _ => Ok sample_document))
           "retrotector.json" fresh_conn);
    [reflexivity | reflexivity | exact Hwf].
Defined.

Lemma run_metadata_types_witness :
  exists r,
    parse_run_metadata no_int no_float sample_document = Ok r /\
    (forall col k, In (col, k) run_int_columns ->
                   exists z, dict_get r col = Some (VInt z)) /\
    (forall col k, In (col, k) run_float_columns ->
                   exists f, dict_get r col = Some (VFloat f)) /\
    (exists b, dict_get r "sdfactor" = Some (VBool b)) /\
    (forall col k, In (col, k) run_datetime_columns ->
       dict_get r col = Some VNone \/
       exists t, valid_datetime t = true /\ dict_get r col = Some (VDatetime t)).
Proof.
  eexists. split; [vm_compute; reflexivity | ].
  apply (run_metadata_types no_int no_float sample_document).
  vm_compute. reflexivity.
Defined.

Lemma run_metadata_fallback_witness :
  exists r,
    py_get (VDict [("header", VDict [("Executor", VStr "RetroTector")]);
                   ("footer", VDict [("executer", VStr "")])])
      "header" (VDict []) = Ok (VDict [("Executor", VStr "RetroTector")]) /\
    py_get (VDict [("header", VDict [("Executor", VStr "RetroTector")]);
                   ("footer", VDict [("executer", VStr "")])])
      "footer" (VDict []) = Ok (VDict [("executer", VStr "")]) /\
    parse_run_metadata no_int no_float
      (VDict [("header", VDict [("Executor", VStr "RetroTector")]);
              ("footer", VDict [("executer", VStr "")])]) = Ok r /\
    In ("executer", "executer", "Executor", VNone) run_fallback_columns /\
    dict_get r "executer" = Some (VStr "RetroTector").
Proof.
  assert (Hin : In ("executer", "executer", "Executor", VNone) run_fallback_columns)
    by (simpl; auto).
  eexists. split; [reflexivity | ]. split; [reflexivity | ].
  split; [vm_compute; reflexivity | ]. split; [exact Hin | ].
  destruct (run_metadata_fallback no_int no_float
              (VDict [("header", VDict [("Executor", VStr "RetroTector")]);
                      ("footer", VDict [("executer", VStr "")])])
              [("Executor", VStr "RetroTector")] [("executer", VStr "")] _
              eq_refl eq_refl eq_refl) as (Hfallback & _).
  exact (Hfallback "executer" "executer" "Executor" VNone Hin).
Defined.

Lemma run_metadata_null_number_witness :
  py_get (VDict [("footer", VDict [("BrokenPasses", VNone)])]) "footer" (VDict [])
  = Ok (VDict [("BrokenPasses", VNone)]) /\
  In ("broken_passes", "BrokenPasses") (run_int_columns ++ run_float_columns) /\
  dict_get [("BrokenPasses", VNone)] "BrokenPasses" = Some VNone /\
  exists e,
    parse_run_metadata no_int no_float
      (VDict [("footer", VDict [("BrokenPasses", VNone)])]) = Raise e.
Proof.
  assert (Hin : In ("broken_passes", "BrokenPasses")
                   (run_int_columns ++ run_float_columns)) by (simpl; auto 20).
  split; [reflexivity | ]. split; [exact Hin | ]. split; [reflexivity | ].
  apply (run_metadata_null_number no_int no_float
           (VDict [("footer", VDict [("BrokenPasses", VNone)])])
           [("BrokenPasses", VNone)] "broken_passes" "BrokenPasses");
    [reflexivity | exact Hin | reflexivity].
Defined.
